(** * The AOS knowledge-base tools: embedding, vector store gateway,
      ingestion pipeline and similarity search

    A shallow embedding of
    - [aos_setup/doc_ingest/aos_client.py]   (class [OpenSearchClient]),
    - [aos_setup/tools/embedding.py]        (class [EmbeddingTools]),
    - [aos_setup/doc_ingest/doc_ingest.py]  (class [DocumentIngestor]),
    - [app.py]                              (the Lambda tool module),
    - [serverless-mcp-setup/authorizer/app.py]  (the Lambda authorizer),
    - [strands_agent_test/similarity_search.py] (the MCP client and the
      agent tool),
    followed by the properties of these functions.

    The Python code is dynamically typed glue around two outside services
    (the OpenSearch client and the embedding HTTP API).  Python values are
    an inductive type of JSON-like data, dictionaries are finite maps with
    string keys, an exception is an alternative outcome of every operation
    that can raise, and the outside services are an environment [Env] that
    answers each request with a value or an exception and is threaded
    through a state-and-exception monad together with the log of the
    requests made. *)

From Stdlib Require Import ZArith String Ascii List Bool Lia.
From Stdlib.Floats Require Import SpecFloat.
From stdpp Require Import base option list gmap strings fin_maps pretty.

#[local] Set Warnings "-register-all".
#[local] Open Scope string_scope.
#[local] Open Scope list_scope.
#[local] Open Scope Z_scope.

(** ** Python values *)

(** JSON-like values: what [json.loads] produces, what the OpenSearch client
    returns and what the tools build.  A [float] is an IEEE-754 number. *)
Inductive value : Type :=
| VNone
| VBool (b : bool)
| VInt (n : Z)
| VFloat (f : spec_float)
| VStr (s : string)
| VList (l : list value)
| VDict (d : gmap string value).

(** The name Python prints for the type of a value. *)
Definition type_name (v : value) : string :=
  match v with
  | VNone => "NoneType"
  | VBool _ => "bool"
  | VInt _ => "int"
  | VFloat _ => "float"
  | VStr _ => "str"
  | VList _ => "list"
  | VDict _ => "dict"
  end.

(** ** Exceptions *)

(** The classes the [except] clauses of the code tell apart, each standing
    for the class and its subclasses, and the built-in errors raised by the
    operations on values.  Every class here derives from [Exception]. *)
Inductive exn_class : Type :=
| OSConnectionError        (* opensearchpy.exceptions.ConnectionError *)
| OSRequestError           (* opensearchpy.exceptions.RequestError *)
| OSNotFoundError          (* opensearchpy.exceptions.NotFoundError *)
| RequestException         (* requests.exceptions.RequestException *)
| TypeError
| AttributeError
| KeyError
| IndexError
| OtherException (name : string).

(** An exception object: its class and [str(e)]. *)
Record exn : Type := Exn { exn_kind : exn_class; exn_str : string }.

Inductive outcome (A : Type) : Type :=
| Returned (a : A)
| Raised (e : exn).
Arguments Returned {A} a.
Arguments Raised {A} e.

#[global] Instance outcome_ret : MRet outcome := fun _ a => Returned a.
#[global] Instance outcome_bind : MBind outcome := fun _ _ f o =>
  match o with
  | Returned a => f a
  | Raised e => Raised e
  end.

(** ** Operations of the language on values *)

Definition float_is_zero (f : spec_float) : bool :=
  match f with S754_zero _ => true | _ => false end.

(** [bool(v)], as [if v] and [not v] use it. *)
Definition py_truthy (v : value) : bool :=
  match v with
  | VNone => false
  | VBool b => b
  | VInt n => negb (n =? 0)
  | VFloat f => negb (float_is_zero f)
  | VStr s => negb (String.eqb s "")
  | VList l => match l with [] => false | _ => true end
  | VDict d => negb (bool_decide (d = ∅))
  end.

(** [v == "s"] for a string literal. *)
Definition py_eq_str (v : value) (s : string) : bool :=
  match v with
  | VStr s' => String.eqb s' s
  | _ => false
  end.

(** [len(v)] *)
Definition py_len (v : value) : outcome Z :=
  match v with
  | VStr s => Returned (Z.of_nat (String.length s))
  | VList l => Returned (Z.of_nat (length l))
  | VDict d => Returned (Z.of_nat (size d))
  | _ => Raised (Exn TypeError ("object of type '" +:+ type_name v +:+ "' has no len()"))
  end.

(** [v.get(key, dflt)] *)
Definition py_get (v : value) (key : string) (dflt : value) : outcome value :=
  match v with
  | VDict d => Returned (default dflt (d !! key))
  | _ => Raised (Exn AttributeError ("'" +:+ type_name v +:+ "' object has no attribute 'get'"))
  end.

(** [v[key]] for a string key. *)
Definition py_getitem (v : value) (key : string) : outcome value :=
  match v with
  | VDict d =>
      match d !! key with
      | Some x => Returned x
      | None => Raised (Exn KeyError ("'" +:+ key +:+ "'"))
      end
  | VList _ => Raised (Exn TypeError "list indices must be integers or slices, not str")
  | VStr _ => Raised (Exn TypeError "string indices must be integers, not 'str'")
  | _ => Raised (Exn TypeError ("'" +:+ type_name v +:+ "' object is not subscriptable"))
  end.

(** [v[0]] *)
Definition py_getitem0 (v : value) : outcome value :=
  match v with
  | VList l =>
      match l with
      | x :: _ => Returned x
      | [] => Raised (Exn IndexError "list index out of range")
      end
  | VStr s =>
      match s with
      | String c _ => Returned (VStr (String c EmptyString))
      | EmptyString => Raised (Exn IndexError "string index out of range")
      end
  | VDict _ => Raised (Exn KeyError "0")
  | _ => Raised (Exn TypeError ("'" +:+ type_name v +:+ "' object is not subscriptable"))
  end.

(** [key in v] for a string key. *)
Definition py_contains (key : string) (v : value) : outcome bool :=
  match v with
  | VDict d => Returned (bool_decide (is_Some (d !! key)))
  | VList l => Returned (existsb (fun x => py_eq_str x key) l)
  | VStr s => Returned (match String.index 0%nat key s with Some _ => true | None => false end)
  | _ => Raised (Exn TypeError ("argument of type '" +:+ type_name v +:+ "' is not iterable"))
  end.

Fixpoint chars (s : string) : list value :=
  match s with
  | EmptyString => []
  | String c s' => VStr (String c EmptyString) :: chars s'
  end.

(** The elements [for x in v] visits.  A dictionary yields its keys; no
    property below depends on the order in which it does. *)
Definition py_iter (v : value) : outcome (list value) :=
  match v with
  | VList l => Returned l
  | VStr s => Returned (chars s)
  | VDict d => Returned (VStr <$> (map_to_list d).*1)
  | _ => Raised (Exn TypeError ("'" +:+ type_name v +:+ "' object is not iterable"))
  end.

(** [v.items()] *)
Definition py_items (v : value) : outcome (gmap string value) :=
  match v with
  | VDict d => Returned d
  | _ => Raised (Exn AttributeError ("'" +:+ type_name v +:+ "' object has no attribute 'items'"))
  end.

(** *** Numbers and their order *)

Inductive number : Type :=
| NInt (n : Z)
| NFloat (f : spec_float).

Definition number_value (x : number) : value :=
  match x with
  | NInt n => VInt n
  | NFloat f => VFloat f
  end.

(** [bool] is a subclass of [int]. *)
Definition as_number (v : value) : option number :=
  match v with
  | VBool b => Some (NInt (if b then 1 else 0))
  | VInt n => Some (NInt n)
  | VFloat f => Some (NFloat f)
  | _ => None
  end.

(** A float against an integer: Python compares the exact values.  A finite
    float is [(-1)^s * m * 2^e]. *)
Definition float_compare_int (f : spec_float) (n : Z) : option comparison :=
  match f with
  | S754_nan => None
  | S754_infinity s => Some (if s then Lt else Gt)
  | S754_zero _ => Some (0 ?= n)
  | S754_finite s m e =>
      let v := if s then Z.neg m else Z.pos m in
      Some (if 0 <=? e then (v * 2 ^ e ?= n) else (v ?= n * 2 ^ (- e)))
  end.

(** [None] when one side is a NaN: every ordered comparison is then false. *)
Definition number_compare (x y : number) : option comparison :=
  match x, y with
  | NInt a, NInt b => Some (a ?= b)
  | NFloat a, NFloat b => SFcompare a b
  | NFloat a, NInt b => float_compare_int a b
  | NInt a, NFloat b => CompOpp <$> float_compare_int b a
  end.

Definition number_gt (x y : number) : bool :=
  match number_compare x y with Some Gt => true | _ => false end.

Definition number_le (x y : number) : bool :=
  match number_compare x y with Some Lt | Some Eq => true | _ => false end.

Definition not_supported (op : string) (v : value) (y : number) : exn :=
  Exn TypeError ("'" +:+ op +:+ "' not supported between instances of '"
                 +:+ type_name v +:+ "' and '" +:+ type_name (number_value y) +:+ "'").

(** [v > y] and [v <= y] against a number [y]. *)
Definition py_gt (v : value) (y : number) : outcome bool :=
  match as_number v with
  | Some x => Returned (number_gt x y)
  | None => Raised (not_supported ">" v y)
  end.

Definition py_le (v : value) (y : number) : outcome bool :=
  match as_number v with
  | Some x => Returned (number_le x y)
  | None => Raised (not_supported "<=" v y)
  end.

(** [v.copy()]: dictionaries and lists have the method. *)
Definition py_copy (v : value) : outcome value :=
  match v with
  | VDict d => Returned (VDict d)
  | VList l => Returned (VList l)
  | _ => Raised (Exn AttributeError ("'" +:+ type_name v +:+ "' object has no attribute 'copy'"))
  end.

(** [v[key] = x] for a string key: the value after the assignment. *)
Definition py_setitem (v : value) (key : string) (x : value) : outcome value :=
  match v with
  | VDict d => Returned (VDict (<[key := x]> d))
  | VList _ => Raised (Exn TypeError "list indices must be integers or slices, not str")
  | _ => Raised (Exn TypeError
                   ("'" +:+ type_name v +:+ "' object does not support item assignment"))
  end.

(** [v == n] for an integer literal, as in [status_code == 200]. *)
Definition py_eq_int (v : value) (n : Z) : bool :=
  match as_number v with
  | Some x => match number_compare x (NInt n) with Some Eq => true | _ => false end
  | None => false
  end.

(** [s[n:]] on a string. *)
Fixpoint drop_chars (n : nat) (s : string) : string :=
  match n, s with
  | O, _ => s
  | S n', String _ s' => drop_chars n' s'
  | S _, EmptyString => EmptyString
  end.

(** [s.startswith(p)] on strings. *)
Fixpoint starts_with (p s : string) : bool :=
  match p, s with
  | EmptyString, _ => true
  | String a p', String b s' => Ascii.eqb a b && starts_with p' s'
  | String _ _, EmptyString => false
  end.

(** [v.startswith(p)] *)
Definition py_startswith (v : value) (p : string) : outcome bool :=
  match v with
  | VStr s => Returned (starts_with p s)
  | _ => Raised (Exn AttributeError
                   ("'" +:+ type_name v +:+ "' object has no attribute 'startswith'"))
  end.

(** [str(v)] as an f-string formats a value: a string is itself; for the
    other values the text is that of the built-in [repr], which is taken as
    given. *)
Definition py_str (repr : value → string) (v : value) : string :=
  match v with
  | VStr s => s
  | _ => repr v
  end.

(** [v[n:]] *)
Definition py_slice_from (n : nat) (v : value) : outcome value :=
  match v with
  | VStr s => Returned (VStr (drop_chars n s))
  | VList l => Returned (VList (drop n l))
  | _ => Raised (Exn TypeError ("'" +:+ type_name v +:+ "' object is not subscriptable"))
  end.

(** [v == t] for [t] a string or [None]. *)
Definition py_eq_opt_str (v : value) (t : option string) : bool :=
  match t with
  | Some s => py_eq_str v s
  | None => match v with VNone => true | _ => false end
  end.

(** ** The outside world *)

(** The text [json.dumps(v)] produces, kept as the value it serialises;
    [json.dumps] is total on the values above. *)
Inductive json_text : Type := Dumps (v : value).

Definition json_dumps (v : value) : json_text := Dumps v.

(** The calls made on the [opensearchpy.OpenSearch] client. *)
Inductive os_request : Type :=
| IndicesExists (index : string)
| IndicesCreate (index : string) (body : option value)
| Search (body : json_text) (index : string) (size : value)
| Index (index : string) (id : option string) (body : value) (refresh : bool)
| Delete (index : string) (id : string) (refresh : bool)
| Bulk (body : list value) (refresh : bool).

(** [requests.post(url, json=..., headers=...)] and the response object. *)
Record http_request : Type := HttpRequest {
  req_url : string;
  req_json : value;
  req_headers : gmap string string
}.

Record http_response : Type := HttpResponse {
  status_code : Z;
  reason : string;
  url : string;
  json : outcome value          (* what [response.json()] does *)
}.

(** [response.raise_for_status()]: an [HTTPError], which is a
    [RequestException], for the 4xx and 5xx codes. *)
Definition raise_for_status (r : http_response) : outcome unit :=
  if (400 <=? status_code r) && (status_code r <? 500) then
    Raised (Exn RequestException
              (pretty (status_code r) +:+ " Client Error: " +:+ reason r +:+ " for url: " +:+ url r))
  else if (500 <=? status_code r) && (status_code r <? 600) then
    Raised (Exn RequestException
              (pretty (status_code r) +:+ " Server Error: " +:+ reason r +:+ " for url: " +:+ url r))
  else Returned tt.

(** The services the code talks to: each request is answered, in a world
    [W], by a value or an exception, and changes the world. *)
Record Env (W : Type) : Type := {
  opensearch : os_request -> W -> outcome value * W;
  requests_post : http_request -> W -> outcome http_response * W;
  read_file : string -> W -> outcome string * W
}.
Arguments opensearch {W} _ _ _.
Arguments requests_post {W} _ _ _.
Arguments read_file {W} _ _ _.

Inductive event : Type :=
| OS (r : os_request)
| HTTP (r : http_request)
| ReadFile (path : string).

(** ** Programs: state and exceptions *)

Section Monad.
Context {W : Type}.

(** The world and the requests issued so far, oldest first. *)
Record state : Type := State { world : W; issued : list event }.

Definition M (A : Type) : Type := state -> outcome A * state.

Definition ret {A} (a : A) : M A := fun s => (Returned a, s).

Definition raise {A} (e : exn) : M A := fun s => (Raised e, s).

Definition bind {A B} (m : M A) (k : A -> M B) : M B := fun s =>
  match m s with
  | (Returned a, s') => k a s'
  | (Raised e, s') => (Raised e, s')
  end.

(** [try: m  except Exception as e: h e] *)
Definition try_except {A} (m : M A) (h : exn -> M A) : M A := fun s =>
  match m s with
  | (Returned a, s') => (Returned a, s')
  | (Raised e, s') => h e s'
  end.

Definition lift {A} (o : outcome A) : M A := fun s => (o, s).

Context (env : Env W).

Definition os_call (r : os_request) : M value := fun s =>
  let (o, w) := opensearch env r (world s) in
  (o, State w (issued s ++ [OS r])).

Definition http_post (r : http_request) : M http_response := fun s =>
  let (o, w) := requests_post env r (world s) in
  (o, State w (issued s ++ [HTTP r])).

Definition open_read (path : string) : M string := fun s =>
  let (o, w) := read_file env path (world s) in
  (o, State w (issued s ++ [ReadFile path])).
End Monad.
Arguments state W : clear implicits.
Arguments M W A : clear implicits.

Notation "x <- m ;; k" := (bind m (fun x => k))
  (at level 100, m at next level, right associativity,
   format "'[v' x  <-  m  ;; '/' k ']'").

(** ** aos_client.py *)

Module AosClient.

(** [self]: the index name; the other constructor arguments configure the
    connection of the client the environment stands for. *)
Record OpenSearchClient : Type := { index_name : string }.

Section Methods.
Context {W : Type} (env : Env W) (self : OpenSearchClient).

Definition search_documents (query : json_text) (size : value) : M W value :=
  try_except
    (index_exists <- os_call env (IndicesExists (index_name self)) ;;
     if negb (py_truthy index_exists) then
       ret (VDict {[ "status" := VStr "error";
                     "message" := VStr ("Index " +:+ index_name self +:+ " does not exist");
                     "results" := VList [] ]})
     else
       search_results <- os_call env (Search query (index_name self) size) ;;
       ret (VDict {[ "status" := VStr "success"; "results" := search_results ]}))
    (fun e =>
       match exn_kind e with
       | OSConnectionError =>
           ret (VDict {[ "status" := VStr "error";
                         "message" := VStr ("Connection error: " +:+ exn_str e);
                         "results" := VList [] ]})
       | OSRequestError =>
           ret (VDict {[ "status" := VStr "error";
                         "message" := VStr ("Invalid query: " +:+ exn_str e);
                         "results" := VList [] ]})
       | _ =>
           ret (VDict {[ "status" := VStr "error";
                         "message" := VStr ("Unexpected error: " +:+ exn_str e);
                         "results" := VList [] ]})
       end).

(** The [except] clauses shared by [write_document] and [index_document]. *)
Definition invalid_document (e : exn) : M W value :=
  match exn_kind e with
  | OSConnectionError =>
      ret (VDict {[ "status" := VStr "error";
                    "message" := VStr ("Connection error: " +:+ exn_str e) ]})
  | OSRequestError =>
      ret (VDict {[ "status" := VStr "error";
                    "message" := VStr ("Invalid document: " +:+ exn_str e) ]})
  | _ =>
      ret (VDict {[ "status" := VStr "error";
                    "message" := VStr ("Unexpected error: " +:+ exn_str e) ]})
  end.

Definition write_document (document_id : string) (document : value) : M W value :=
  try_except
    (index_exists <- os_call env (IndicesExists (index_name self)) ;;
     _ <- (if negb (py_truthy index_exists)
           then os_call env (IndicesCreate (index_name self) None)
           else ret VNone) ;;
     response <- os_call env (Index (index_name self) (Some document_id) document true) ;;
     ret (VDict {[ "status" := VStr "success"; "response" := response ]}))
    invalid_document.

Definition index_document (document : value) : M W value :=
  try_except
    (index_exists <- os_call env (IndicesExists (index_name self)) ;;
     _ <- (if negb (py_truthy index_exists)
           then os_call env (IndicesCreate (index_name self) None)
           else ret VNone) ;;
     response <- os_call env (Index (index_name self) None document true) ;;
     ret (VDict {[ "status" := VStr "success"; "response" := response ]}))
    invalid_document.

Definition delete_document (document_id : string) : M W value :=
  try_except
    (index_exists <- os_call env (IndicesExists (index_name self)) ;;
     if negb (py_truthy index_exists) then
       ret (VDict {[ "status" := VStr "error";
                     "message" := VStr ("Index " +:+ index_name self +:+ " does not exist") ]})
     else
       response <- os_call env (Delete (index_name self) document_id true) ;;
       ret (VDict {[ "status" := VStr "success"; "response" := response ]}))
    (fun e =>
       match exn_kind e with
       | OSNotFoundError =>
           ret (VDict {[ "status" := VStr "error";
                         "message" := VStr ("Document with ID " +:+ document_id +:+ " not found") ]})
       | _ =>
           ret (VDict {[ "status" := VStr "error";
                         "message" := VStr ("Unexpected error: " +:+ exn_str e) ]})
       end).
End Methods.
End AosClient.

(** ** tools/embedding.py *)

Module Embedding.
Import AosClient.

(** [self]: [api_token] is [None] unless the caller gave one. *)
Record EmbeddingTools : Type := {
  aos_client : OpenSearchClient;
  api_token : option string
}.

Definition embedding_api_url : string := "https://api.siliconflow.cn/v1/embeddings".
Definition default_model : string := "Pro/BAAI/bge-m3".
Definition vector_field : string := "dense_vector".
Definition vector_dimension : Z := 1024.

(** A string option that is truthy: neither [None] nor [""]. *)
Definition truthy_str (o : option string) : option string :=
  match o with
  | Some s => if String.eqb s "" then None else Some s
  | None => None
  end.

Section Methods.
Context {W : Type} (env : Env W) (self : EmbeddingTools).

Definition generate_embedding (text : value) (model : option string) : M W value :=
  match truthy_str (api_token self) with
  | None =>
      ret (VDict {[ "status" := VStr "error";
                    "message" := VStr "API token not configured for embedding service" ]})
  | Some token =>
      try_except
        (let model_name := default default_model (truthy_str model) in
         let payload := VDict {[ "model" := VStr model_name;
                                 "input" := text;
                                 "encoding_format" := VStr "float" ]} in
         let headers : gmap string string :=
           {[ "Authorization" := "Bearer " +:+ token;
              "Content-Type" := "application/json" ]} in
         response <- http_post env (HttpRequest embedding_api_url payload headers) ;;
         _ <- lift (raise_for_status response) ;;
         result <- lift (json response) ;;
         embedding <- lift (data ← py_get result "data" (VList [VDict ∅]);
                            first ← py_getitem0 data;
                            py_get first "embedding" (VList [])) ;;
         ret (VDict {[ "status" := VStr "success";
                       "embedding" := embedding;
                       "model" := VStr model_name ]}))
        (fun e =>
           match exn_kind e with
           | RequestException =>
               ret (VDict {[ "status" := VStr "error";
                             "message" := VStr ("API request failed: " +:+ exn_str e) ]})
           | _ =>
               ret (VDict {[ "status" := VStr "error";
                             "message" := VStr ("Unexpected error: " +:+ exn_str e) ]})
           end)
  end.

(** The first loop of [bulk_index_with_embeddings]: one embedding request
    per document that has the text field; a document goes to
    [processed_docs] with its vector or to [failed_docs] with a reason. *)
Fixpoint embed_documents (documents : list (gmap string value)) (text_field : string)
    (processed_docs : list (gmap string value)) (failed_docs : list value)
    : M W (list (gmap string value) * list value) :=
  match documents with
  | [] => ret (processed_docs, failed_docs)
  | doc :: documents' =>
      match doc !! text_field with
      | None =>
          embed_documents documents' text_field processed_docs
            (failed_docs ++
               [VDict {[ "doc" := VDict doc;
                         "reason" := VStr ("Missing text field '" +:+ text_field +:+ "'") ]}])
      | Some text =>
          embedding_result <- generate_embedding text None ;;
          status <- lift (py_getitem embedding_result "status") ;;
          if negb (py_eq_str status "success") then
            message <- lift (py_getitem embedding_result "message") ;;
            embed_documents documents' text_field processed_docs
              (failed_docs ++ [VDict {[ "doc" := VDict doc; "reason" := message ]}])
          else
            embedding <- lift (py_getitem embedding_result "embedding") ;;
            embed_documents documents' text_field
              (processed_docs ++ [<[vector_field := embedding]> doc]) failed_docs
      end
  end.

(** The second loop: an action header, then the document without its
    [_id], for every processed document. *)
Fixpoint bulk_data (processed_docs : list (gmap string value)) : list value :=
  match processed_docs with
  | [] => []
  | doc :: processed_docs' =>
      match doc !! "_id" with
      | Some doc_id =>
          VDict {[ "index" := VDict {[ "_index" := VStr (index_name (aos_client self));
                                       "_id" := doc_id ]} ]}
          :: VDict (delete "_id" doc) :: bulk_data processed_docs'
      | None =>
          VDict {[ "index" := VDict {[ "_index" := VStr (index_name (aos_client self)) ]} ]}
          :: VDict doc :: bulk_data processed_docs'
      end
  end.

Definition bulk_index_with_embeddings (documents : list (gmap string value))
    (text_field : string) : M W value :=
  try_except
    (lists <- embed_documents documents text_field [] [] ;;
     let processed_docs := lists.1 in
     let failed_docs := lists.2 in
     match processed_docs with
     | [] =>
         ret (VDict {[ "status" := VStr "error";
                       "message" := VStr "No documents were processed successfully";
                       "failed_docs" := VList failed_docs ]})
     | _ =>
         response <- os_call env (Bulk (bulk_data processed_docs) true) ;;
         ret (VDict {[ "status" := VStr "success";
                       "response" := response;
                       "processed_count" := VInt (Z.of_nat (length processed_docs));
                       "failed_count" := VInt (Z.of_nat (length failed_docs));
                       "failed_docs" := match failed_docs with
                                        | [] => VNone
                                        | _ => VList failed_docs
                                        end ]})
     end)
    (fun e =>
       ret (VDict {[ "status" := VStr "error";
                     "message" := VStr ("Bulk indexing error: " +:+ exn_str e) ]})).
End Methods.
End Embedding.

(** ** doc_ingest/doc_ingest.py *)

Module DocIngest.
Import AosClient Embedding.

(** [self].  [text_splitter] is the [RecursiveCharacterTextSplitter] built
    from the chunk size and overlap; its [split_text] is library code and
    is taken as given. *)
Record DocumentIngestor : Type := {
  aos_client : OpenSearchClient;
  embedding_api_token : option string;
  text_splitter : string -> outcome (list string)
}.

Definition embedding_tools (self : DocumentIngestor) : EmbeddingTools :=
  {| Embedding.aos_client := aos_client self;
     Embedding.api_token := embedding_api_token self |}.

Definition mapping : value :=
  VDict {[
    "settings" := VDict {[
      "index" := VDict {[
        "number_of_shards" := VInt 1;
        "number_of_replicas" := VInt 0;
        "refresh_interval" := VStr "60s";
        "knn" := VBool true;
        "knn.algo_param.ef_search" := VInt 32 ]} ]};
    "mappings" := VDict {[
      "properties" := VDict {[
        "dense_vector" := VDict {[
          "type" := VStr "knn_vector";
          "dimension" := VInt 1024;
          "method" := VDict {[
            "name" := VStr "hnsw";
            "space_type" := VStr "innerproduct";
            "engine" := VStr "faiss";
            "parameters" := VDict {[ "ef_construction" := VInt 32; "m" := VInt 16 ]} ]} ]};
        "text" := VDict {[ "type" := VStr "text" ]};
        "metadata" := VDict {[ "type" := VStr "object" ]} ]} ]} ]}.

Fixpoint has_slash (p : string) : bool :=
  match p with
  | EmptyString => false
  | String c p' => Ascii.eqb c "/" || has_slash p'
  end.

(** [os.path.basename] (POSIX): what follows the last slash. *)
Fixpoint basename (p : string) : string :=
  match p with
  | EmptyString => EmptyString
  | String c p' =>
      if has_slash p' then basename p'
      else if Ascii.eqb c "/" then p' else p
  end.

(** The documents [process_file] builds from the chunks.  [metadata or {}]
    is the caller's dictionary, or an empty one; the two entries are then
    stored into it. *)
Definition build_documents (file_path : string) (metadata : option (gmap string value))
    (chunks : list string) : list (gmap string value) :=
  let base_metadata :=
    <["filename" := VStr (basename file_path)]>
      (<["source" := VStr file_path]> (default ∅ metadata)) in
  imap (fun i chunk =>
          {[ "text" := VStr chunk;
             "metadata" := VDict (<["chunk_count" := VInt (Z.of_nat (length chunks))]>
                                    (<["chunk_index" := VInt (Z.of_nat i)]> base_metadata)) ]})
       chunks.

Section Methods.
Context {W : Type} (env : Env W) (self : DocumentIngestor).

Definition create_index_if_not_exists : M W value :=
  index_exists <- os_call env (IndicesExists (index_name (aos_client self))) ;;
  if negb (py_truthy index_exists) then
    _ <- os_call env (IndicesCreate (index_name (aos_client self)) (Some mapping)) ;;
    ret VNone
  else ret VNone.

(** The [except] clause logs and re-raises. *)
Definition read_text_file (file_path : string) : M W string :=
  open_read env file_path.

Definition split_text (text : string) : M W (list string) :=
  lift (text_splitter self text).

Definition process_file (file_path : string) (metadata : option (gmap string value))
    : M W value :=
  try_except
    (_ <- create_index_if_not_exists ;;
     text <- read_text_file file_path ;;
     chunks <- split_text text ;;
     let documents := build_documents file_path metadata chunks in
     result <- bulk_index_with_embeddings env (embedding_tools self) documents "text" ;;
     (* the two log lines read a field of the result *)
     status <- lift (py_getitem result "status") ;;
     _ <- lift (if py_eq_str status "success"
                then py_getitem result "processed_count"
                else py_getitem result "message") ;;
     ret result)
    (fun e => ret (VDict {[ "status" := VStr "error"; "message" := VStr (exn_str e) ]})).
End Methods.
End DocIngest.

(** ** app.py *)

Module App.
Import AosClient.

(** The module-level configuration read from the process environment. *)
Record Config : Type := {
  opensearch_index : string;
  embedding_api_token : string
}.

Definition EMBEDDING_API_URL : string := "https://api.siliconflow.cn/v1/embeddings".
Definition DEFAULT_MODEL : string := "Pro/BAAI/bge-m3".
Definition VECTOR_FIELD : string := "dense_vector".
Definition VECTOR_DIMENSION : Z := 1024.

Definition aos_client (cfg : Config) : OpenSearchClient :=
  {| index_name := opensearch_index cfg |}.

(** The k-NN query [knn_search] builds. *)
Definition knn_query (vector k : value) : value :=
  VDict {[
    "size" := k;
    "query" := VDict {[
      "knn" := VDict {[ VECTOR_FIELD := VDict {[ "vector" := vector; "k" := k ]} ]} ]};
    "_source" := VDict {[ "excludes" := VList [VStr VECTOR_FIELD] ]} ]}.

(** The body of the loop over the hits: one simplified result. *)
Definition simplify_hit (hit : value) : outcome value :=
  source ← py_get hit "_source" (VDict ∅);
  hit_id ← py_get hit "_id" VNone;
  hit_score ← py_get hit "_score" VNone;
  text ← py_get source "text" (VStr "");
  items ← py_items source;
  Returned (VDict {[
    "id" := hit_id;
    "score" := hit_score;
    "text" := text;
    "metadata" :=
      VDict (filter (fun kv : string * value => kv.1 ≠ "text" ∧ kv.1 ≠ VECTOR_FIELD) items) ]}).

Fixpoint simplify_hits (hits : list value) (simplified_results : list value)
    : outcome (list value) :=
  match hits with
  | [] => Returned simplified_results
  | hit :: hits' =>
      r ← simplify_hit hit;
      simplify_hits hits' (simplified_results ++ [r])
  end.

(** The list comprehension of [text_similarity_search]. *)
Fixpoint filter_results (results : list value) (score : number) : outcome (list value) :=
  match results with
  | [] => Returned []
  | result :: results' =>
      v ← py_get result "score" (VInt 0);
      keep ← py_gt v score;
      rest ← filter_results results' score;
      Returned (if keep : bool then result :: rest else rest)
  end.

Section Tools.
Context {W : Type} (env : Env W) (cfg : Config).

Definition generate_embedding (text : value) (model : option string) : M W value :=
  if negb (py_truthy (VStr (embedding_api_token cfg))) then
    ret (VDict {[ "status" := VStr "error";
                  "message" := VStr "API token not configured for embedding service" ]})
  else
    try_except
      (let model_name := default DEFAULT_MODEL (Embedding.truthy_str model) in
       let payload := VDict {[ "model" := VStr model_name;
                               "input" := text;
                               "encoding_format" := VStr "float" ]} in
       let headers : gmap string string :=
         {[ "Authorization" := "Bearer " +:+ embedding_api_token cfg;
            "Content-Type" := "application/json" ]} in
       response <- http_post env (HttpRequest EMBEDDING_API_URL payload headers) ;;
       _ <- lift (raise_for_status response) ;;
       result <- lift (json response) ;;
       embedding <- lift (data ← py_get result "data" (VList [VDict ∅]);
                          first ← py_getitem0 data;
                          py_get first "embedding" (VList [])) ;;
       ret (VDict {[ "status" := VStr "success";
                     "embedding" := embedding;
                     "model" := VStr model_name ]}))
      (fun e =>
         match exn_kind e with
         | RequestException =>
             ret (VDict {[ "status" := VStr "error";
                           "message" := VStr ("API request failed: " +:+ exn_str e) ]})
         | _ =>
             ret (VDict {[ "status" := VStr "error";
                           "message" := VStr ("Unexpected error: " +:+ exn_str e) ]})
         end).

Definition knn_search (vector : value) (k : value) : M W value :=
  try_except
    (n <- lift (py_len vector) ;;
     if negb (n =? VECTOR_DIMENSION) then
       ret (VDict {[ "status" := VStr "error";
                     "message" := VStr ("Vector dimension mismatch. Expected "
                                        +:+ pretty VECTOR_DIMENSION +:+ ", got " +:+ pretty n) ]})
     else
       let query := knn_query vector k in
       result <- search_documents env (aos_client cfg) (json_dumps query) k ;;
       status <- lift (py_getitem result "status") ;;
       has_results <- lift (if py_eq_str status "success"
                            then py_contains "results" result
                            else Returned false) ;;
       if has_results then
         simplified_results <-
           lift (results ← py_getitem result "results";
                 outer ← py_get results "hits" (VDict ∅);
                 hits ← py_get outer "hits" (VList []);
                 hits ← py_iter hits;
                 simplify_hits hits []) ;;
         ret (VDict {[ "status" := VStr "success";
                       "results" := VList simplified_results;
                       "total" := VInt (Z.of_nat (length simplified_results)) ]})
       else ret result)
    (fun e =>
       ret (VDict {[ "status" := VStr "error";
                     "message" := VStr ("kNN search error: " +:+ exn_str e) ]})).

(** The coroutine the tool runs to completion on a fresh event loop; an
    exception of the coroutine is the exception of the tool.  The threshold
    is declared [score: float]; it is a number here, integer or float. *)
Definition text_similarity_search (text : value) (k : value) (score : number)
    : M W value :=
  embedding_result <- generate_embedding text None ;;
  status <- lift (py_getitem embedding_result "status") ;;
  if negb (py_eq_str status "success") then ret embedding_result
  else
    embedding <- lift (py_getitem embedding_result "embedding") ;;
    search_result <- knn_search embedding k ;;
    status <- lift (py_getitem search_result "status") ;;
    if py_eq_str status "success" then
      filtered_results <- lift (results ← py_getitem search_result "results";
                                results ← py_iter results;
                                filter_results results score) ;;
      original_total <- lift (py_get search_result "total" (VInt 0)) ;;
      ret (VDict {[ "status" := VStr "success";
                    "query_text" := text;
                    "results" := VList filtered_results;
                    "total" := VInt (Z.of_nat (length filtered_results));
                    "score_threshold" := number_value score;
                    "original_total" := original_total ]})
    else ret search_result.
(** [json.loads] is library code, taken as the function [loads]; it raises a
    [JSONDecodeError] on a text that is not JSON. *)
Definition is_json_decode_error (e : exn) : bool :=
  match exn_kind e with
  | OtherException name => String.eqb name "JSONDecodeError"
  | _ => false
  end.

(** The coroutine of the tool [index_text_with_embedding].  [document_id] is
    [None] or a string; the empty string is falsy as [None] is. *)
Definition index_text_with_embedding (loads : string → outcome value)
    (text : value) (document_id : option string) (metadata : string) : M W value :=
  embedding_result <- generate_embedding text None ;;
  status <- lift (py_getitem embedding_result "status") ;;
  if negb (py_eq_str status "success") then ret embedding_result
  else
    match (if negb (String.eqb metadata "{}") then loads metadata else Returned (VDict ∅)) with
    | Raised e =>
        if is_json_decode_error e
        then ret (VDict {[ "status" := VStr "error";
                           "message" := VStr "Invalid metadata JSON format" ]})
        else raise e
    | Returned metadata_dict =>
        document <- lift (document ← py_copy metadata_dict;
                          document ← py_setitem document "text" text;
                          embedding ← py_getitem embedding_result "embedding";
                          py_setitem document VECTOR_FIELD embedding) ;;
        match Embedding.truthy_str document_id with
        | Some document_id => write_document env (aos_client cfg) document_id document
        | None => index_document env (aos_client cfg) document
        end
    end.
End Tools.
End App.

(** ** serverless-mcp-setup/authorizer/app.py *)

Module Authorizer.

(** [expected_token] is the environment variable [MCP_AUTH_TOKEN], [None]
    when it is not set; the context argument is not used. *)
Definition lambda_handler (expected_token : option string) (event : value) : outcome value :=
  token ← py_get event "authorizationToken" (VStr "");
  bearer ← py_startswith token "Bearer ";
  token ← (if bearer : bool then py_slice_from 7 token else Returned token);
  let effect := if py_eq_opt_str token expected_token then "Allow" else "Deny" in
  resource ← py_getitem event "methodArn";
  Returned (VDict {[
    "principalId" := VStr "mcp-user";
    "policyDocument" := VDict {[
      "Version" := VStr "2012-10-17";
      "Statement" := VList [VDict {[ "Action" := VStr "execute-api:Invoke";
                                     "Effect" := VStr effect;
                                     "Resource" := resource ]}] ]} ]}).
End Authorizer.

(** ** strands_agent_test/similarity_search.py *)

Module SimilaritySearch.

(** The response of [requests.post] as this client reads it: the status
    code, the headers, whose names compare without case and are kept in
    lower case here, and what [json()] does.  The 30 second timeout is an
    exception of the request like any other. *)
Record response : Type := Response {
  status_code : Z;
  headers : gmap string string;
  json : outcome value
}.

Module MCPClient.

(** [self]: the endpoint, the headers built from the token by the
    constructor, and the session id, [None] at first. *)
Record t : Type := Client {
  endpoint : value;
  auth_token : value;
  session_id : option string;
  client_headers : gmap string string
}.

Section Methods.
Context {W : Type} (post : http_request → W → outcome response * W) (repr : value → string).

Definition init (endpoint auth_token : value) : t :=
  {| endpoint := endpoint;
     auth_token := auth_token;
     session_id := None;
     client_headers := {[ "Content-Type" := "application/json";
                          "Authorization" := "Bearer " +:+ py_str repr auth_token ]} |}.

Definition requests_post (r : http_request) : M W response := fun s =>
  let (o, w) := post r (world s) in
  (o, State w (issued s ++ [HTTP r])).

(** The result of a failed attempt: [(None, {"error": str(e)})]. *)
Definition failed (e : exn) : value * value :=
  (VNone, VDict {[ "error" := VStr (exn_str e) ]}).

(** Returns the pair of the status code and the response data, and [self],
    whose session id the call may have set: the assignment stays when
    [json()] then raises.  The request is known by the text of the endpoint;
    what [requests.post] does with an endpoint that is no URL is an answer
    of [post] like any other. *)
Definition make_request (self : t) (method : string) (params : value) (request_id : Z)
    : M W (value * value * t) := fun s =>
  let payload : gmap string value :=
    {[ "jsonrpc" := VStr "2.0"; "id" := VInt request_id; "method" := VStr method ]} in
  let payload := if py_truthy params then <["params" := params]> payload else payload in
  let headers :=
    match Embedding.truthy_str (session_id self) with
    | Some sid => <["Mcp-Session-Id" := sid]> (client_headers self)
    | None => client_headers self
    end in
  match requests_post (HttpRequest (py_str repr (endpoint self)) (VDict payload) headers) s with
  | (Raised e, s') => (Returned (failed e, self), s')
  | (Returned response, s') =>
      let self' :=
        match SimilaritySearch.headers response !! "mcp-session-id" with
        | Some sid => {| endpoint := endpoint self; auth_token := auth_token self;
                         session_id := Some sid; client_headers := client_headers self |}
        | None => self
        end in
      match json response with
      | Returned data => (Returned (VInt (status_code response), data, self'), s')
      | Raised e => (Returned (failed e, self'), s')
      end
  end.

(** [status_code == 200 and "result" in response] *)
Definition has_result (status_code response : value) : outcome bool :=
  if py_eq_int status_code 200 then py_contains "result" response else Returned false.

Definition initialize (self : t) : M W (bool * t) :=
  r <- make_request self "initialize"
         (VDict {[ "protocolVersion" := VStr "2024-11-05";
                   "capabilities" := VDict {[ "tools" := VDict ∅ ]};
                   "clientInfo" := VDict {[ "name" := VStr "strands-similarity-search";
                                            "version" := VStr "1.0.0" ]} ]}) 1 ;;
  ok <- lift (has_result r.1.1 r.1.2) ;;
  ret (ok, r.2).

Definition similarity_search (self : t) (text k score : value) : M W (value * t) :=
  r <- make_request self "tools/call"
         (VDict {[ "name" := VStr "textSimilaritySearch";
                   "arguments" := VDict {[ "text" := text; "k" := k; "score" := score ]} ]}) 1 ;;
  let response := r.1.2 in
  ok <- lift (has_result r.1.1 response) ;;
  if ok : bool then
    content <- lift (result ← py_getitem response "result"; py_getitem result "content") ;;
    if py_truthy content then
      result_text <- lift (py_getitem0 content) ;;
      ret (result_text, r.2)
    else ret (VDict {[ "error" := VStr "No content in response" ]}, r.2)
  else ret (VDict {[ "error" := VStr ("API call failed: " +:+ py_str repr response) ]}, r.2).
End Methods.
End MCPClient.

Section Tool.
Context {W : Type} (post : http_request → W → outcome response * W) (repr : value → string).

Definition tool_error (tool_use_id : value) (text : string) : value :=
  VDict {[ "toolUseId" := tool_use_id;
           "status" := VStr "error";
           "content" := VList [VDict {[ "text" := VStr text ]}] ]}.

Definition similarity_search (tool : value) : M W value :=
  tool_use_id <- lift (py_getitem tool "toolUseId") ;;
  tool_input <- lift (py_getitem tool "input") ;;
  try_except
    (query_text <- lift (py_getitem tool_input "text") ;;
     k <- lift (py_get tool_input "k" (VInt 5)) ;;
     score_threshold <- lift (py_get tool_input "score" (VFloat (S754_zero false))) ;;
     api_endpoint <- lift (py_getitem tool_input "api_endpoint") ;;
     auth_token <- lift (py_getitem tool_input "auth_token") ;;
     let client := MCPClient.init repr api_endpoint auth_token in
     initialized <- MCPClient.initialize post repr client ;;
     if negb initialized.1 then
       ret (tool_error tool_use_id "Failed to initialize MCP session")
     else
       results <- MCPClient.similarity_search post repr initialized.2
                    query_text k score_threshold ;;
       ret (VDict {[ "toolUseId" := tool_use_id;
                     "status" := VStr "success";
                     "results" := results.1 ]}))
    (fun e => ret (tool_error tool_use_id ("Error during similarity search: " +:+ exn_str e))).
End Tool.
End SimilaritySearch.

(** ** Environments *)

(** Modelled from the spec: the search engine behind the client, which is
    no part of the repository.  A reference model of its index namespace for
    the requests that test, create, write and delete: an index holds the
    body it was created with and its documents by id.  A delete of an id
    that is not there is answered 404, which the client raises as
    [NotFoundError], and otherwise returns the deletion acknowledgment; a
    create of an index that exists is answered 400.  The other services are
    those of an arbitrary environment [rest]. *)
Module Store.

Record index : Type := MkIndex { index_body : option value; documents : gmap string value }.

Definition acknowledged (name : string) : value :=
  VDict {[ "acknowledged" := VBool true; "shards_acknowledged" := VBool true;
           "index" := VStr name ]}.

Definition written (name id : string) (fresh : bool) : value :=
  VDict {[ "_index" := VStr name; "_id" := VStr id;
           "result" := VStr (if fresh then "created" else "updated") ]}.

Definition deleted (name id : string) : value :=
  VDict {[ "_index" := VStr name; "_id" := VStr id; "result" := VStr "deleted" ]}.

Definition answer (r : os_request) (w : gmap string index) : outcome value * gmap string index :=
  match r with
  | IndicesExists name => (Returned (VBool (bool_decide (is_Some (w !! name)))), w)
  | IndicesCreate name body =>
      match w !! name with
      | Some _ =>
          (Raised (Exn OSRequestError
                     ("RequestError(400, 'resource_already_exists_exception', 'index ["
                      +:+ name +:+ "] already exists')")), w)
      | None => (Returned (acknowledged name), <[name := MkIndex body ∅]> w)
      end
  | Index name (Some id) body _ =>
      let ix := default (MkIndex None ∅) (w !! name) in
      (Returned (written name id (bool_decide (documents ix !! id = None))),
       <[name := MkIndex (index_body ix) (<[id := body]> (documents ix))]> w)
  | Delete name id _ =>
      match w !! name with
      | None =>
          (Raised (Exn OSNotFoundError
                     ("NotFoundError(404, 'index_not_found_exception', 'no such index ["
                      +:+ name +:+ "]')")), w)
      | Some ix =>
          match documents ix !! id with
          | None =>
              (Raised (Exn OSNotFoundError
                         ("NotFoundError(404, 'document [" +:+ id +:+ "] not found in index ["
                          +:+ name +:+ "]')")), w)
          | Some _ =>
              (Returned (deleted name id),
               <[name := MkIndex (index_body ix) (delete id (documents ix))]> w)
          end
      end
  | _ => (Raised (Exn (OtherException "NotImplementedError") "request outside the model"), w)
  end.

Definition env {W : Type} (rest : Env W) : Env (gmap string index * W) := {|
  opensearch r w := let (o, w1) := answer r w.1 in (o, (w1, w.2));
  requests_post r w := let (o, w2) := requests_post rest r w.2 in (o, (w.1, w2));
  read_file p w := let (o, w2) := read_file rest p w.2 in (o, (w.1, w2))
|}.
End Store.

(** An environment that plays back prepared answers, one per request of each
    service, in order. *)
Module Script.

Record script : Type := {
  os_answers : list (outcome value);
  http_answers : list (outcome http_response);
  file_answers : list (outcome string)
}.

Definition exhausted : exn := Exn (OtherException "RuntimeError") "no answer left".

Definition env : Env script := {|
  opensearch _ w :=
    match os_answers w with
    | o :: rest => (o, {| os_answers := rest; http_answers := http_answers w;
                          file_answers := file_answers w |})
    | [] => (Raised exhausted, w)
    end;
  requests_post _ w :=
    match http_answers w with
    | o :: rest => (o, {| os_answers := os_answers w; http_answers := rest;
                          file_answers := file_answers w |})
    | [] => (Raised exhausted, w)
    end;
  read_file _ w :=
    match file_answers w with
    | o :: rest => (o, {| os_answers := os_answers w; http_answers := http_answers w;
                          file_answers := rest |})
    | [] => (Raised exhausted, w)
    end
|}.

Definition start (os : list (outcome value)) (http : list (outcome http_response))
    (files : list (outcome string)) : state script :=
  State {| os_answers := os; http_answers := http; file_answers := files |} [].

(** An HTTP 200 answer carrying a JSON body. *)
Definition ok_json (body : value) : outcome http_response :=
  Returned (HttpResponse 200 "OK" "https://api.siliconflow.cn/v1/embeddings" (Returned body)).
End Script.

(** ** Vocabulary of the properties *)

(** [v[key]] when [v] is a dictionary that has the key. *)
Definition field (v : value) (key : string) : option value :=
  match v with
  | VDict d => d !! key
  | _ => None
  end.

Definition is_success (v : value) : Prop := field v "status" = Some (VStr "success").

Definition is_error (v : value) : Prop :=
  field v "status" = Some (VStr "error") ∧ ∃ m, field v "message" = Some (VStr m).

(** The uniform result shape: a dictionary whose status is success, or error
    with a message. *)
Definition uniform_result (v : value) : Prop :=
  (∃ d, v = VDict d) ∧ (is_success v ∨ is_error v).

(** The requests a run added to the log. *)
Definition issued_by {W A} (m : M W A) (s : state W) (evs : list event) : Prop :=
  issued (m s).2 = issued s ++ evs.

(** Nested lookup: [v[k1][k2]...] through dictionaries. *)
Fixpoint path (v : value) (keys : list string) : option value :=
  match keys with
  | [] => Some v
  | key :: keys' =>
      match field v key with
      | Some v' => path v' keys'
      | None => None
      end
  end.

Definition is_create (ev : event) : bool :=
  match ev with
  | OS (IndicesCreate _ _) => true
  | _ => false
  end.

(** The hits of a search response: [response["hits"]["hits"]], each level
    optional. *)
Definition hits_of (response : value) : outcome (list value) :=
  outer ← py_get response "hits" (VDict ∅);
  hits ← py_get outer "hits" (VList []);
  py_iter hits.

(** [r] is the hit [hit] reshaped: id, score and text, and as metadata every
    field of the source of the hit but the text and the vector. *)
Definition reshaped (hit r : value) : Prop :=
  ∃ (h source md : gmap string value),
    hit = VDict h ∧
    default (VDict ∅) (h !! "_source") = VDict source ∧
    r = VDict {[ "id" := default VNone (h !! "_id");
                 "score" := default VNone (h !! "_score");
                 "text" := default (VStr "") (source !! "text");
                 "metadata" := VDict md ]} ∧
    ∀ key, md !! key = if bool_decide (key = "text" ∨ key = "dense_vector")
                       then None else source !! key.

(** The embedding read off a response: [data[0].embedding] of the JSON body
    of a response that is not an HTTP error. *)
Definition response_embedding (response : http_response) : outcome value :=
  _ ← raise_for_status response;
  result ← json response;
  data ← py_get result "data" (VList [VDict ∅]);
  first ← py_getitem0 data;
  py_get first "embedding" (VList []).

Definition embedding_request (token : string) (text : value) (model : option string)
    : http_request :=
  HttpRequest "https://api.siliconflow.cn/v1/embeddings"
    (VDict {[ "model" := VStr (default "Pro/BAAI/bge-m3" (Embedding.truthy_str model));
              "input" := text;
              "encoding_format" := VStr "float" ]})
    {[ "Authorization" := "Bearer " +:+ token; "Content-Type" := "application/json" ]}.

Definition embedding_success (embedding : value) (model : option string) : value :=
  VDict {[ "status" := VStr "success";
           "embedding" := embedding;
           "model" := VStr (default "Pro/BAAI/bge-m3" (Embedding.truthy_str model)) ]}.

Definition error_result (message : string) : value :=
  VDict {[ "status" := VStr "error"; "message" := VStr message ]}.

(** An exception of the request attempt as [generate_embedding] reports it:
    by the class of the exception. *)
Definition embedding_failure (e : exn) : value :=
  error_result
    (match exn_kind e with
     | RequestException => "API request failed: "
     | _ => "Unexpected error: "
     end +:+ exn_str e).

(** The result for one attempt, from what the attempt came to. *)
Definition embedding_outcome (attempt : outcome value) (model : option string) : value :=
  match attempt with
  | Returned embedding => embedding_success embedding model
  | Raised e => embedding_failure e
  end.

(** The contract of an embedding function [generate] under a token: with no
    token the missing credential is reported and the state is untouched;
    with one, a single request is issued, and the result is that of the
    attempt, that is, of the request and of reading its response. *)
Definition embedding_contract {W} (env : Env W) (token : option string)
    (generate : value → option string → M W value) : Prop :=
  ∀ text model s,
    match Embedding.truthy_str token with
    | None =>
        generate text model s
        = (Returned (error_result "API token not configured for embedding service"), s)
    | Some tok =>
        let req := embedding_request tok text model in
        ∀ o w, requests_post env req (world s) = (o, w) →
          generate text model s
          = (Returned (embedding_outcome (o ≫= response_embedding) model),
             State w (issued s ++ [HTTP req]))
    end.

(** A result whose score is strictly greater than the threshold, hence not
    less than or equal to it. *)
Definition above_threshold (score : number) (result : value) : Prop :=
  ∃ v, field result "score" = Some v ∧
       py_gt v score = Returned true ∧ py_le v score = Returned false.

(** *** The embedding of the documents of a bulk indexing, in the words of
    the pipeline

    What becomes of one document: it is embedded, with the vector the
    embedding service returned for it, or it fails, with a reason. *)
Inductive verdict : Type :=
| Embedded (embedding : value)
| Failed (reason : string).

(** The verdict on a document is read off the document and the answer of the
    embedding service to the request for its text, and off nothing else: a
    document without the text field fails; without a token every document
    with a text fails; otherwise the document is embedded exactly when the
    request returns a response that is not an HTTP error and from which the
    vector can be read. *)
Definition verdict_of (token : option string) (text_field : string)
    (doc : gmap string value) (post : http_request → outcome http_response) : verdict :=
  match doc !! text_field with
  | None => Failed ("Missing text field '" +:+ text_field +:+ "'")
  | Some text =>
      match Embedding.truthy_str token with
      | None => Failed "API token not configured for embedding service"
      | Some tok =>
          match post (embedding_request tok text None) ≫= response_embedding with
          | Returned embedding => Embedded embedding
          | Raised e =>
              Failed (match exn_kind e with
                      | RequestException => "API request failed: "
                      | _ => "Unexpected error: "
                      end +:+ exn_str e)
          end
      end
  end.

(** The turn of one document in the state [s]: its verdict from the answer
    the service gives in that state, and the state after the turn, in which
    the request, if one was made, is logged. *)
Definition attempt {W} (env : Env W) (token : option string) (text_field : string)
    (doc : gmap string value) (s : state W) : verdict * state W :=
  (verdict_of token text_field doc (λ r, (requests_post env r (world s)).1),
   match doc !! text_field, Embedding.truthy_str token with
   | Some text, Some tok =>
       let req := embedding_request tok text None in
       State (requests_post env req (world s)).2 (issued s ++ [HTTP req])
   | _, _ => s
   end).

(** Every document has its turn, in order, whatever the verdicts before. *)
Fixpoint attempts {W} (env : Env W) (token : option string) (text_field : string)
    (docs : list (gmap string value)) (s : state W)
    : list (gmap string value * verdict) * state W :=
  match docs with
  | [] => ([], s)
  | doc :: docs' =>
      let turn := attempt env token text_field doc s in
      let rest := attempts env token text_field docs' turn.2 in
      ((doc, turn.1) :: rest.1, rest.2)
  end.

(** The embedded documents, each with its vector stored under the vector
    field, and the entries of the failed ones. *)
Definition processed_of (verdicts : list (gmap string value * verdict))
    : list (gmap string value) :=
  omap (λ dv : gmap string value * verdict,
          match dv.2 with
          | Embedded embedding => Some (<["dense_vector" := embedding]> dv.1)
          | Failed _ => None
          end) verdicts.

Definition failed_of (verdicts : list (gmap string value * verdict)) : list value :=
  omap (λ dv : gmap string value * verdict,
          match dv.2 with
          | Embedded _ => None
          | Failed reason => Some (VDict {[ "doc" := VDict dv.1; "reason" := VStr reason ]})
          end) verdicts.

Definition is_embedded (v : verdict) : bool :=
  match v with Embedded _ => true | Failed _ => false end.

(** How many documents of a run were embedded successfully: the number of
    documents whose own embedding request succeeded. *)
Definition embedded_count {W} (env : Env W) (self : Embedding.EmbeddingTools)
    (documents : list (gmap string value)) (text_field : string) (s : state W) : nat :=
  length (List.filter is_embedded
            (attempts env (Embedding.api_token self) text_field documents s).1.*2).

(** An answer of the embedding service that is not an HTTP error and whose
    JSON body is an object without [data], or whose first [data] item has no
    [embedding]. *)
Definition without_embedding (resp : http_response) : Prop :=
  raise_for_status resp = Returned tt ∧
  ∃ body : gmap string value,
    json resp = Returned (VDict body) ∧
    (body !! "data" = None
     ∨ ∃ first rest, body !! "data" = Some (VList (VDict first :: rest))
                     ∧ first !! "embedding" = None).

(** The success result of the bulk indexing. *)
Definition bulk_success (response : value) (processed : list (gmap string value))
    (failed : list value) : value :=
  VDict {[ "status" := VStr "success";
           "response" := response;
           "processed_count" := VInt (Z.of_nat (length processed));
           "failed_count" := VInt (Z.of_nat (length failed));
           "failed_docs" := match failed with [] => VNone | _ => VList failed end ]}.

(** How the gateway reports an exception of a search, and of a write. *)
Definition search_failure (e : exn) : value :=
  VDict {[ "status" := VStr "error";
           "message" := VStr (match exn_kind e with
                              | OSConnectionError => "Connection error: "
                              | OSRequestError => "Invalid query: "
                              | _ => "Unexpected error: "
                              end +:+ exn_str e);
           "results" := VList [] ]}.

Definition write_failure (e : exn) : value :=
  error_result (match exn_kind e with
                | OSConnectionError => "Connection error: "
                | OSRequestError => "Invalid document: "
                | _ => "Unexpected error: "
                end +:+ exn_str e).

Definition write_success (response : value) : value :=
  VDict {[ "status" := VStr "success"; "response" := response ]}.

(** The action header the bulk request carries for a document. *)
Definition bulk_header (index : string) (doc : gmap string value) : value :=
  VDict {[ "index" := VDict match doc !! "_id" with
                            | Some doc_id => {[ "_index" := VStr index; "_id" := doc_id ]}
                            | None => {[ "_index" := VStr index ]}
                            end ]}.

(** The texts of the documents that have the text field, in order. *)
Definition texts_of (text_field : string) (docs : list (gmap string value)) : list value :=
  omap (λ doc : gmap string value, doc !! text_field) docs.

(** The entry of a document that fails when no token is configured. *)
Definition failed_without_token (text_field : string) (doc : gmap string value) : value :=
  VDict {[ "doc" := VDict doc;
           "reason" := VStr (if bool_decide (is_Some (doc !! text_field))
                             then "API token not configured for embedding service"
                             else "Missing text field '" +:+ text_field +:+ "'") ]}.

(** Whether the score of a result is a number greater than the threshold. *)
Definition score_above (score : number) (result : value) : bool :=
  match field result "score" ≫= as_number with
  | Some x => number_gt x score
  | None => false
  end.

(** The document [index_text_with_embedding] writes: the metadata with the
    text and the vector stored over it. *)
Definition indexed_document (metadata : gmap string value) (text embedding : value) : value :=
  VDict (<["dense_vector" := embedding]> (<["text" := text]> metadata)).

(** The policy the authorizer returns: one statement about the invoked
    method. *)
Definition policy (effect : string) (resource : value) : value :=
  VDict {[ "principalId" := VStr "mcp-user";
           "policyDocument" := VDict {[
             "Version" := VStr "2012-10-17";
             "Statement" := VList [VDict {[ "Action" := VStr "execute-api:Invoke";
                                            "Effect" := VStr effect;
                                            "Resource" := resource ]}] ]} ]}.

(** A JSON-RPC request of the MCP client, with its parameters, under a token
    and, when there is one, a session id. *)
Definition mcp_request (url token : string) (sid : option string) (method : string)
    (params : value) : http_request :=
  HttpRequest url
    (VDict (<["params" := params]>
              {[ "jsonrpc" := VStr "2.0"; "id" := VInt 1; "method" := VStr method ]}))
    (let headers : gmap string string :=
       {[ "Content-Type" := "application/json"; "Authorization" := "Bearer " +:+ token ]} in
     match sid with
     | Some sid => <["Mcp-Session-Id" := sid]> headers
     | None => headers
     end).

Definition initialize_params : value :=
  VDict {[ "protocolVersion" := VStr "2024-11-05";
           "capabilities" := VDict {[ "tools" := VDict ∅ ]};
           "clientInfo" := VDict {[ "name" := VStr "strands-similarity-search";
                                    "version" := VStr "1.0.0" ]} ]}.

Definition search_params (text k score : value) : value :=
  VDict {[ "name" := VStr "textSimilaritySearch";
           "arguments" := VDict {[ "text" := text; "k" := k; "score" := score ]} ]}.

(** The two requests of the agent tool: [initialize], with no session id,
    and the search, which asks for [k] = 5 and [score] = 0.0 when the input
    of the tool does not give them. *)
Definition initialize_request (repr : value → string) (endpoint auth_token : value)
    : http_request :=
  mcp_request (py_str repr endpoint) (py_str repr auth_token) None "initialize"
    initialize_params.



(** The response data the client goes on with after a request: the JSON body
    of the answer, or [{"error": str(e)}] when the request or the reading of
    the body raised. *)
Definition seen_data (o : outcome SimilaritySearch.response) : value :=
  match o ≫= SimilaritySearch.json with
  | Returned data => data
  | Raised e => VDict {[ "error" := VStr (exn_str e) ]}
  end.

(** The status the client goes on with: the status code of the answer, or
    [None] when the request or the reading of the body raised. *)
Definition seen_status (o : outcome SimilaritySearch.response) : value :=
  match o with
  | Returned answer =>
      match SimilaritySearch.json answer with
      | Returned _ => VInt (SimilaritySearch.status_code answer)
      | Raised _ => VNone
      end
  | Raised _ => VNone
  end.

(** An attempt after which the client sees no result: the request raised,
    the body is not JSON, the status is not 200, or the data has no
    [result]. *)
Definition without_result (o : outcome SimilaritySearch.response) : Prop :=
  match o with
  | Raised _ => True
  | Returned answer =>
      match SimilaritySearch.json answer with
      | Raised _ => True
      | Returned data =>
          SimilaritySearch.status_code answer ≠ 200
          ∨ py_contains "result" data = Returned false
      end
  end.

(** The client after an answer: the session id is the [mcp-session-id]
    header of the answer when it has one. *)
Definition client_after (self : SimilaritySearch.MCPClient.t)
    (o : outcome SimilaritySearch.response) : SimilaritySearch.MCPClient.t :=
  match o with
  | Returned answer =>
      match SimilaritySearch.headers answer !! "mcp-session-id" with
      | Some sid =>
          SimilaritySearch.MCPClient.Client (SimilaritySearch.MCPClient.endpoint self)
            (SimilaritySearch.MCPClient.auth_token self) (Some sid)
            (SimilaritySearch.MCPClient.client_headers self)
      | None => self
      end
  | Raised _ => self
  end.

(** A client as the constructor builds it, whatever its session id: [url]
    is the text of its endpoint and [token] that of its token. *)
Definition built (repr : value → string) (self : SimilaritySearch.MCPClient.t)
    (url token : string) : Prop :=
  py_str repr (SimilaritySearch.MCPClient.endpoint self) = url ∧
  SimilaritySearch.MCPClient.client_headers self
  = {[ "Content-Type" := "application/json"; "Authorization" := "Bearer " +:+ token ]}.

(** The result of the tool around what the client returned. *)
Definition tool_success (tool_use_id results : value) : value :=
  VDict {[ "toolUseId" := tool_use_id; "status" := VStr "success"; "results" := results ]}.

(** ** Concrete inputs *)

Module Scenario.

Definition tools : Embedding.EmbeddingTools :=
  {| Embedding.aos_client := {| AosClient.index_name := "kb" |};
     Embedding.api_token := Some "sk-test" |}.

Definition tools_without_token : Embedding.EmbeddingTools :=
  {| Embedding.aos_client := {| AosClient.index_name := "kb" |};
     Embedding.api_token := None |}.

Definition cfg : App.Config :=
  {| App.opensearch_index := "kb"; App.embedding_api_token := "sk-test" |}.

Definition cfg_without_token : App.Config :=
  {| App.opensearch_index := "kb"; App.embedding_api_token := "" |}.

(** The floats 0.25, 0.5 and 0.75 in binary64. *)
Definition quarter : spec_float := S754_finite false 4503599627370496 (-54).
Definition half : spec_float := S754_finite false 4503599627370496 (-53).
Definition three_quarters : spec_float := S754_finite false 6755399441055744 (-53).

Definition vector_of (n : nat) : value := VList (replicate n (VFloat half)).

(** A well-formed answer of the embedding API, and one with no [data]. *)
Definition embedding_body : value :=
  VDict {[ "data" := VList [VDict {[ "embedding" := vector_of 1024 ]}] ]}.

Definition body_without_data : value :=
  VDict {[ "object" := VStr "list" ]}.

(** A search answer with two hits, scored 0.75 and 0.25. *)
Definition hit_a : value :=
  VDict {[ "_id" := VStr "a"; "_score" := VFloat three_quarters;
           "_source" := VDict {[ "text" := VStr "alpha"; "source" := VStr "a.txt" ]} ]}.

Definition hit_b : value :=
  VDict {[ "_id" := VStr "b"; "_score" := VFloat quarter;
           "_source" := VDict {[ "text" := VStr "beta"; "source" := VStr "b.txt";
                                 "dense_vector" := vector_of 2 ]} ]}.

Definition search_answer : value :=
  VDict {[ "hits" := VDict {[ "hits" := VList [hit_a; hit_b] ]} ]}.

Definition result_a : value :=
  VDict {[ "id" := VStr "a"; "score" := VFloat three_quarters; "text" := VStr "alpha";
           "metadata" := VDict {[ "source" := VStr "a.txt" ]} ]}.

Definition result_b : value :=
  VDict {[ "id" := VStr "b"; "score" := VFloat quarter; "text" := VStr "beta";
           "metadata" := VDict {[ "source" := VStr "b.txt" ]} ]}.

Definition chunk (text : string) : gmap string value := {[ "text" := VStr text ]}.

Definition bulk_answer : value := VDict {[ "errors" := VBool false ]}.

Definition server_error : outcome http_response :=
  Returned (HttpResponse 500 "Internal Server Error"
              "https://api.siliconflow.cn/v1/embeddings" (Returned VNone)).

Definition connection_refused : exn := Exn OSConnectionError "ConnectionError(refused)".

(** A store with the index [kb] holding the document [a]. *)
Definition kb : gmap string Store.index :=
  {[ "kb" := Store.MkIndex None {[ "a" := VDict (chunk "alpha") ]} ]}.

Definition ingestor (chunks : list string) : DocIngest.DocumentIngestor :=
  {| DocIngest.aos_client := {| AosClient.index_name := "kb" |};
     DocIngest.embedding_api_token := Some "sk-test";
     DocIngest.text_splitter := fun _ => Returned chunks |}.
(** A search answer with one hit whose score is null. *)
Definition hit_null : value :=
  VDict {[ "_id" := VStr "n"; "_score" := VNone;
           "_source" := VDict {[ "text" := VStr "nu" ]} ]}.

Definition result_null : value :=
  VDict {[ "id" := VStr "n"; "score" := VNone; "text" := VStr "nu";
           "metadata" := VDict ∅ ]}.

Definition search_answer_null : value :=
  VDict {[ "hits" := VDict {[ "hits" := VList [hit_null] ]} ]}.

(** An answer of the embedding API whose [data] is empty. *)
Definition body_with_empty_data : value := VDict {[ "data" := VList [] ]}.

(** The text of the JSON object with the one field [lang] = [en]. *)
Definition quote : string := String "034"%char EmptyString.

Definition metadata_text : string :=
  "{" +:+ quote +:+ "lang" +:+ quote +:+ ": " +:+ quote +:+ "en" +:+ quote +:+ "}".

(** [json.loads] on the texts used below. *)
Definition loads (text : string) : outcome value :=
  if String.eqb text metadata_text then Returned (VDict {[ "lang" := VStr "en" ]})
  else if String.eqb text "[1]" then Returned (VList [VInt 1])
  else Raised (Exn (OtherException "JSONDecodeError")
                 "Expecting property name enclosed in double quotes: line 1 column 2 (char 1)").

(** An event of the API gateway for the authorizer. *)
Definition method_arn : value :=
  VStr "arn:aws:execute-api:us-east-1:123456789012:abcdef/prod/POST/mcp".

Definition event (header : string) : gmap string value :=
  {[ "type" := VStr "TOKEN"; "authorizationToken" := VStr header; "methodArn" := method_arn ]}.

Definition event_without_token : gmap string value :=
  {[ "type" := VStr "TOKEN"; "methodArn" := method_arn ]}.

(** An MCP endpoint that plays back prepared answers, and a tool use. *)
Definition mcp_post (r : http_request) (w : list (outcome SimilaritySearch.response))
    : outcome SimilaritySearch.response * list (outcome SimilaritySearch.response) :=
  match w with
  | o :: rest => (o, rest)
  | [] => (Raised Script.exhausted, [])
  end.

(** The text of a value that is not a string, where one is formatted. *)
Definition repr (v : value) : string := "<" +:+ type_name v +:+ ">".


Definition unauthorized : SimilaritySearch.response :=
  SimilaritySearch.Response 401 ∅ (Returned (VDict {[ "message" := VStr "Unauthorized" ]})).

Definition content_item (text : string) : value :=
  VDict {[ "type" := VStr "text"; "text" := VStr text ]}.

Definition search_result_answer : SimilaritySearch.response :=
  SimilaritySearch.Response 200 ∅
    (Returned (VDict {[ "jsonrpc" := VStr "2.0"; "id" := VInt 1;
                        "result" := VDict {[ "content" := VList [content_item "first";
                                                                 content_item "second"] ]} ]})).

Definition tool_input : gmap string value :=
  {[ "text" := VStr "alpha"; "api_endpoint" := VStr "https://mcp.example/mcp";
     "auth_token" := VStr "secret" ]}.

Definition tool_use : gmap string value :=
  {[ "toolUseId" := VStr "tool-1"; "input" := VDict tool_input ]}.
End Scenario.

(** ** Proof tools *)

(** Unfold the monad, leaving the requests to the environment in place. *)
Ltac unfold_M :=
  cbv beta iota delta [bind try_except ret raise lift os_call http_post open_read negb];
  cbn [world issued].

(** Case on the answer of the environment to the next request. *)
Ltac answer_cases :=
  match goal with
  | |- context [opensearch ?env ?r ?w] =>
      let v := fresh "v" in let e := fresh "e" in let w' := fresh "w" in
      let E := fresh "Hos" in
      destruct (opensearch env r w) as [[v|e] w'] eqn:E
  | |- context [requests_post ?env ?r ?w] =>
      let v := fresh "resp" in let e := fresh "e" in let w' := fresh "w" in
      let E := fresh "Hpost" in
      destruct (requests_post env r w) as [[v|e] w'] eqn:E
  | |- context [read_file ?env ?r ?w] =>
      let v := fresh "content" in let e := fresh "e" in let w' := fresh "w" in
      let E := fresh "Hread" in
      destruct (read_file env r w) as [[v|e] w'] eqn:E
  end; unfold_M.

Lemma uniform_success (d : gmap string value) :
  d !! "status" = Some (VStr "success") → uniform_result (VDict d).
Proof. intros H. split; [by eexists | by left]. Qed.

Lemma uniform_error (d : gmap string value) (m : string) :
  d !! "status" = Some (VStr "error") → d !! "message" = Some (VStr m) →
  uniform_result (VDict d).
Proof. intros H1 H2. split; [by eexists | right; split; [done | by eexists]]. Qed.

Ltac uniform :=
  eexists _, _; split; [reflexivity |];
  first [ apply uniform_success; reflexivity
        | eapply uniform_error; reflexivity ].

(** ** The vector store gateway *)

Section Gateway.
Context {W : Type} (env : Env W) (self : AosClient.OpenSearchClient).
Import AosClient.

Lemma search_documents_uniform query size s :
  ∃ r s', search_documents env self query size s = (Returned r, s') ∧ uniform_result r.
Proof.
  unfold search_documents. unfold_M.
  answer_cases.
  - destruct (py_truthy v); unfold_M.
    + answer_cases; [uniform |].
      destruct e as [[] ?]; uniform.
    + uniform.
  - destruct e as [[] ?]; uniform.
Qed.

Lemma write_document_uniform document_id document s :
  ∃ r s', write_document env self document_id document s = (Returned r, s') ∧ uniform_result r.
Proof.
  unfold write_document, invalid_document. unfold_M.
  answer_cases.
  - destruct (py_truthy v); unfold_M.
    + answer_cases; [uniform | destruct e as [[] ?]; uniform].
    + answer_cases.
      * answer_cases; [uniform | destruct e as [[] ?]; uniform].
      * destruct e as [[] ?]; uniform.
  - destruct e as [[] ?]; uniform.
Qed.

Lemma index_document_uniform document s :
  ∃ r s', index_document env self document s = (Returned r, s') ∧ uniform_result r.
Proof.
  unfold index_document, invalid_document. unfold_M.
  answer_cases.
  - destruct (py_truthy v); unfold_M.
    + answer_cases; [uniform | destruct e as [[] ?]; uniform].
    + answer_cases.
      * answer_cases; [uniform | destruct e as [[] ?]; uniform].
      * destruct e as [[] ?]; uniform.
  - destruct e as [[] ?]; uniform.
Qed.

Lemma delete_document_uniform document_id s :
  ∃ r s', delete_document env self document_id s = (Returned r, s') ∧ uniform_result r.
Proof.
  unfold delete_document. unfold_M.
  answer_cases.
  - destruct (py_truthy v); unfold_M.
    + answer_cases; [uniform | destruct e as [[] ?]; uniform].
    + uniform.
  - destruct e as [[] ?]; uniform.
Qed.
End Gateway.

(** C4.  Each of the four public operations of the vector store gateway
    returns, from every state and whatever the client answers or raises, a
    dictionary whose status is "success", or "error" with a message; none
    of them raises. *)
Theorem gateway_results_uniform {W} (env : Env W) (self : AosClient.OpenSearchClient)
    (s : state W) :
  (∀ query size, ∃ r s',
      AosClient.search_documents env self query size s = (Returned r, s') ∧ uniform_result r) ∧
  (∀ document_id document, ∃ r s',
      AosClient.write_document env self document_id document s = (Returned r, s')
      ∧ uniform_result r) ∧
  (∀ document, ∃ r s',
      AosClient.index_document env self document s = (Returned r, s') ∧ uniform_result r) ∧
  (∀ document_id, ∃ r s',
      AosClient.delete_document env self document_id s = (Returned r, s') ∧ uniform_result r).
Proof.
  repeat split; intros.
  - apply search_documents_uniform.
  - apply write_document_uniform.
  - apply index_document_uniform.
  - apply delete_document_uniform.
Qed.

Section OnTheStore.
Context {W : Type} (rest : Env W).
Import AosClient.

Lemma store_exists name (w : gmap string Store.index) (w2 : W) :
  opensearch (Store.env rest) (IndicesExists name) (w, w2)
  = (Returned (VBool (bool_decide (is_Some (w !! name)))), (w, w2)).
Proof. reflexivity. Qed.

Lemma store_delete name id (w : gmap string Store.index) (w2 : W) :
  opensearch (Store.env rest) (Delete name id true) (w, w2)
  = let (o, w1) := Store.answer (Delete name id true) w in (o, (w1, w2)).
Proof. reflexivity. Qed.
End OnTheStore.

Lemma delete_document_run {W} (env : Env W) (self : AosClient.OpenSearchClient)
    (document_id : string) (s : state W) (ex : value) (w1 w2 : W) (o : outcome value) :
  let name := AosClient.index_name self in
  opensearch env (IndicesExists name) (world s) = (Returned ex, w1) →
  py_truthy ex = true →
  opensearch env (Delete name document_id true) w1 = (o, w2) →
  AosClient.delete_document env self document_id s
  = (Returned match o with
              | Returned response =>
                  VDict {[ "status" := VStr "success"; "response" := response ]}
              | Raised e =>
                  match exn_kind e with
                  | OSNotFoundError =>
                      error_result ("Document with ID " +:+ document_id +:+ " not found")
                  | _ => error_result ("Unexpected error: " +:+ exn_str e)
                  end
              end,
     State w2 (issued s ++ [OS (IndicesExists name); OS (Delete name document_id true)])).
Proof.
  intros name Hexists Htruthy Hdelete. subst name.
  unfold AosClient.delete_document. unfold_M.
  rewrite Hexists, Htruthy. unfold_M. rewrite Hdelete, <- app_assoc.
  destruct o as [response|e]; [reflexivity|].
  destruct e as [[] ?]; reflexivity.
Qed.

(** C7.  In every environment, once the existence test is answered truthy:
    when the delete request raises [NotFoundError], which is how the client
    reports an id that is not in the index, [delete_document] returns the
    error result "Document with ID ... not found"; when the request returns,
    it returns status "success" with that answer as the response; it raises
    in neither case.  On the reference store, with the index present:
    deleting an id that is not in the index takes the not-found branch and
    leaves the store as it was; deleting an id that is there returns the
    acknowledgment of the store, and the document is gone. *)
Theorem delete_document_not_found {W} (env rest : Env W) (self : AosClient.OpenSearchClient)
    (document_id : string) :
  let name := AosClient.index_name self in
  let requests := [OS (IndicesExists name); OS (Delete name document_id true)] in
  let not_found := error_result ("Document with ID " +:+ document_id +:+ " not found") in
  (∀ s ex w1 o w2,
     opensearch env (IndicesExists name) (world s) = (Returned ex, w1) →
     py_truthy ex = true →
     opensearch env (Delete name document_id true) w1 = (o, w2) →
     AosClient.delete_document env self document_id s
     = (Returned match o with
                 | Returned response =>
                     VDict {[ "status" := VStr "success"; "response" := response ]}
                 | Raised e =>
                     match exn_kind e with
                     | OSNotFoundError => not_found
                     | _ => error_result ("Unexpected error: " +:+ exn_str e)
                     end
                 end,
        State w2 (issued s ++ requests))) ∧
  (∀ (w : gmap string Store.index) (w2 : W) (log : list event) (ix : Store.index),
     w !! name = Some ix →
     AosClient.delete_document (Store.env rest) self document_id (State (w, w2) log) =
       match Store.documents ix !! document_id with
       | None => (Returned not_found, State (w, w2) (log ++ requests))
       | Some _ =>
           (Returned (VDict {[ "status" := VStr "success";
                               "response" := Store.deleted name document_id ]}),
            State (<[name := Store.MkIndex (Store.index_body ix)
                                (delete document_id (Store.documents ix))]> w, w2)
                  (log ++ requests))
       end).
Proof.
  intros name requests not_found. subst name requests not_found. split.
  - intros s ex w1 o w2. apply delete_document_run.
  - intros w w2 log ix Hix.
    pose proof (store_delete rest (AosClient.index_name self) document_id w w2) as Hdelete.
    cbv beta iota delta [Store.answer] in Hdelete. rewrite Hix in Hdelete.
    assert (Htruthy : py_truthy (VBool (bool_decide (is_Some (w !! AosClient.index_name self))))
                      = true).
    { rewrite Hix. by rewrite bool_decide_eq_true_2 by eauto. }
    destruct (Store.documents ix !! document_id) as [doc|] eqn:Hdoc.
    + by rewrite (delete_document_run (Store.env rest) self document_id
                    (State (w, w2) log) _ _ _ _
                    (store_exists rest _ w w2) Htruthy Hdelete).
    + by rewrite (delete_document_run (Store.env rest) self document_id
                    (State (w, w2) log) _ _ _ _
                    (store_exists rest _ w w2) Htruthy Hdelete).
Qed.

(** One call on the reference store: the index is created, with the k-NN
    mapping, exactly when it is absent. *)
Lemma create_index_on_store {W} (rest : Env W) (self : DocIngest.DocumentIngestor)
    (w : gmap string Store.index) (w2 : W) (log : list event) :
  let name := AosClient.index_name (DocIngest.aos_client self) in
  DocIngest.create_index_if_not_exists (Store.env rest) self (State (w, w2) log) =
    match w !! name with
    | Some _ => (Returned VNone, State (w, w2) (log ++ [OS (IndicesExists name)]))
    | None =>
        (Returned VNone,
         State (<[name := Store.MkIndex (Some DocIngest.mapping) ∅]> w, w2)
               (log ++ [OS (IndicesExists name);
                        OS (IndicesCreate name (Some DocIngest.mapping))]))
    end.
Proof.
  intros name.
  unfold DocIngest.create_index_if_not_exists. unfold_M.
  rewrite store_exists. fold name.
  destruct (w !! name) as [ix|] eqn:Hix.
  - rewrite bool_decide_eq_true_2 by eauto. reflexivity.
  - rewrite bool_decide_eq_false_2 by (intros [? ?]; discriminate).
    cbv beta iota delta [py_truthy]. unfold_M.
    assert (Hcreate : opensearch (Store.env rest)
                        (IndicesCreate name (Some DocIngest.mapping)) (w, w2)
                      = (Returned (Store.acknowledged name),
                         (<[name := Store.MkIndex (Some DocIngest.mapping) ∅]> w, w2))).
    { cbv beta iota delta [opensearch Store.env Store.answer fst snd]. by rewrite Hix. }
    rewrite Hcreate. unfold_M. by rewrite <- app_assoc.
Qed.

Lemma create_index_run {W} (env : Env W) (self : DocIngest.DocumentIngestor)
    (s : state W) (ex : value) (w1 : W) :
  let name := AosClient.index_name (DocIngest.aos_client self) in
  let create := OS (IndicesCreate name (Some DocIngest.mapping)) in
  opensearch env (IndicesExists name) (world s) = (Returned ex, w1) →
  if py_truthy ex then
    DocIngest.create_index_if_not_exists env self s
    = (Returned VNone, State w1 (issued s ++ [OS (IndicesExists name)]))
  else
    ∀ o w2, opensearch env (IndicesCreate name (Some DocIngest.mapping)) w1 = (o, w2) →
      DocIngest.create_index_if_not_exists env self s
      = (match o with Returned _ => Returned VNone | Raised e => Raised e end,
         State w2 (issued s ++ [OS (IndicesExists name); create])).
Proof.
  intros name create Hexists. subst name create.
  unfold DocIngest.create_index_if_not_exists. unfold_M. rewrite Hexists.
  destruct (py_truthy ex); [reflexivity|].
  intros o w2 Hcreate. unfold_M. rewrite Hcreate, <- app_assoc. by destruct o.
Qed.

(** C9.  In every environment, a call that finds the index to exist issues
    no create, and a call that finds it absent issues one create, with the
    k-NN mapping.  On the reference store, from any state: two calls in
    succession both return without an exception; the first one creates the
    index exactly when it is absent; the second one only tests for existence
    and leaves the store as the first call left it, so at most one create is
    issued over the two calls.  The mapping has a knn_vector field of
    dimension 1024 with method HNSW, space inner product, ef_construction 32
    and m 16, and ef_search 32 in the index settings. *)
Theorem create_index_if_not_exists_idempotent {W} (env rest : Env W)
    (self : DocIngest.DocumentIngestor) (s : state (gmap string Store.index * W)) :
  let name := AosClient.index_name (DocIngest.aos_client self) in
  let create := DocIngest.create_index_if_not_exists (Store.env rest) self in
  let vector := ["mappings"; "properties"; "dense_vector"] in
  (∀ (s0 : state W) ex w1,
     opensearch env (IndicesExists name) (world s0) = (Returned ex, w1) →
     if py_truthy ex then
       DocIngest.create_index_if_not_exists env self s0
       = (Returned VNone, State w1 (issued s0 ++ [OS (IndicesExists name)]))
     else
       ∀ o w2, opensearch env (IndicesCreate name (Some DocIngest.mapping)) w1 = (o, w2) →
         DocIngest.create_index_if_not_exists env self s0
         = (match o with Returned _ => Returned VNone | Raised e => Raised e end,
            State w2 (issued s0 ++ [OS (IndicesExists name);
                                    OS (IndicesCreate name (Some DocIngest.mapping))]))) ∧
  (∃ s1 s2 first_call,
    create s = (Returned VNone, s1) ∧
    create s1 = (Returned VNone, s2) ∧
    issued s1 = issued s ++ first_call ∧
    first_call = OS (IndicesExists name)
                 :: (if bool_decide (is_Some ((world s).1 !! name)) then []
                     else [OS (IndicesCreate name (Some DocIngest.mapping))]) ∧
    issued s2 = issued s1 ++ [OS (IndicesExists name)] ∧
    world s2 = world s1 ∧
    is_Some ((world s1).1 !! name) ∧
    (length (filter is_create (first_call ++ [OS (IndicesExists name)])) ≤ 1)%nat) ∧
  path DocIngest.mapping (vector ++ ["type"]) = Some (VStr "knn_vector") ∧
  path DocIngest.mapping (vector ++ ["dimension"]) = Some (VInt 1024) ∧
  path DocIngest.mapping (vector ++ ["method"; "name"]) = Some (VStr "hnsw") ∧
  path DocIngest.mapping (vector ++ ["method"; "space_type"]) = Some (VStr "innerproduct") ∧
  path DocIngest.mapping (vector ++ ["method"; "parameters"; "ef_construction"])
    = Some (VInt 32) ∧
  path DocIngest.mapping (vector ++ ["method"; "parameters"; "m"]) = Some (VInt 16) ∧
  path DocIngest.mapping ["settings"; "index"; "knn.algo_param.ef_search"] = Some (VInt 32).
Proof.
  intros name create vector. subst create vector.
  split; [intros s0 ex w1; apply create_index_run|].
  split; [|by repeat split].
  destruct s as [[w w2] log].
  pose proof (create_index_on_store rest self w w2 log) as H1. fold name in H1.
  cbv zeta in H1. cbn [world issued fst].
  destruct (w !! name) as [ix|] eqn:Hix.
  - (* the index is there: no create, and again none *)
    pose proof (create_index_on_store rest self w w2 (log ++ [OS (IndicesExists name)])) as H2.
    fold name in H2. cbv zeta in H2. rewrite Hix in H2.
    rewrite bool_decide_eq_true_2 by eauto.
    eexists _, _, _. split; [exact H1|]. split; [exact H2|].
    cbn [world issued fst]. rewrite Hix.
    repeat split; try reflexivity; eauto.
  - (* the index is absent: one create, then none *)
    pose proof (create_index_on_store rest self
                  (<[name := Store.MkIndex (Some DocIngest.mapping) ∅]> w) w2
                  (log ++ [OS (IndicesExists name);
                           OS (IndicesCreate name (Some DocIngest.mapping))])) as H2.
    fold name in H2. cbv zeta in H2. rewrite lookup_insert_eq in H2.
    rewrite bool_decide_eq_false_2 by (intros [? ?]; discriminate).
    eexists _, _, _. split; [exact H1|]. split; [exact H2|].
    cbn [world issued fst]. rewrite lookup_insert_eq.
    repeat split; try reflexivity; eauto.
Qed.

(** ** The embedding provider *)

Section EmbeddingProvider.
Context {W : Type} (env : Env W).

Lemma generate_embedding_contract (self : Embedding.EmbeddingTools) :
  embedding_contract env (Embedding.api_token self) (Embedding.generate_embedding env self).
Proof.
  intros text model s. unfold Embedding.generate_embedding.
  destruct (Embedding.truthy_str (Embedding.api_token self)) as [tok|]; [|reflexivity].
  cbv beta iota. intros o w Hpost. unfold_M.
  change (HttpRequest Embedding.embedding_api_url _ _) with (embedding_request tok text model).
  rewrite Hpost.
  destruct o as [resp|e]; [|destruct e as [[] ?]; reflexivity].
  unfold response_embedding. cbv beta iota delta [mbind outcome_bind].
  destruct (raise_for_status resp) as [[]|e]; [|destruct e as [[] ?]; reflexivity].
  destruct (json resp) as [result|e]; [|destruct e as [[] ?]; reflexivity].
  destruct (py_get result "data" (VList [VDict ∅])) as [data|e];
    [|destruct e as [[] ?]; reflexivity].
  destruct (py_getitem0 data) as [first|e]; [|destruct e as [[] ?]; reflexivity].
  destruct (py_get first "embedding" (VList [])) as [emb|e];
    [reflexivity | destruct e as [[] ?]; reflexivity].
Qed.

Lemma app_generate_embedding_eq (cfg : App.Config) text model s :
  App.generate_embedding env cfg text model s
  = Embedding.generate_embedding env
      {| Embedding.aos_client := App.aos_client cfg;
         Embedding.api_token := Some (App.embedding_api_token cfg) |} text model s.
Proof.
  unfold App.generate_embedding, Embedding.generate_embedding.
  cbn [Embedding.api_token Embedding.truthy_str py_truthy].
  destruct (String.eqb (App.embedding_api_token cfg) ""); reflexivity.
Qed.

Lemma app_generate_embedding_contract (cfg : App.Config) :
  embedding_contract env (Some (App.embedding_api_token cfg)) (App.generate_embedding env cfg).
Proof.
  intros text model s.
  pose proof (generate_embedding_contract
                {| Embedding.aos_client := App.aos_client cfg;
                   Embedding.api_token := Some (App.embedding_api_token cfg) |}
                text model s) as H.
  cbn [Embedding.api_token] in H.
  destruct (Embedding.truthy_str (Some (App.embedding_api_token cfg))).
  - cbv beta iota in *. intros o w Hpost. rewrite app_generate_embedding_eq. by apply H.
  - by rewrite app_generate_embedding_eq.
Qed.
End EmbeddingProvider.

Lemma http_error_is_request_failure (r : http_response) :
  400 ≤ status_code r < 600 →
  ∃ m, response_embedding r = Raised (Exn RequestException m).
Proof.
  intros [Hlo Hhi]. unfold response_embedding, raise_for_status.
  destruct (Z.ltb_spec (status_code r) 500).
  - rewrite (proj2 (Z.leb_le 400 _)) by done. cbn [andb]. by eexists.
  - replace (status_code r <? 500) with false by (symmetry; apply Z.ltb_ge; lia).
    rewrite andb_false_r.
    rewrite (proj2 (Z.leb_le 500 _)), (proj2 (Z.ltb_lt _ 600)) by done.
    cbn [andb]. by eexists.
Qed.

(** C8.  Both embedding functions ([EmbeddingTools.generate_embedding] and
    the one of [app.py]) meet the contract: with no token configured the
    result is the missing-credential error and no request is issued (the
    state is unchanged); with a token exactly one request is issued and
    there is no second attempt, whatever the first one came to.  An
    exception of the attempt is reported by its class: a
    [RequestException], which is what a transport failure is and what an
    HTTP error status of the response raises, as "API request failed", and
    every other exception as "Unexpected error". *)
Theorem generate_embedding_single_attempt {W} (env : Env W)
    (self : Embedding.EmbeddingTools) (cfg : App.Config) :
  embedding_contract env (Embedding.api_token self) (Embedding.generate_embedding env self) ∧
  embedding_contract env (Some (App.embedding_api_token cfg)) (App.generate_embedding env cfg) ∧
  (∀ e model, exn_kind e = RequestException →
     embedding_outcome (Raised e) model = error_result ("API request failed: " +:+ exn_str e)) ∧
  (∀ r model, 400 ≤ status_code r < 600 →
     ∃ m, embedding_outcome (Returned r ≫= response_embedding) model
          = error_result ("API request failed: " +:+ m)) ∧
  (∀ e model, exn_kind e ≠ RequestException →
     embedding_outcome (Raised e) model = error_result ("Unexpected error: " +:+ exn_str e)).
Proof.
  split; [apply generate_embedding_contract|].
  split; [apply app_generate_embedding_contract|].
  repeat split.
  - intros [k m] model Hk. cbn in Hk. subst k. reflexivity.
  - intros r model Hr. destruct (http_error_is_request_failure r Hr) as [m Hm].
    exists m. cbv beta iota delta [mbind outcome_bind]. rewrite Hm. reflexivity.
  - intros [k m] model Hk. cbn in Hk. destruct k; try reflexivity. done.
Qed.

(** ** The query service *)

Lemma not_success_error (m : gmap string value) :
  ¬ is_success (VDict (<["status" := VStr "error"]> m)).
Proof. unfold is_success, field. rewrite lookup_insert_eq. discriminate. Qed.

Lemma is_error_error_result (m : string) : is_error (error_result m).
Proof. split; [reflexivity | by exists m]. Qed.

Lemma simplify_hit_reshaped (hit r : value) :
  App.simplify_hit hit = Returned r → reshaped hit r.
Proof.
  unfold App.simplify_hit. cbv beta iota delta [mbind outcome_bind].
  destruct hit as [| | | | | |h]; try discriminate.
  cbn [py_get].
  destruct (default (VDict ∅) (h !! "_source")) as [| | | | | |source] eqn:Hsource;
    try discriminate.
  cbn [py_get py_items]. intros [= <-].
  eexists h, source, _. repeat split; [done|].
  intros key. rewrite map_lookup_filter.
  unfold App.VECTOR_FIELD. destruct (source !! key) as [x|] eqn:Hkey; cbn.
  - case_bool_decide as Hk.
    + rewrite option_guard_False; [done|]. cbn. tauto.
    + rewrite option_guard_True; [done|]. cbn. tauto.
  - by case_bool_decide.
Qed.

Lemma simplify_hits_reshaped (hits acc rs : list value) :
  App.simplify_hits hits acc = Returned rs →
  ∃ rs', rs = acc ++ rs' ∧ Forall2 reshaped hits rs'.
Proof.
  revert acc. induction hits as [|hit hits IH]; intros acc; cbn [App.simplify_hits].
  - intros [= <-]. exists []. split; [by rewrite app_nil_r | constructor].
  - cbv beta iota delta [mbind outcome_bind].
    destruct (App.simplify_hit hit) as [r|] eqn:Hr; [|discriminate].
    intros H. destruct (IH _ H) as (rs' & -> & Hall).
    exists (r :: rs'). split; [by rewrite <- app_assoc|].
    constructor; [by apply simplify_hit_reshaped | done].
Qed.

Lemma reshaped_score (hit r : value) :
  reshaped hit r → ∃ v, field r "score" = Some v.
Proof. intros (h & source & md & _ & _ & -> & _). by eexists. Qed.

Lemma number_gt_not_le (x y : number) : number_gt x y = true → number_le x y = false.
Proof.
  unfold number_gt, number_le.
  by destruct (number_compare x y) as [[]|].
Qed.

Lemma py_gt_not_le (v : value) (y : number) :
  py_gt v y = Returned true → py_le v y = Returned false.
Proof.
  unfold py_gt, py_le. destruct (as_number v); [|discriminate].
  intros [= H]. by rewrite (number_gt_not_le _ _ H).
Qed.

Lemma filter_results_spec (pool results : list value) (score : number) :
  App.filter_results pool score = Returned results →
  Forall (λ x, ∃ v, field x "score" = Some v) pool →
  sublist results pool ∧ Forall (above_threshold score) results.
Proof.
  revert results. induction pool as [|x pool IH]; intros results; cbn [App.filter_results].
  - intros [= <-] _. split; constructor.
  - cbv beta iota delta [mbind outcome_bind].
    intros H Hpool. apply Forall_cons in Hpool as [[v Hv] Hpool].
    destruct x as [| | | | | |d]; try discriminate.
    cbn [py_get field] in *. rewrite Hv in H. cbn [default from_option id] in H.
    destruct (py_gt v score) as [keep|] eqn:Hgt; [|discriminate H].
    destruct (App.filter_results pool score) as [rest|] eqn:Hrest; [|discriminate H].
    destruct (IH _ eq_refl Hpool) as [Hsub Hall].
    injection H as <-. destruct keep.
    + split; [by constructor|]. constructor; [|done].
      exists v. repeat split; [done | done | by apply py_gt_not_le].
    + split; [by constructor | done].
Qed.

Section QueryService.
Context {W : Type} (env : Env W) (cfg : App.Config).

(** A search either succeeds, after an existence test answered truthy
    and a search request answered by the store, or reports an error. *)
Lemma search_documents_cases (self : AosClient.OpenSearchClient) query size s :
  let name := AosClient.index_name self in
  ∃ r s', AosClient.search_documents env self query size s = (Returned r, s') ∧
    ((∃ ex w1 answer w2,
        opensearch env (IndicesExists name) (world s) = (Returned ex, w1) ∧
        py_truthy ex = true ∧
        opensearch env (Search query name size) w1 = (Returned answer, w2) ∧
        r = VDict {[ "status" := VStr "success"; "results" := answer ]} ∧
        s' = State w2 (issued s ++ [OS (IndicesExists name); OS (Search query name size)]))
     ∨ (∃ m, r = VDict (<["status" := VStr "error"]> m))).
Proof.
  intros name. subst name.
  unfold AosClient.search_documents. unfold_M.
  answer_cases.
  - destruct (py_truthy v) eqn:Htruthy; unfold_M.
    + answer_cases.
      * eexists _, _. split; [reflexivity|]. left.
        eexists _, _, _, _. rewrite <- app_assoc. by repeat split.
      * destruct e as [[] ?]; eexists _, _; (split; [reflexivity|]); right; by eexists.
    + eexists _, _; (split; [reflexivity|]); right; by eexists.
  - destruct e as [[] ?]; eexists _, _; (split; [reflexivity|]); right; by eexists.
Qed.

Lemma knn_search_mismatch vector k s n :
  py_len vector = Returned n → n ≠ 1024 →
  App.knn_search env cfg vector k s
  = (Returned (error_result ("Vector dimension mismatch. Expected 1024, got " +:+ pretty n)),
     s).
Proof.
  intros Hlen Hn. unfold App.knn_search. unfold_M. rewrite Hlen.
  unfold App.VECTOR_DIMENSION.
  destruct (Z.eqb_spec n 1024) as [->|_]; [done | reflexivity].
Qed.

Lemma knn_search_no_length vector k s e :
  py_len vector = Raised e →
  App.knn_search env cfg vector k s
  = (Returned (error_result ("kNN search error: " +:+ exn_str e)), s).
Proof. intros Hlen. unfold App.knn_search. unfold_M. by rewrite Hlen. Qed.

(** Every run of [knn_search] returns: either the success result built
    from the hits the store answered with, or an error result. *)
Lemma knn_search_cases vector k s :
  let name := App.opensearch_index cfg in
  let query := App.knn_query vector k in
  ∃ r s', App.knn_search env cfg vector k s = (Returned r, s') ∧
    ((∃ ex w1 answer w2 hits results,
        py_len vector = Returned 1024 ∧
        opensearch env (IndicesExists name) (world s) = (Returned ex, w1) ∧
        opensearch env (Search (json_dumps query) name k) w1 = (Returned answer, w2) ∧
        s' = State w2 (issued s ++ [OS (IndicesExists name);
                                    OS (Search (json_dumps query) name k)]) ∧
        hits_of answer = Returned hits ∧
        Forall2 reshaped hits results ∧
        r = VDict {[ "status" := VStr "success";
                     "results" := VList results;
                     "total" := VInt (Z.of_nat (length results)) ]})
     ∨ (∃ m, r = VDict (<["status" := VStr "error"]> m))).
Proof.
  intros name query. subst name query.
  destruct (py_len vector) as [n|e] eqn:Hlen.
  2:{ rewrite (knn_search_no_length _ _ _ _ Hlen). eexists _, _. split; [done|].
      right. by eexists. }
  destruct (Z.eq_dec n 1024) as [->|Hn].
  2:{ rewrite (knn_search_mismatch _ _ _ _ Hlen Hn). eexists _, _. split; [done|].
      right. by eexists. }
  unfold App.knn_search. unfold_M. rewrite Hlen.
  change (1024 =? App.VECTOR_DIMENSION) with true. cbv beta iota.
  destruct (search_documents_cases (App.aos_client cfg)
              (json_dumps (App.knn_query vector k)) k s)
    as (res & s1 & -> & Hcases).
  destruct Hcases as [(ex & w1 & answer & w2 & Hex & Htruthy & Hsearch & -> & ->)|[m ->]].
  - cbn [py_getitem]. rewrite lookup_insert_eq. cbn [py_eq_str String.eqb Ascii.eqb Bool.eqb].
    cbn [py_contains]. rewrite lookup_insert_ne, lookup_singleton_eq by done.
    rewrite bool_decide_eq_true_2 by eauto. cbv beta iota delta [mbind outcome_bind].
    destruct (py_get answer "hits" (VDict ∅)) as [outer|e] eqn:Houter;
      [|eexists _, _; split; [done|]; right; by eexists].
    destruct (py_get outer "hits" (VList [])) as [inner|e] eqn:Hinner;
      [|eexists _, _; split; [done|]; right; by eexists].
    destruct (py_iter inner) as [hits|e] eqn:Hiter;
      [|eexists _, _; split; [done|]; right; by eexists].
    destruct (App.simplify_hits hits []) as [results|e] eqn:Hsimplify;
      [|eexists _, _; split; [done|]; right; by eexists].
    destruct (simplify_hits_reshaped _ _ _ Hsimplify) as (rs & -> & Hall).
    eexists _, _. split; [done|]. left.
    eexists ex, w1, answer, w2, hits, rs. repeat split; try done.
    unfold hits_of. cbv beta iota delta [mbind outcome_bind].
    by rewrite Houter, Hinner.
  - cbn [py_getitem]. rewrite lookup_insert_eq. cbn [py_eq_str String.eqb Ascii.eqb Bool.eqb].
    eexists _, _. split; [done|]. right. by eexists.
Qed.

(** What the success result of the whole search is made of. *)
Lemma text_similarity_search_success text k score s r s' :
  App.text_similarity_search env cfg text k score s = (Returned r, s') → is_success r →
  let name := App.opensearch_index cfg in
  ∃ vector w1 answer w2 hits pool results,
    opensearch env (Search (json_dumps (App.knn_query vector k)) name k) w1
      = (Returned answer, w2) ∧
    last (issued s') = Some (OS (Search (json_dumps (App.knn_query vector k)) name k)) ∧
    hits_of answer = Returned hits ∧
    Forall2 reshaped hits pool ∧
    App.filter_results pool score = Returned results ∧
    r = VDict {[ "status" := VStr "success";
                 "query_text" := text;
                 "results" := VList results;
                 "total" := VInt (Z.of_nat (length results));
                 "score_threshold" := number_value score;
                 "original_total" := VInt (Z.of_nat (length pool)) ]}.
Proof.
  intros Hrun Hok name. subst name. revert Hrun.
  unfold App.text_similarity_search. unfold_M.
  pose proof (app_generate_embedding_contract env cfg text None s) as Hgen.
  destruct (Embedding.truthy_str (Some (App.embedding_api_token cfg))) as [tok|].
  2:{ rewrite Hgen. cbn [py_getitem error_result]. rewrite lookup_insert_eq.
      cbn [py_eq_str String.eqb Ascii.eqb Bool.eqb].
      intros [= <- <-]. by apply not_success_error in Hok. }
  cbv zeta in Hgen.
  destruct (requests_post env (embedding_request tok text None) (world s)) as [o w] eqn:Hpost.
  rewrite (Hgen _ _ eq_refl).
  destruct (o ≫= response_embedding) as [vector|e]; cbn [embedding_outcome].
  2:{ unfold embedding_failure, error_result. cbn [py_getitem]. rewrite lookup_insert_eq.
      cbn [py_eq_str String.eqb Ascii.eqb Bool.eqb].
      intros [= <- <-]. by apply not_success_error in Hok. }
  unfold embedding_success. cbn [py_getitem]. rewrite lookup_insert_eq.
  cbn [py_eq_str String.eqb Ascii.eqb Bool.eqb].
  rewrite lookup_insert_ne, lookup_insert_eq by done.
  destruct (knn_search_cases vector k (State w (issued s ++ [HTTP (embedding_request tok text None)])))
    as (kr & s2 & -> & Hcases).
  destruct Hcases as [(ex & w1 & answer & w2 & hits & pool & Hlen & Hex & Hsearch & -> & Hhits
                       & Hall & ->)|[m ->]].
  - cbn [py_getitem]. rewrite lookup_insert_eq. cbn [py_eq_str String.eqb Ascii.eqb Bool.eqb].
    rewrite lookup_insert_ne, lookup_insert_eq by done.
    cbv beta iota delta [mbind outcome_bind]. cbn [py_iter py_get].
    rewrite !lookup_insert_ne, lookup_singleton_eq by done. cbn [default from_option id].
    destruct (App.filter_results pool score) as [results|e] eqn:Hfilter; [|discriminate].
    intros [= <- <-].
    eexists vector, w1, answer, w2, hits, pool, results. repeat split; try done.
    cbn [issued]. apply last_Some.
    eexists ((issued s ++ [_]) ++ [_]). by rewrite <- (app_assoc _ [_] [_]).
  - cbn [py_getitem]. rewrite lookup_insert_eq. cbn [py_eq_str String.eqb Ascii.eqb Bool.eqb].
    intros [= <- <-]. by apply not_success_error in Hok.
Qed.
End QueryService.

(** C3.  A vector whose length is a number other than 1024 gets the
    dimension-mismatch error, and the state is the one [knn_search] started
    from: no request has been issued.  More generally, unless the length is
    1024, [knn_search] returns an error result from an unchanged state, so a
    search request is only ever issued for a vector of length 1024. *)
Theorem knn_search_dimension_check {W} (env : Env W) (cfg : App.Config)
    (vector k : value) (s : state W) :
  (∀ n, py_len vector = Returned n → n ≠ 1024 →
     App.knn_search env cfg vector k s
     = (Returned (error_result ("Vector dimension mismatch. Expected 1024, got " +:+ pretty n)),
        s)) ∧
  (py_len vector ≠ Returned 1024 →
     ∃ r, App.knn_search env cfg vector k s = (Returned r, s) ∧ is_error r).
Proof.
  split.
  - intros n. apply knn_search_mismatch.
  - intros Hlen. destruct (py_len vector) as [n|e] eqn:Hn.
    + assert (n ≠ 1024) by congruence.
      rewrite (knn_search_mismatch env cfg _ k s _ Hn) by done.
      eexists. split; [done | apply is_error_error_result].
    + rewrite (knn_search_no_length env cfg _ k s _ Hn).
      eexists. split; [done | apply is_error_error_result].
Qed.

(** C5.  When [knn_search] returns a success result: the query it sent
    lists the vector field [dense_vector] in the excludes of [_source]; the
    requests it issued are the existence test and that one search; and its
    results are, one for one and in order, the hits of the answer of the
    store reshaped: id, score and text, and as metadata every field of the
    source of the hit except [text] and [dense_vector]. *)
Theorem knn_search_results_reshaped {W} (env : Env W) (cfg : App.Config)
    (vector k : value) (s s' : state W) (r : value) :
  App.knn_search env cfg vector k s = (Returned r, s') → is_success r →
  let name := App.opensearch_index cfg in
  let query := App.knn_query vector k in
  path query ["_source"; "excludes"] = Some (VList [VStr "dense_vector"]) ∧
  ∃ ex w1 answer w2 hits results,
    opensearch env (IndicesExists name) (world s) = (Returned ex, w1) ∧
    opensearch env (Search (json_dumps query) name k) w1 = (Returned answer, w2) ∧
    s' = State w2 (issued s ++ [OS (IndicesExists name);
                                OS (Search (json_dumps query) name k)]) ∧
    hits_of answer = Returned hits ∧
    Forall2 reshaped hits results ∧
    r = VDict {[ "status" := VStr "success";
                 "results" := VList results;
                 "total" := VInt (Z.of_nat (length results)) ]}.
Proof.
  intros Hrun Hok name query. split; [reflexivity|].
  destruct (knn_search_cases env cfg vector k s) as (r0 & s0 & Hrun0 & Hcases).
  rewrite Hrun in Hrun0. injection Hrun0 as <- <-.
  destruct Hcases as [(ex & w1 & answer & w2 & hits & results & _ & H)|[m ->]].
  - by eexists ex, w1, answer, w2, hits, results.
  - by apply not_success_error in Hok.
Qed.

(** C1.  When [text_similarity_search] returns a success result, for any
    text, [k] and threshold: every result returned has a score strictly
    greater than the threshold, so none has a score less than or equal to
    it; [original_total] is the size of the pool the search retrieved and is
    at least [total], the number of results returned.  The pool is the hits
    of the answer to the one search request, which asks for [k] neighbours
    and size [k]; the results are what the filter keeps of the pool, so [k]
    bounds what is retrieved and not what is returned. *)
Theorem text_similarity_search_threshold {W} (env : Env W) (cfg : App.Config)
    (text k : value) (score : number) (s s' : state W) (r : value) :
  App.text_similarity_search env cfg text k score s = (Returned r, s') → is_success r →
  ∃ vector w1 answer w2 hits pool results,
    let query := App.knn_query vector k in
    let request := Search (json_dumps query) (App.opensearch_index cfg) k in
    path query ["size"] = Some k ∧
    path query ["query"; "knn"; "dense_vector"; "k"] = Some k ∧
    last (issued s') = Some (OS request) ∧
    opensearch env request w1 = (Returned answer, w2) ∧
    hits_of answer = Returned hits ∧
    Forall2 reshaped hits pool ∧
    App.filter_results pool score = Returned results ∧
    sublist results pool ∧
    Forall (above_threshold score) results ∧
    field r "results" = Some (VList results) ∧
    field r "total" = Some (VInt (Z.of_nat (length results))) ∧
    field r "original_total" = Some (VInt (Z.of_nat (length pool))) ∧
    (length results ≤ length pool)%nat.
Proof.
  intros Hrun Hok.
  destruct (text_similarity_search_success env cfg _ _ _ _ _ _ Hrun Hok)
    as (vector & w1 & answer & w2 & hits & pool & results & Hsearch & Hlast & Hhits & Hall
        & Hfilter & ->).
  assert (Hscores : Forall (λ x, ∃ v, field x "score" = Some v) pool).
  { clear -Hall. induction Hall; constructor; eauto using reshaped_score. }
  destruct (filter_results_spec _ _ _ Hfilter Hscores) as [Hsub Habove].
  exists vector, w1, answer, w2, hits, pool, results. cbv zeta.
  repeat split; try done. by apply sublist_length.
Qed.

(** ** The ingestion pipeline *)

Section Ingestion.
Context {W : Type} (env : Env W) (self : Embedding.EmbeddingTools).

Lemma attempt_missing token text_field doc (s : state W) :
  doc !! text_field = None →
  attempt env token text_field doc s
  = (Failed ("Missing text field '" +:+ text_field +:+ "'"), s).
Proof. intros Hdoc. unfold attempt, verdict_of. by rewrite Hdoc. Qed.

Lemma attempt_without_token token text_field doc text (s : state W) :
  doc !! text_field = Some text →
  Embedding.truthy_str token = None →
  attempt env token text_field doc s
  = (Failed "API token not configured for embedding service", s).
Proof. intros Hdoc Htok. unfold attempt, verdict_of. by rewrite Hdoc, Htok. Qed.

Lemma attempt_request token text_field doc text tok (s : state W) o w :
  doc !! text_field = Some text →
  Embedding.truthy_str token = Some tok →
  requests_post env (embedding_request tok text None) (world s) = (o, w) →
  attempt env token text_field doc s
  = (match o ≫= response_embedding with
     | Returned embedding => Embedded embedding
     | Raised e => Failed (match exn_kind e with
                           | RequestException => "API request failed: "
                           | _ => "Unexpected error: "
                           end +:+ exn_str e)
     end,
     State w (issued s ++ [HTTP (embedding_request tok text None)])).
Proof.
  intros Hdoc Htok Hpost. unfold attempt, verdict_of. by rewrite Hdoc, Htok, Hpost.
Qed.

Lemma attempts_cons token text_field doc docs (s : state W) :
  attempts env token text_field (doc :: docs) s
  = ((doc, (attempt env token text_field doc s).1)
       :: (attempts env token text_field docs (attempt env token text_field doc s).2).1,
     (attempts env token text_field docs (attempt env token text_field doc s).2).2).
Proof. reflexivity. Qed.

(** Every document has a verdict, in the order of the documents. *)
Lemma attempts_documents token text_field docs (s : state W) :
  (attempts env token text_field docs s).1.*1 = docs.
Proof.
  revert s. induction docs as [|doc docs IH]; intros s; [done|].
  rewrite attempts_cons. cbn [fst fmap list_fmap]. by rewrite IH.
Qed.

(** When the service answers a request the same way in every state, the
    verdict on a document is a function of the document. *)
Lemma attempts_stateless token text_field docs (s : state W)
    (answer : http_request → outcome http_response) :
  (∀ r w, (requests_post env r w).1 = answer r) →
  (attempts env token text_field docs s).1.*2
  = (λ doc, verdict_of token text_field doc answer) <$> docs.
Proof.
  intros Hanswer. revert s. induction docs as [|doc docs IH]; intros s; [done|].
  rewrite attempts_cons. cbn [fst snd fmap list_fmap]. rewrite IH. f_equal.
  unfold attempt, verdict_of. cbn [fst].
  destruct (doc !! text_field) as [text|]; [|done].
  destruct (Embedding.truthy_str token) as [tok|]; [|done].
  by rewrite Hanswer.
Qed.

Lemma processed_of_cons doc v (verdicts : list (gmap string value * verdict)) :
  processed_of ((doc, v) :: verdicts)
  = match v with
    | Embedded embedding => <["dense_vector" := embedding]> doc :: processed_of verdicts
    | Failed _ => processed_of verdicts
    end.
Proof. by destruct v. Qed.

Lemma failed_of_cons doc v (verdicts : list (gmap string value * verdict)) :
  failed_of ((doc, v) :: verdicts)
  = match v with
    | Embedded _ => failed_of verdicts
    | Failed reason =>
        VDict {[ "doc" := VDict doc; "reason" := VStr reason ]} :: failed_of verdicts
    end.
Proof. by destruct v. Qed.

Lemma verdicts_length (verdicts : list (gmap string value * verdict)) :
  (length (processed_of verdicts) + length (failed_of verdicts) = length verdicts)%nat ∧
  length (List.filter is_embedded verdicts.*2) = length (processed_of verdicts).
Proof.
  induction verdicts as [|[doc [embedding|reason]] verdicts [IH1 IH2]]; [done|..];
    rewrite processed_of_cons, failed_of_cons;
    cbn [fmap list_fmap snd List.filter is_embedded length]; split; lia.
Qed.

(** The loop of the code does what the turns say: it always runs to its
    end, and sorts each document by the verdict of its own turn. *)
Lemma embed_documents_attempts docs text_field processed failed s :
  Embedding.embed_documents env self docs text_field processed failed s
  = (Returned
       (processed ++ processed_of (attempts env (Embedding.api_token self) text_field docs s).1,
        failed ++ failed_of (attempts env (Embedding.api_token self) text_field docs s).1),
     (attempts env (Embedding.api_token self) text_field docs s).2).
Proof.
  revert processed failed s.
  induction docs as [|doc docs IH]; intros processed failed s.
  - cbn [Embedding.embed_documents attempts fst snd processed_of failed_of omap list_omap].
    by rewrite !app_nil_r.
  - rewrite attempts_cons. cbn [Embedding.embed_documents fst snd].
    destruct (doc !! text_field) as [text|] eqn:Htext.
    2:{ rewrite (attempt_missing _ _ _ _ Htext), IH. cbn [fst snd].
        rewrite processed_of_cons, failed_of_cons.
        by rewrite <- app_assoc. }
    unfold_M.
    pose proof (generate_embedding_contract env self text None s) as Hgen.
    destruct (Embedding.truthy_str (Embedding.api_token self)) as [tok|] eqn:Htok.
    + cbv zeta in Hgen.
      destruct (requests_post env (embedding_request tok text None) (world s))
        as [o w] eqn:Hpost.
      rewrite (Hgen _ _ eq_refl), (attempt_request _ _ _ _ _ _ _ _ Htext Htok Hpost).
      cbn [fst snd].
      destruct (o ≫= response_embedding) as [embedding|e]; cbn [embedding_outcome].
      * unfold embedding_success. cbn [py_getitem]. rewrite lookup_insert_eq.
        cbn [py_eq_str String.eqb Ascii.eqb Bool.eqb].
        rewrite lookup_insert_ne, lookup_insert_eq by done.
        rewrite IH. rewrite processed_of_cons, failed_of_cons.
        by rewrite <- app_assoc.
      * unfold embedding_failure, error_result. cbn [py_getitem]. rewrite lookup_insert_eq.
        cbn [py_eq_str String.eqb Ascii.eqb Bool.eqb].
        rewrite lookup_insert_ne, lookup_singleton_eq by done.
        rewrite IH. rewrite processed_of_cons, failed_of_cons.
        by rewrite <- app_assoc.
    + rewrite Hgen, (attempt_without_token _ _ _ _ _ Htext Htok). cbn [fst snd].
      unfold error_result. cbn [py_getitem]. rewrite lookup_insert_eq.
      cbn [py_eq_str String.eqb Ascii.eqb Bool.eqb].
      rewrite lookup_insert_ne, lookup_singleton_eq by done.
      rewrite IH, processed_of_cons, failed_of_cons.
      by rewrite <- app_assoc.
Qed.

Lemma bulk_index_with_embeddings_run docs text_field s :
  ∃ processed failed s1,
    Embedding.embed_documents env self docs text_field [] [] s
    = (Returned (processed, failed), s1) ∧
    (processed, failed, s1)
    = (processed_of (attempts env (Embedding.api_token self) text_field docs s).1,
       failed_of (attempts env (Embedding.api_token self) text_field docs s).1,
       (attempts env (Embedding.api_token self) text_field docs s).2) ∧
    match processed with
    | [] =>
        Embedding.bulk_index_with_embeddings env self docs text_field s
        = (Returned (VDict {[ "status" := VStr "error";
                              "message" := VStr "No documents were processed successfully";
                              "failed_docs" := VList failed ]}), s1)
    | _ =>
        let request := Bulk (Embedding.bulk_data self processed) true in
        ∀ o w, opensearch env request (world s1) = (o, w) →
          Embedding.bulk_index_with_embeddings env self docs text_field s
          = (Returned match o with
                      | Returned response => bulk_success response processed failed
                      | Raised e => error_result ("Bulk indexing error: " +:+ exn_str e)
                      end,
             State w (issued s1 ++ [OS request]))
    end.
Proof.
  pose proof (embed_documents_attempts docs text_field [] [] s) as Hrun. cbn [app] in Hrun.
  set (ps := processed_of _) in *. set (fs := failed_of _) in *.
  set (s1 := (attempts _ _ _ _ _).2) in *.
  exists ps, fs, s1. split; [done|]. split; [done|].
  unfold Embedding.bulk_index_with_embeddings. unfold_M. rewrite Hrun. cbn [fst snd].
  destruct ps as [|p ps]; [done|].
  intros o w Hbulk. rewrite Hbulk.
  by destruct o.
Qed.
End Ingestion.

(** C2, as the code has it.  Every document has its turn, in order,
    whatever the verdicts on the others: a document without the text field
    fails; one with a text is embedded exactly when its own embedding request
    succeeds, with the vector the service returned, and otherwise fails with
    the reason reported for that request.  When the service answers each
    request the same way in every state, the verdict on a document is a
    function of that document alone.  The loop of the code returns the
    embedded documents and the failed entries of these turns, in the state
    after the last one, so the number of embedded documents is the length of
    [processed].  With no embedded document the result is status "error"
    with the failed entries, and no bulk request is issued.  With at least
    one, a single bulk request is issued: if it returns, the result is status
    "success" with its response, [processed_count] the number embedded,
    [failed_count] the number failed and [failed_docs] the failed entries
    ([None] when there are none); if it raises, the result is status "error"
    with the message "Bulk indexing error: ...". *)
Theorem bulk_index_with_embeddings_outcome {W} (env : Env W)
    (self : Embedding.EmbeddingTools) (docs : list (gmap string value))
    (text_field : string) (s : state W) :
  let token := Embedding.api_token self in
  let verdicts := (attempts env token text_field docs s).1 in
  let s1 := (attempts env token text_field docs s).2 in
  let processed := processed_of verdicts in
  let failed := failed_of verdicts in
  verdicts.*1 = docs ∧
  (∀ answer : http_request → outcome http_response,
     (∀ r w, (requests_post env r w).1 = answer r) →
     verdicts.*2 = (λ doc, verdict_of token text_field doc answer) <$> docs) ∧
  Embedding.embed_documents env self docs text_field [] [] s
  = (Returned (processed, failed), s1) ∧
  embedded_count env self docs text_field s = length processed ∧
  (length processed + length failed = length docs)%nat ∧
  match processed with
  | [] =>
      Embedding.bulk_index_with_embeddings env self docs text_field s
      = (Returned (VDict {[ "status" := VStr "error";
                            "message" := VStr "No documents were processed successfully";
                            "failed_docs" := VList failed ]}), s1)
  | _ =>
      let request := Bulk (Embedding.bulk_data self processed) true in
      ∀ o w, opensearch env request (world s1) = (o, w) →
        Embedding.bulk_index_with_embeddings env self docs text_field s
        = (Returned match o with
                    | Returned response => bulk_success response processed failed
                    | Raised e => error_result ("Bulk indexing error: " +:+ exn_str e)
                    end,
           State w (issued s1 ++ [OS request]))
  end.
Proof.
  intros token verdicts s1 processed failed.
  destruct (bulk_index_with_embeddings_run env self docs text_field s)
    as (processed' & failed' & s1' & Hrun & [= -> -> ->] & Hresult).
  fold token verdicts s1 processed failed in Hrun, Hresult.
  destruct (verdicts_length verdicts) as [Hlength Hcount].
  split; [apply attempts_documents|].
  split; [intros answer Hanswer; by apply attempts_stateless|].
  split; [done|]. split; [exact Hcount|]. split; [|done].
  fold processed failed in Hlength. rewrite Hlength.
  by rewrite <- (attempts_documents env token text_field docs s), !length_fmap.
Qed.

(** C2, as stated, fails: one document is embedded successfully, the bulk
    request raises, and the result is status "error". *)
Lemma bulk_index_error_with_embedded_document :
  let s := Script.start [Raised Scenario.connection_refused]
                        [Script.ok_json Scenario.embedding_body] [] in
  let docs := [Scenario.chunk "alpha"] in
  embedded_count Script.env Scenario.tools docs "text" s = 1%nat ∧
  (Embedding.bulk_index_with_embeddings Script.env Scenario.tools docs "text" s).1
  = Returned (error_result "Bulk indexing error: ConnectionError(refused)").
Proof. split; vm_compute; reflexivity. Qed.

Section ProcessFile.
Context {W : Type} (env : Env W) (self : DocIngest.DocumentIngestor).

Lemma build_documents_length file_path metadata chunks :
  length (DocIngest.build_documents file_path metadata chunks) = length chunks.
Proof. unfold DocIngest.build_documents. by rewrite length_imap. Qed.

Lemma build_documents_lookup file_path metadata chunks i chunk :
  chunks !! i = Some chunk →
  ∃ m : gmap string value,
    DocIngest.build_documents file_path metadata chunks !! i
    = Some {[ "text" := VStr chunk; "metadata" := VDict m ]} ∧
    m !! "chunk_index" = Some (VInt (Z.of_nat i)) ∧
    m !! "chunk_count" = Some (VInt (Z.of_nat (length chunks))) ∧
    m !! "source" = Some (VStr file_path) ∧
    m !! "filename" = Some (VStr (DocIngest.basename file_path)) ∧
    ∀ key, key ∉ ["chunk_index"; "chunk_count"; "source"; "filename"] →
           m !! key = default ∅ metadata !! key.
Proof.
  intros Hi. unfold DocIngest.build_documents. rewrite list_lookup_imap, Hi.
  eexists. split; [reflexivity|].
  repeat split.
  - by rewrite lookup_insert_ne, lookup_insert_eq by done.
  - by rewrite lookup_insert_eq.
  - by rewrite !lookup_insert_ne, lookup_insert_eq by done.
  - by rewrite !lookup_insert_ne, lookup_insert_eq by done.
  - intros key Hkey.
    rewrite !lookup_insert_ne; [done|..]; intros <-; apply Hkey; set_solver.
Qed.

(** The result of the bulk indexing always has the field the log line of
    [process_file] reads. *)
Lemma bulk_index_with_embeddings_logged (tools : Embedding.EmbeddingTools) docs s :
  ∃ r s', Embedding.bulk_index_with_embeddings env tools docs "text" s = (Returned r, s') ∧
    ∃ status, py_getitem r "status" = Returned status ∧
      ∃ x, (if py_eq_str status "success"
            then py_getitem r "processed_count" else py_getitem r "message") = Returned x.
Proof.
  destruct (bulk_index_with_embeddings_run env tools docs "text" s)
    as (processed & failed & s1 & _ & _ & Hresult).
  destruct processed as [|p ps].
  - rewrite Hresult. eexists _, _. split; [done|].
    eexists. split; [reflexivity|]. eexists. reflexivity.
  - cbv zeta in Hresult.
    destruct (opensearch env (Bulk (Embedding.bulk_data tools (p :: ps)) true) (world s1))
      as [o w] eqn:Hbulk.
    rewrite (Hresult _ _ eq_refl). eexists _, _. split; [done|].
    destruct o; (eexists; split; [reflexivity|]; eexists; reflexivity).
Qed.
End ProcessFile.

(** C6.  When the index step and the read return and the splitter yields
    [chunks], [process_file] hands the bulk indexing exactly the documents
    built from the chunks: as many documents as chunks, the document at
    position [i] having the [i]-th chunk as its text and a metadata
    dictionary with [chunk_index = i], [chunk_count] the number of chunks,
    [source] the file path, [filename] the base name of the path, and every
    other key as in the metadata of the caller. *)
Theorem process_file_documents {W} (env : Env W) (self : DocIngest.DocumentIngestor)
    (file_path : string) (metadata : option (gmap string value))
    (s s1 s2 : state W) (v : value) (text : string) (chunks : list string) :
  DocIngest.create_index_if_not_exists env self s = (Returned v, s1) →
  DocIngest.read_text_file env file_path s1 = (Returned text, s2) →
  DocIngest.text_splitter self text = Returned chunks →
  let documents := DocIngest.build_documents file_path metadata chunks in
  DocIngest.process_file env self file_path metadata s
  = Embedding.bulk_index_with_embeddings env (DocIngest.embedding_tools self) documents "text" s2 ∧
  length documents = length chunks ∧
  ∀ i chunk, chunks !! i = Some chunk →
    ∃ m : gmap string value,
      documents !! i = Some {[ "text" := VStr chunk; "metadata" := VDict m ]} ∧
      m !! "chunk_index" = Some (VInt (Z.of_nat i)) ∧
      m !! "chunk_count" = Some (VInt (Z.of_nat (length chunks))) ∧
      m !! "source" = Some (VStr file_path) ∧
      m !! "filename" = Some (VStr (DocIngest.basename file_path)) ∧
      ∀ key, key ∉ ["chunk_index"; "chunk_count"; "source"; "filename"] →
             m !! key = default ∅ metadata !! key.
Proof.
  intros Hcreate Hread Hsplit documents. subst documents.
  split; [|split; [apply build_documents_length | apply build_documents_lookup]].
  unfold DocIngest.process_file. unfold_M. rewrite Hcreate, Hread.
  unfold DocIngest.split_text. unfold_M. rewrite Hsplit.
  destruct (bulk_index_with_embeddings_logged env (DocIngest.embedding_tools self)
              (DocIngest.build_documents file_path metadata chunks) s2)
    as (r & s' & -> & status & -> & x & ->).
  reflexivity.
Qed.

(** ** An embedding response without a vector *)

Lemma response_embedding_missing (resp : http_response) (body : gmap string value) :
  raise_for_status resp = Returned tt →
  json resp = Returned (VDict body) →
  (body !! "data" = None
   ∨ ∃ first rest, body !! "data" = Some (VList (VDict first :: rest))
                   ∧ first !! "embedding" = None) →
  response_embedding resp = Returned (VList []).
Proof.
  intros Hstatus Hjson Hbody. unfold response_embedding.
  cbv beta iota delta [mbind outcome_bind]. rewrite Hstatus, Hjson. cbn [py_get].
  destruct Hbody as [->|(first & rest & -> & Hfirst)]; cbn [default from_option id py_getitem0 py_get].
  - by rewrite lookup_empty.
  - by rewrite Hfirst.
Qed.

(** C10.  Let the embedding API answer with a response that is not an HTTP
    error and whose JSON body is a dictionary without [data], or whose first
    [data] item has no [embedding].  When that is the answer to the request
    for some model, both embedding functions, asked for that model, return
    status "success" with the empty list as the embedding (and the model
    name).  When that is the answer to the request the tools make, which is
    for the default model: on the search path, [text_similarity_search]
    returns the dimension-mismatch error of [knn_search], "Expected 1024,
    got 0", having issued the embedding request only; on the ingestion path,
    the bulk indexing of a document with a text stores the empty list under
    [dense_vector], sends it in the bulk request and, when that returns,
    reports success with one processed and no failed document. *)
Theorem empty_embedding_is_success {W} (env : Env W) (self : Embedding.EmbeddingTools)
    (cfg : App.Config) (tok : string) (text : value) (s : state W)
    (doc : gmap string value) :
  Embedding.truthy_str (Embedding.api_token self) = Some tok →
  Embedding.truthy_str (Some (App.embedding_api_token cfg)) = Some tok →
  doc !! "text" = Some text →
  (∀ model resp w,
     requests_post env (embedding_request tok text model) (world s) = (Returned resp, w) →
     without_embedding resp →
     Embedding.generate_embedding env self text model s
     = (Returned (embedding_success (VList []) model),
        State w (issued s ++ [HTTP (embedding_request tok text model)])) ∧
     App.generate_embedding env cfg text model s
     = (Returned (embedding_success (VList []) model),
        State w (issued s ++ [HTTP (embedding_request tok text model)]))) ∧
  (∀ resp w,
     requests_post env (embedding_request tok text None) (world s) = (Returned resp, w) →
     without_embedding resp →
     let asked := State w (issued s ++ [HTTP (embedding_request tok text None)]) in
     (∀ k score,
        App.text_similarity_search env cfg text k score s
        = (Returned (error_result "Vector dimension mismatch. Expected 1024, got 0"), asked)) ∧
     (let stored := <[Embedding.vector_field := VList []]> doc in
      let request := Bulk (Embedding.bulk_data self [stored]) true in
      In (VDict (delete "_id" stored)) (Embedding.bulk_data self [stored]) ∧
      ∀ response w', opensearch env request w = (Returned response, w') →
        Embedding.bulk_index_with_embeddings env self [doc] "text" s
        = (Returned (bulk_success response [stored] []),
           State w' (issued asked ++ [OS request])))).
Proof.
  intros Htok Hcfg Hdoc.
  assert (Hgen : ∀ model resp w,
             requests_post env (embedding_request tok text model) (world s) = (Returned resp, w) →
             without_embedding resp →
             Embedding.generate_embedding env self text model s
             = (Returned (embedding_success (VList []) model),
                State w (issued s ++ [HTTP (embedding_request tok text model)])) ∧
             App.generate_embedding env cfg text model s
             = (Returned (embedding_success (VList []) model),
                State w (issued s ++ [HTTP (embedding_request tok text model)]))).
  { intros model resp w Hpost (Hstatus & body & Hjson & Hbody).
    pose proof (response_embedding_missing resp body Hstatus Hjson Hbody) as Hempty.
    pose proof (generate_embedding_contract env self text model s) as H1.
    pose proof (app_generate_embedding_contract env cfg text model s) as H2.
    rewrite Htok in H1. rewrite Hcfg in H2. cbv zeta in H1, H2.
    rewrite (H1 _ _ Hpost), (H2 _ _ Hpost).
    cbv beta iota delta [mbind outcome_bind]. by rewrite Hempty. }
  split; [exact Hgen|].
  intros resp w Hpost Hresp asked.
  destruct (Hgen None resp w Hpost Hresp) as [Htools Happ].
  split.
  - intros k score. unfold App.text_similarity_search. unfold_M. rewrite Happ.
    unfold embedding_success. cbn [py_getitem]. rewrite lookup_insert_eq.
    cbn [py_eq_str String.eqb Ascii.eqb Bool.eqb].
    rewrite lookup_insert_ne, lookup_insert_eq by done.
    rewrite (knn_search_mismatch env cfg (VList []) k _ 0) by done.
    reflexivity.
  - cbv zeta. split.
    { cbn [Embedding.bulk_data].
      destruct (<[Embedding.vector_field:=VList []]> doc !! "_id") eqn:Hid.
      - right. by left.
      - right. left. by rewrite delete_id. }
    intros response w' Hbulk.
    unfold Embedding.bulk_index_with_embeddings. unfold_M.
    cbn [Embedding.embed_documents]. rewrite Hdoc. unfold_M. rewrite Htools.
    unfold embedding_success. cbn [py_getitem]. rewrite lookup_insert_eq.
    cbn [py_eq_str String.eqb Ascii.eqb Bool.eqb].
    rewrite lookup_insert_ne, lookup_insert_eq by done.
    cbn [app fst snd world issued]. rewrite Hbulk. reflexivity.
Qed.

(** ** The properties on concrete inputs *)

(** The ten-nearest search for a vector of 1024 floats, answered with two
    hits: both come back reshaped, without the vector. *)
Lemma knn_search_results_reshaped_witness :
  let s := Script.start [Returned (VBool true); Returned Scenario.search_answer] [] [] in
  let vector := Scenario.vector_of 1024 in
  let run := App.knn_search Script.env Scenario.cfg vector (VInt 10) s in
  run.1 = Returned (VDict {[ "status" := VStr "success";
                             "results" := VList [Scenario.result_a; Scenario.result_b];
                             "total" := VInt 2 ]}) ∧
  path (App.knn_query vector (VInt 10)) ["_source"; "excludes"]
    = Some (VList [VStr "dense_vector"]) ∧
  ∃ ex w1 answer w2 hits results,
    opensearch Script.env (IndicesExists "kb") (world s) = (Returned ex, w1) ∧
    opensearch Script.env
      (Search (json_dumps (App.knn_query vector (VInt 10))) "kb" (VInt 10)) w1
      = (Returned answer, w2) ∧
    run.2 = State w2 (issued s ++ [OS (IndicesExists "kb");
                                   OS (Search (json_dumps (App.knn_query vector (VInt 10)))
                                              "kb" (VInt 10))]) ∧
    hits_of answer = Returned hits ∧
    Forall2 reshaped hits results ∧
    VDict {[ "status" := VStr "success";
             "results" := VList [Scenario.result_a; Scenario.result_b];
             "total" := VInt 2 ]}
    = VDict {[ "status" := VStr "success";
               "results" := VList results;
               "total" := VInt (Z.of_nat (length results)) ]}.
Proof.
  intros s vector run.
  split; [vm_compute; reflexivity|].
  apply (knn_search_results_reshaped Script.env Scenario.cfg vector (VInt 10) s run.2).
  - vm_compute; reflexivity.
  - reflexivity.
Defined.

(** The spec's example: threshold 0.5 over hits scored 0.75 and 0.25 keeps
    the first only, out of an original total of two. *)
Lemma text_similarity_search_threshold_witness :
  let s := Script.start [Returned (VBool true); Returned Scenario.search_answer]
                        [Script.ok_json Scenario.embedding_body] [] in
  let k := VInt 10 in
  let score := NFloat Scenario.half in
  let run := App.text_similarity_search Script.env Scenario.cfg (VStr "alpha") k score s in
  let r := VDict {[ "status" := VStr "success";
                    "query_text" := VStr "alpha";
                    "results" := VList [Scenario.result_a];
                    "total" := VInt 1;
                    "score_threshold" := VFloat Scenario.half;
                    "original_total" := VInt 2 ]} in
  run.1 = Returned r ∧
  ∃ vector w1 answer w2 hits pool results,
    let query := App.knn_query vector k in
    let request := Search (json_dumps query) "kb" k in
    path query ["size"] = Some k ∧
    path query ["query"; "knn"; "dense_vector"; "k"] = Some k ∧
    last (issued run.2) = Some (OS request) ∧
    opensearch Script.env request w1 = (Returned answer, w2) ∧
    hits_of answer = Returned hits ∧
    Forall2 reshaped hits pool ∧
    App.filter_results pool score = Returned results ∧
    sublist results pool ∧
    Forall (above_threshold score) results ∧
    field r "results" = Some (VList results) ∧
    field r "total" = Some (VInt (Z.of_nat (length results))) ∧
    field r "original_total" = Some (VInt (Z.of_nat (length pool))) ∧
    (length results ≤ length pool)%nat.
Proof.
  intros s k score run r.
  split; [vm_compute; reflexivity|].
  apply (text_similarity_search_threshold Script.env Scenario.cfg (VStr "alpha") k score
           s run.2 r).
  - vm_compute; reflexivity.
  - reflexivity.
Defined.

(** A vector of length 512 is refused before any request. *)
Lemma knn_search_dimension_check_witness :
  let s := Script.start [Returned (VBool true); Returned Scenario.search_answer] [] [] in
  App.knn_search Script.env Scenario.cfg (Scenario.vector_of 512) (VInt 10) s
  = (Returned (error_result "Vector dimension mismatch. Expected 1024, got 512"), s).
Proof.
  intros s.
  apply (proj1 (knn_search_dimension_check Script.env Scenario.cfg
                  (Scenario.vector_of 512) (VInt 10) s) 512).
  - reflexivity.
  - discriminate.
Defined.

(** On a store holding document [a] in index [kb]: deleting [zz] reports
    not found, deleting [a] succeeds. *)
Lemma delete_document_not_found_witness :
  let client := {| AosClient.index_name := "kb" |} in
  let s := State (Scenario.kb, world (Script.start [] [] [])) [] in
  (AosClient.delete_document (Store.env Script.env) client "zz" s).1
  = Returned (error_result "Document with ID zz not found") ∧
  (AosClient.delete_document (Store.env Script.env) client "a" s).1
  = Returned (VDict {[ "status" := VStr "success";
                       "response" := Store.deleted "kb" "a" ]}).
Proof.
  intros client s. split.
  - unfold s.
    rewrite (proj2 (delete_document_not_found Script.env Script.env client "zz")
               Scenario.kb _ []
               (Store.MkIndex None {[ "a" := VDict (Scenario.chunk "alpha") ]}) eq_refl).
    reflexivity.
  - unfold s.
    rewrite (proj2 (delete_document_not_found Script.env Script.env client "a")
               Scenario.kb _ []
               (Store.MkIndex None {[ "a" := VDict (Scenario.chunk "alpha") ]}) eq_refl).
    reflexivity.
Defined.

(** Without a token nothing is requested; with one, a 500 answer is a
    request failure after a single request. *)
Lemma generate_embedding_single_attempt_witness :
  let s := Script.start [] [Scenario.server_error; Script.ok_json Scenario.embedding_body] [] in
  Embedding.generate_embedding Script.env Scenario.tools_without_token (VStr "alpha") None s
  = (Returned (error_result "API token not configured for embedding service"), s) ∧
  App.generate_embedding Script.env Scenario.cfg_without_token (VStr "alpha") None s
  = (Returned (error_result "API token not configured for embedding service"), s) ∧
  (App.generate_embedding Script.env Scenario.cfg (VStr "alpha") None s).1
  = Returned (error_result
                ("API request failed: 500 Server Error: Internal Server Error for url: "
                 +:+ "https://api.siliconflow.cn/v1/embeddings")) ∧
  issued (App.generate_embedding Script.env Scenario.cfg (VStr "alpha") None s).2
  = [HTTP (embedding_request "sk-test" (VStr "alpha") None)].
Proof.
  intros s.
  destruct (generate_embedding_single_attempt Script.env Scenario.tools_without_token
              Scenario.cfg) as (Htools & Happ & _).
  split; [exact (Htools (VStr "alpha") None s)|].
  split.
  { exact (proj1 (proj2 (generate_embedding_single_attempt Script.env Scenario.tools
                           Scenario.cfg_without_token)) (VStr "alpha") None s). }
  pose proof (Happ (VStr "alpha") None s _ _ eq_refl) as Hrun.
  rewrite Hrun. split; reflexivity.
Defined.

(** The spec's scenario: three chunks, the embedding of the second fails. *)
Lemma bulk_index_with_embeddings_outcome_witness :
  let s := Script.start [Returned Scenario.bulk_answer]
             [Script.ok_json Scenario.embedding_body; Scenario.server_error;
              Script.ok_json Scenario.embedding_body] [] in
  let docs := [Scenario.chunk "one"; Scenario.chunk "two"; Scenario.chunk "three"] in
  let r := (Embedding.bulk_index_with_embeddings Script.env Scenario.tools docs "text" s).1 in
  let reason := "API request failed: 500 Server Error: Internal Server Error for url: "
                +:+ "https://api.siliconflow.cn/v1/embeddings" in
  (attempts Script.env (Some "sk-test") "text" docs s).1
  = [(Scenario.chunk "one", Embedded (Scenario.vector_of 1024));
     (Scenario.chunk "two", Failed reason);
     (Scenario.chunk "three", Embedded (Scenario.vector_of 1024))] ∧
  embedded_count Script.env Scenario.tools docs "text" s = 2%nat ∧
  ∃ v, r = Returned v ∧
    field v "status" = Some (VStr "success") ∧
    field v "processed_count" = Some (VInt 2) ∧
    field v "failed_count" = Some (VInt 1) ∧
    field v "failed_docs"
    = Some (VList [VDict {[ "doc" := VDict (Scenario.chunk "two");
                            "reason" := VStr reason ]}]).
Proof.
  intros s docs r reason. subst r.
  pose proof (bulk_index_with_embeddings_outcome Script.env Scenario.tools docs "text" s)
    as Houtcome.
  cbv zeta in Houtcome. destruct Houtcome as (_ & _ & _ & Hcount & _ & Hresult).
  assert (Hverdicts : (attempts Script.env (Some "sk-test") "text" docs s).1
                      = [(Scenario.chunk "one", Embedded (Scenario.vector_of 1024));
                         (Scenario.chunk "two", Failed reason);
                         (Scenario.chunk "three", Embedded (Scenario.vector_of 1024))])
    by (vm_compute; reflexivity).
  split; [exact Hverdicts|].
  change (Embedding.api_token Scenario.tools) with (Some "sk-test") in Hcount, Hresult.
  rewrite Hverdicts in Hcount, Hresult.
  split; [rewrite Hcount; reflexivity|].
  rewrite !processed_of_cons, !failed_of_cons in Hresult. cbv beta iota zeta in Hresult.
  rewrite (Hresult _ _ eq_refl).
  eexists. split; [reflexivity|]. vm_compute. repeat split.
Defined.

(** A file that splits into two chunks: two documents, indexed 0 and 1 out
    of 2. *)
Lemma process_file_documents_witness :
  let self := Scenario.ingestor ["alpha"; "beta"] in
  let s := Script.start [Returned (VBool true); Returned Scenario.bulk_answer]
             [Script.ok_json Scenario.embedding_body; Script.ok_json Scenario.embedding_body]
             [Returned "alpha beta"] in
  let s1 := (DocIngest.create_index_if_not_exists Script.env self s).2 in
  let s2 := (DocIngest.read_text_file Script.env "/data/guide.txt" s1).2 in
  let chunks := ["alpha"; "beta"] in
  let documents := DocIngest.build_documents "/data/guide.txt" None chunks in
  DocIngest.basename "/data/guide.txt" = "guide.txt" ∧
  DocIngest.process_file Script.env self "/data/guide.txt" None s
  = Embedding.bulk_index_with_embeddings Script.env (DocIngest.embedding_tools self)
      documents "text" s2 ∧
  length documents = length chunks ∧
  ∀ i chunk, chunks !! i = Some chunk →
    ∃ m : gmap string value,
      documents !! i = Some {[ "text" := VStr chunk; "metadata" := VDict m ]} ∧
      m !! "chunk_index" = Some (VInt (Z.of_nat i)) ∧
      m !! "chunk_count" = Some (VInt (Z.of_nat (length chunks))) ∧
      m !! "source" = Some (VStr "/data/guide.txt") ∧
      m !! "filename" = Some (VStr (DocIngest.basename "/data/guide.txt")) ∧
      ∀ key, key ∉ ["chunk_index"; "chunk_count"; "source"; "filename"] →
             m !! key = (∅ : gmap string value) !! key.
Proof.
  intros self s s1 s2 chunks documents.
  split; [reflexivity|].
  apply (process_file_documents Script.env self "/data/guide.txt" None s s1 s2
           VNone "alpha beta" chunks).
  - vm_compute; reflexivity.
  - vm_compute; reflexivity.
  - reflexivity.
Defined.

(** An answer without [data]: the search path stops at the dimension check,
    the ingestion path writes the empty vector. *)
Lemma empty_embedding_is_success_witness :
  let s := Script.start [Returned Scenario.bulk_answer]
             [Script.ok_json Scenario.body_without_data] [] in
  let doc := Scenario.chunk "alpha" in
  let stored : gmap string value := <["dense_vector" := VList []]> doc in
  (Embedding.generate_embedding Script.env Scenario.tools (VStr "alpha") None s).1
  = Returned (VDict {[ "status" := VStr "success"; "embedding" := VList [];
                       "model" := VStr "Pro/BAAI/bge-m3" ]}) ∧
  (App.text_similarity_search Script.env Scenario.cfg (VStr "alpha") (VInt 10)
     (NFloat Scenario.half) s).1
  = Returned (error_result "Vector dimension mismatch. Expected 1024, got 0") ∧
  (Embedding.bulk_index_with_embeddings Script.env Scenario.tools [doc] "text" s).1
  = Returned (bulk_success Scenario.bulk_answer [stored] []).
Proof.
  intros s doc stored.
  assert (Hresp : without_embedding
                    (HttpResponse 200 "OK" "https://api.siliconflow.cn/v1/embeddings"
                       (Returned Scenario.body_without_data))).
  { split; [reflexivity|]. exists {[ "object" := VStr "list" ]}.
    split; [reflexivity|]. left. reflexivity. }
  destruct (empty_embedding_is_success Script.env Scenario.tools Scenario.cfg "sk-test"
              (VStr "alpha") s doc eq_refl eq_refl eq_refl) as [Hgen Htools].
  destruct (Htools _ (world (Script.start [Returned Scenario.bulk_answer] [] [])) eq_refl Hresp)
    as (Hsearch & _ & Hbulk).
  split; [by rewrite (proj1 (Hgen None _ _ eq_refl Hresp))|].
  split; [by rewrite Hsearch|].
  by rewrite (Hbulk Scenario.bulk_answer (world (Script.start [] [] [])) eq_refl).
Defined.

(** From an empty store: the first call creates the index, the second one
    finds it. *)
Lemma create_index_if_not_exists_idempotent_witness :
  let self := Scenario.ingestor [] in
  let s := State ((∅ : gmap string Store.index), world (Script.start [] [] [])) [] in
  let create := DocIngest.create_index_if_not_exists (Store.env Script.env) self in
  ∃ s1 s2,
    create s = (Returned VNone, s1) ∧
    create s1 = (Returned VNone, s2) ∧
    issued s2 = [OS (IndicesExists "kb");
                 OS (IndicesCreate "kb" (Some DocIngest.mapping));
                 OS (IndicesExists "kb")] ∧
    world s2 = world s1.
Proof.
  intros self s create.
  destruct (proj1 (proj2 (create_index_if_not_exists_idempotent Script.env Script.env self s)))
    as (s1 & s2 & first_call & H1 & H2 & Hissued1 & Hfirst & Hissued2 & Hworld & _).
  exists s1, s2. repeat split; try done.
  rewrite Hissued2, Hissued1, Hfirst. reflexivity.
Defined.

(** * Further properties *)

(** ** The gateway beyond the result shape *)

Section GatewayRuns.
Context {W : Type} (env : Env W) (self : AosClient.OpenSearchClient).

(** X1.  A search on an index that the existence test does not report
    present, or whose existence test raises, never reaches the search
    request: the only request issued is the existence test, and the result
    is an error with an empty results list, "Index ... does not exist" when
    the test answered. *)
Theorem search_documents_without_index (query : json_text) (size : value) (s : state W)
    (o : outcome value) (w1 : W) :
  let name := AosClient.index_name self in
  opensearch env (IndicesExists name) (world s) = (o, w1) →
  (∀ ex, o = Returned ex → py_truthy ex = false) →
  AosClient.search_documents env self query size s
  = (Returned match o with
              | Returned _ =>
                  VDict {[ "status" := VStr "error";
                           "message" := VStr ("Index " +:+ name +:+ " does not exist");
                           "results" := VList [] ]}
              | Raised e => search_failure e
              end,
     State w1 (issued s ++ [OS (IndicesExists name)])).
Proof.
  intros name Hexists Hfalsy. subst name.
  unfold AosClient.search_documents. unfold_M. rewrite Hexists.
  destruct o as [ex|e].
  - by rewrite (Hfalsy ex eq_refl).
  - destruct e as [[] ?]; reflexivity.
Qed.

(** X2.  Every result of a search that is not a success carries an empty
    results list, and an exception of the search request is reported by its
    class: a connection error, an invalid query, or an unexpected error. *)
Theorem search_documents_errors (query : json_text) (size : value) (s : state W) :
  let name := AosClient.index_name self in
  (∀ r s', AosClient.search_documents env self query size s = (Returned r, s') →
           ¬ is_success r → is_error r ∧ field r "results" = Some (VList [])) ∧
  (∀ ex w1 e w2,
     opensearch env (IndicesExists name) (world s) = (Returned ex, w1) →
     py_truthy ex = true →
     opensearch env (Search query name size) w1 = (Raised e, w2) →
     AosClient.search_documents env self query size s
     = (Returned (search_failure e),
        State w2 (issued s ++ [OS (IndicesExists name); OS (Search query name size)]))).
Proof.
  intros name. subst name. split.
  - intros r s'. unfold AosClient.search_documents. unfold_M.
    answer_cases.
    + destruct (py_truthy v); unfold_M.
      * answer_cases.
        -- intros [= <- <-] Hnot. by destruct Hnot.
        -- destruct e as [[] ?]; intros [= <- <-] _; (split; [split; [done | by eexists] | done]).
      * intros [= <- <-] _. split; [split; [done | by eexists] | done].
    + destruct e as [[] ?]; intros [= <- <-] _; (split; [split; [done | by eexists] | done]).
  - intros ex w1 e w2 Hexists Htruthy Hsearch.
    unfold AosClient.search_documents. unfold_M.
    rewrite Hexists, Htruthy. unfold_M. rewrite Hsearch, <- app_assoc.
    destruct e as [[] ?]; reflexivity.
Qed.
End GatewayRuns.

Section GatewayWrites.
Context {W : Type} (env : Env W) (self : AosClient.OpenSearchClient).

(** X3.  [write_document] and [index_document] create the index, with no
    mapping, exactly when the existence test answers falsy, and only then
    write, with [refresh] set; when the creation raises, no write request is
    issued and the exception is reported by its class.  The two differ in
    the id of the write request only. *)
Theorem write_document_creates_before_writing (document_id : string) (document : value)
    (s : state W) (ex : value) (w1 : W) :
  let name := AosClient.index_name self in
  let create := IndicesCreate name None in
  let written o := match o with
                   | Returned response => write_success response
                   | Raised e => write_failure e
                   end in
  opensearch env (IndicesExists name) (world s) = (Returned ex, w1) →
  ∀ id run, (id = Some document_id ∧ run = AosClient.write_document env self document_id document s)
            ∨ (id = None ∧ run = AosClient.index_document env self document s) →
    let write := Index name id document true in
    if py_truthy ex then
      ∀ o w2, opensearch env write w1 = (o, w2) →
        run = (Returned (written o), State w2 (issued s ++ [OS (IndicesExists name); OS write]))
    else
      (∀ e w2, opensearch env create w1 = (Raised e, w2) →
         run = (Returned (write_failure e),
                State w2 (issued s ++ [OS (IndicesExists name); OS create]))) ∧
      (∀ ack w2 o w3,
         opensearch env create w1 = (Returned ack, w2) →
         opensearch env write w2 = (o, w3) →
         run = (Returned (written o),
                State w3 (issued s ++ [OS (IndicesExists name); OS create; OS write]))).
Proof.
  intros name create written Hexists id run Hrun write.
  subst name create written write.
  assert (Hfail : ∀ e s', AosClient.invalid_document (W:=W) e s' = (Returned (write_failure e), s')).
  { intros [[] ?] s'; reflexivity. }
  destruct Hrun as [[-> ->]|[-> ->]];
    unfold AosClient.write_document, AosClient.index_document; unfold_M; rewrite Hexists;
    destruct (py_truthy ex); unfold_M.
  - intros o w2 Hwrite. rewrite Hwrite, <- app_assoc.
    destruct o; [reflexivity | apply Hfail].
  - split.
    + intros e w2 Hcreate. rewrite Hcreate, <- app_assoc. apply Hfail.
    + intros ack w2 o w3 Hcreate Hwrite. rewrite Hcreate. unfold_M.
      rewrite Hwrite, <- !app_assoc. destruct o; [reflexivity | apply Hfail].
  - intros o w2 Hwrite. rewrite Hwrite, <- app_assoc.
    destruct o; [reflexivity | apply Hfail].
  - split.
    + intros e w2 Hcreate. rewrite Hcreate, <- app_assoc. apply Hfail.
    + intros ack w2 o w3 Hcreate Hwrite. rewrite Hcreate. unfold_M.
      rewrite Hwrite, <- !app_assoc. destruct o; [reflexivity | apply Hfail].
Qed.

(** X4.  A delete on an index that the existence test does not report
    present returns "Index ... does not exist" and issues no delete
    request. *)
Theorem delete_document_without_index (document_id : string) (s : state W)
    (ex : value) (w1 : W) :
  let name := AosClient.index_name self in
  opensearch env (IndicesExists name) (world s) = (Returned ex, w1) →
  py_truthy ex = false →
  AosClient.delete_document env self document_id s
  = (Returned (error_result ("Index " +:+ name +:+ " does not exist")),
     State w1 (issued s ++ [OS (IndicesExists name)])).
Proof.
  intros name Hexists Hfalsy. subst name.
  unfold AosClient.delete_document. unfold_M. by rewrite Hexists, Hfalsy.
Qed.
End GatewayWrites.

Section GatewayOnStore.
Context {W : Type} (rest : Env W) (self : AosClient.OpenSearchClient).

Lemma store_create name body (w : gmap string Store.index) (w2 : W) :
  w !! name = None →
  opensearch (Store.env rest) (IndicesCreate name body) (w, w2)
  = (Returned (Store.acknowledged name), (<[name := Store.MkIndex body ∅]> w, w2)).
Proof.
  intros Hw. cbv beta iota delta [opensearch Store.env Store.answer fst snd].
  by rewrite Hw.
Qed.

Lemma store_index name id body (w : gmap string Store.index) (w2 : W) :
  opensearch (Store.env rest) (Index name (Some id) body true) (w, w2)
  = (Returned (Store.written name id
                 (bool_decide (Store.documents (default (Store.MkIndex None ∅) (w !! name)) !! id
                               = None))),
     (<[name := Store.MkIndex (Store.index_body (default (Store.MkIndex None ∅) (w !! name)))
                  (<[id := body]> (Store.documents
                                     (default (Store.MkIndex None ∅) (w !! name))))]> w, w2)).
Proof. reflexivity. Qed.

(** A write on the reference store: whatever the state, the document is
    stored under its id; an absent index is created first, with no body. *)
Lemma write_document_on_store (document_id : string) (document : value)
    (w : gmap string Store.index) (w2 : W) (log : list event) :
  let name := AosClient.index_name self in
  let ix := default (Store.MkIndex None ∅) (w !! name) in
  ∃ log',
    AosClient.write_document (Store.env rest) self document_id document (State (w, w2) log)
    = (Returned (write_success
                   (Store.written name document_id
                      (bool_decide (Store.documents ix !! document_id = None)))),
       State (<[name := Store.MkIndex (Store.index_body ix)
                          (<[document_id := document]> (Store.documents ix))]> w, w2) log').
Proof.
  intros name ix. subst ix.
  unfold AosClient.write_document. unfold_M. rewrite store_exists. fold name.
  destruct (w !! name) as [ix|] eqn:Hix.
  - rewrite bool_decide_eq_true_2 by eauto. cbv beta iota delta [py_truthy]. unfold_M.
    rewrite store_index. fold name. rewrite Hix. unfold_M. by eexists.
  - rewrite bool_decide_eq_false_2 by (intros [? ?]; discriminate).
    cbv beta iota delta [py_truthy]. unfold_M.
    rewrite (store_create name None w w2 Hix). unfold_M.
    rewrite store_index. fold name. rewrite lookup_insert_eq. unfold_M.
    cbn [default from_option id Store.index_body Store.documents].
    rewrite insert_insert_eq. by eexists.
Qed.

(** X5.  Round trip on the reference store, from any state: a document
    written under an id is in the index afterwards; deleting that id then
    succeeds with the acknowledgment of the store, and deleting it once more
    reports that the document was not found. *)
Theorem write_then_delete_on_store (document_id : string) (document : value)
    (s : state (gmap string Store.index * W)) :
  let name := AosClient.index_name self in
  ∃ ack s1 ix s2 s3,
    AosClient.write_document (Store.env rest) self document_id document s
    = (Returned (write_success ack), s1) ∧
    (world s1).1 !! name = Some ix ∧
    Store.documents ix !! document_id = Some document ∧
    AosClient.delete_document (Store.env rest) self document_id s1
    = (Returned (write_success (Store.deleted name document_id)), s2) ∧
    AosClient.delete_document (Store.env rest) self document_id s2
    = (Returned (error_result ("Document with ID " +:+ document_id +:+ " not found")), s3) ∧
    world s3 = world s2.
Proof.
  intros name. destruct s as [[w w2] log].
  destruct (write_document_on_store document_id document w w2 log) as [log1 Hwrite].
  cbv zeta in Hwrite. fold name in Hwrite.
  set (ix0 := default (Store.MkIndex None ∅) (w !! name)) in *.
  set (ix1 := Store.MkIndex (Store.index_body ix0)
                (<[document_id := document]> (Store.documents ix0))) in *.
  set (w' := <[name := ix1]> w) in *.
  assert (Hix1 : w' !! name = Some ix1) by apply lookup_insert_eq.
  set (ix2 := Store.MkIndex (Store.index_body ix1) (delete document_id (Store.documents ix1))).
  assert (Htruthy : ∀ m : gmap string Store.index, is_Some (m !! name) →
            py_truthy (VBool (bool_decide (is_Some (m !! name)))) = true).
  { intros m Hm. by rewrite bool_decide_eq_true_2. }
  (* the first delete *)
  pose proof (store_delete rest name document_id w' w2) as Hdelete1.
  cbv beta iota delta [Store.answer] in Hdelete1. rewrite Hix1 in Hdelete1.
  assert (Hdoc1 : Store.documents ix1 !! document_id = Some document) by apply lookup_insert_eq.
  rewrite Hdoc1 in Hdelete1. fold ix2 in Hdelete1.
  pose proof (delete_document_run (Store.env rest) self document_id (State (w', w2) log1)
                _ _ _ _ (store_exists rest name w' w2) (Htruthy w' (ex_intro _ _ Hix1))
                Hdelete1) as Hrun1.
  (* the second delete *)
  set (w'' := <[name := ix2]> w') in *.
  assert (Hix2 : w'' !! name = Some ix2) by apply lookup_insert_eq.
  pose proof (store_delete rest name document_id w'' w2) as Hdelete2.
  cbv beta iota delta [Store.answer] in Hdelete2. rewrite Hix2 in Hdelete2.
  assert (Hdoc2 : Store.documents ix2 !! document_id = None) by apply lookup_delete_eq.
  rewrite Hdoc2 in Hdelete2.
  pose proof (delete_document_run (Store.env rest) self document_id
                (State (w'', w2) (log1 ++ [OS (IndicesExists name);
                                           OS (Delete name document_id true)]))
                _ _ _ _ (store_exists rest name w'' w2) (Htruthy w'' (ex_intro _ _ Hix2))
                Hdelete2) as Hrun2.
  eexists _, _, ix1, _, _.
  split; [exact Hwrite|]. split; [exact Hix1|]. split; [exact Hdoc1|].
  split; [exact Hrun1|]. split; [exact Hrun2|]. reflexivity.
Qed.

(** X6.  On the reference store, when the index is absent: a
    [write_document] creates it with no body, so a call of
    [create_index_if_not_exists] for the same index afterwards finds it,
    issues no create, and the index is left without the k-NN mapping. *)
Theorem write_document_preempts_mapping (ingestor : DocIngest.DocumentIngestor)
    (document_id : string) (document : value)
    (w : gmap string Store.index) (w2 : W) (log : list event) :
  let name := AosClient.index_name self in
  AosClient.index_name (DocIngest.aos_client ingestor) = name →
  w !! name = None →
  ∃ r s1 s2,
    AosClient.write_document (Store.env rest) self document_id document (State (w, w2) log)
    = (Returned r, s1) ∧
    DocIngest.create_index_if_not_exists (Store.env rest) ingestor s1 = (Returned VNone, s2) ∧
    issued s2 = issued s1 ++ [OS (IndicesExists name)] ∧
    (world s2).1 !! name
    = Some (Store.MkIndex None {[ document_id := document ]}).
Proof.
  intros name Hname Hw.
  destruct (write_document_on_store document_id document w w2 log) as [log1 Hwrite].
  cbv zeta in Hwrite. fold name in Hwrite. rewrite Hw in Hwrite.
  cbn [default from_option id Store.index_body Store.documents] in Hwrite.
  pose proof (create_index_on_store rest ingestor
                (<[name := Store.MkIndex None (<[document_id := document]> ∅)]> w) w2 log1)
    as Hcreate.
  cbv zeta in Hcreate. rewrite Hname, lookup_insert_eq in Hcreate.
  eexists _, _, _. split; [exact Hwrite|]. split; [exact Hcreate|].
  split; [reflexivity|]. cbn [world fst]. by rewrite lookup_insert_eq.
Qed.
End GatewayOnStore.

(** ** The bulk indexing beyond its status *)

Section BulkIndexing.
Context {W : Type} (env : Env W) (self : Embedding.EmbeddingTools).

(** X7.  The body of the bulk request holds two entries per processed
    document, in order: the action header, which names the index and carries
    the [_id] of the document when it has one, and the document without its
    [_id]. *)
Theorem bulk_data_pairs (processed : list (gmap string value)) :
  let index := AosClient.index_name (Embedding.aos_client self) in
  length (Embedding.bulk_data self processed) = (2 * length processed)%nat ∧
  ∀ (i : nat) doc, processed !! i = Some doc →
    Embedding.bulk_data self processed !! (2 * i)%nat = Some (bulk_header index doc) ∧
    Embedding.bulk_data self processed !! (2 * i + 1)%nat = Some (VDict (delete "_id" doc)).
Proof.
  intros index. split.
  - induction processed as [|doc processed IH]; [done|].
    cbn [Embedding.bulk_data]. destruct (doc !! "_id"); cbn [length]; lia.
  - induction processed as [|doc0 processed IH]; intros i doc Hi; [done|].
    assert (Hcons : Embedding.bulk_data self (doc0 :: processed)
                    = bulk_header index doc0 :: VDict (delete "_id" doc0)
                      :: Embedding.bulk_data self processed).
    { cbn [Embedding.bulk_data]. unfold bulk_header. fold index.
      destruct (doc0 !! "_id") eqn:Hid; [done|]. by rewrite delete_id. }
    rewrite Hcons. destruct i as [|i].
    + injection Hi as ->. done.
    + cbn [lookup list_lookup] in Hi. destruct (IH i doc Hi) as [H1 H2].
      replace (2 * S i)%nat with (S (S (2 * i))) by lia.
      replace (S (S (2 * i)) + 1)%nat with (S (S (2 * i + 1))) by lia.
      done.
Qed.

Lemma embed_documents_requests tok docs text_field processed failed s :
  Embedding.truthy_str (Embedding.api_token self) = Some tok →
  issued (Embedding.embed_documents env self docs text_field processed failed s).2
  = issued s ++ ((λ text, HTTP (embedding_request tok text None)) <$> texts_of text_field docs).
Proof.
  intros Htok. revert processed failed s.
  induction docs as [|doc docs IH]; intros processed failed s;
    cbn [Embedding.embed_documents texts_of omap list_omap].
  - by rewrite app_nil_r.
  - fold (texts_of text_field docs).
    destruct (doc !! text_field) as [text|] eqn:Htext; cbn [fmap list_fmap]; [|apply IH].
    unfold_M.
    pose proof (generate_embedding_contract env self text None s) as Hgen.
    rewrite Htok in Hgen. cbv zeta in Hgen.
    destruct (requests_post env (embedding_request tok text None) (world s)) as [o w] eqn:Hpost.
    rewrite (Hgen _ _ eq_refl).
    destruct (o ≫= response_embedding) as [embedding|e]; cbn [embedding_outcome].
    + unfold embedding_success. cbn [py_getitem]. rewrite lookup_insert_eq.
      cbn [py_eq_str String.eqb Ascii.eqb Bool.eqb].
      rewrite lookup_insert_ne, lookup_insert_eq by done.
      rewrite IH. cbn [issued]. by rewrite <- app_assoc.
    + unfold embedding_failure, error_result. cbn [py_getitem]. rewrite lookup_insert_eq.
      cbn [py_eq_str String.eqb Ascii.eqb Bool.eqb].
      rewrite lookup_insert_ne, lookup_singleton_eq by done.
      rewrite IH. cbn [issued]. by rewrite <- app_assoc.
Qed.

(** X8.  With a token configured, the bulk indexing issues one embedding
    request per document that has the text field, in document order and
    with the text of that document as input, none for a document without
    the field, and then at most one request to the store: the bulk request,
    issued when at least one document was processed. *)
Theorem bulk_index_with_embeddings_requests (tok : string)
    (docs : list (gmap string value)) (text_field : string) (s : state W) :
  Embedding.truthy_str (Embedding.api_token self) = Some tok →
  ∃ processed failed s1,
    Embedding.embed_documents env self docs text_field [] [] s
    = (Returned (processed, failed), s1) ∧
    issued s1 = issued s ++ ((λ text, HTTP (embedding_request tok text None))
                             <$> texts_of text_field docs) ∧
    issued (Embedding.bulk_index_with_embeddings env self docs text_field s).2
    = issued s1 ++ match processed with
                   | [] => []
                   | _ => [OS (Bulk (Embedding.bulk_data self processed) true)]
                   end.
Proof.
  intros Htok.
  destruct (bulk_index_with_embeddings_run env self docs text_field s)
    as (processed & failed & s1 & Hrun & _ & Hresult).
  exists processed, failed, s1. split; [done|]. split.
  - pose proof (embed_documents_requests tok docs text_field [] [] s Htok) as H.
    by rewrite Hrun in H.
  - destruct processed as [|p ps].
    + rewrite Hresult. by rewrite app_nil_r.
    + cbv zeta in Hresult.
      destruct (opensearch env (Bulk (Embedding.bulk_data self (p :: ps)) true) (world s1))
        as [o w] eqn:Hbulk.
      by rewrite (Hresult _ _ eq_refl).
Qed.

Lemma embed_documents_without_token docs text_field processed failed s :
  Embedding.truthy_str (Embedding.api_token self) = None →
  Embedding.embed_documents env self docs text_field processed failed s
  = (Returned (processed, failed ++ (failed_without_token text_field <$> docs)), s).
Proof.
  intros Htok. revert failed.
  induction docs as [|doc docs IH]; intros failed; cbn [Embedding.embed_documents fmap list_fmap].
  - by rewrite app_nil_r.
  - unfold failed_without_token at 1.
    destruct (doc !! text_field) as [text|] eqn:Htext.
    + rewrite bool_decide_eq_true_2 by eauto. unfold_M.
      pose proof (generate_embedding_contract env self text None s) as Hgen.
      rewrite Htok in Hgen. rewrite Hgen.
      unfold error_result. cbn [py_getitem]. rewrite lookup_insert_eq.
      cbn [py_eq_str String.eqb Ascii.eqb Bool.eqb].
      rewrite lookup_insert_ne, lookup_singleton_eq by done.
      rewrite IH. by rewrite <- app_assoc.
    + rewrite bool_decide_eq_false_2 by (intros [? ?]; discriminate).
      rewrite IH. by rewrite <- app_assoc.
Qed.

(** X9.  With no token configured, the bulk indexing issues no request at
    all, to the embedding service or to the store: it returns the error "No
    documents were processed successfully" from an unchanged state, with one
    failed entry per document, in order, whose reason tells the missing
    token from a missing text field. *)
Theorem bulk_index_with_embeddings_without_token (docs : list (gmap string value))
    (text_field : string) (s : state W) :
  Embedding.truthy_str (Embedding.api_token self) = None →
  Embedding.bulk_index_with_embeddings env self docs text_field s
  = (Returned (VDict {[ "status" := VStr "error";
                        "message" := VStr "No documents were processed successfully";
                        "failed_docs" := VList (failed_without_token text_field <$> docs) ]}),
     s).
Proof.
  intros Htok. unfold Embedding.bulk_index_with_embeddings. unfold_M.
  by rewrite (embed_documents_without_token docs text_field [] [] s Htok).
Qed.
End BulkIndexing.

(** ** Error behaviour of the embedding provider and of the pipeline *)

Lemma response_embedding_malformed (resp : http_response) (body : value) :
  raise_for_status resp = Returned tt →
  json resp = Returned body →
  (∀ d, body = VDict d → d !! "data" = Some (VList [])) →
  (∃ d, body = VDict d) ∨ (∃ l, body = VList l) →
  response_embedding resp
  = Raised match body with
           | VDict _ => Exn IndexError "list index out of range"
           | _ => Exn AttributeError "'list' object has no attribute 'get'"
           end.
Proof.
  intros Hstatus Hjson Hdata Hbody. unfold response_embedding.
  cbv beta iota delta [mbind outcome_bind]. rewrite Hstatus, Hjson.
  destruct Hbody as [[d ->]|[l ->]]; cbn [py_get].
  - by rewrite (Hdata d eq_refl).
  - reflexivity.
Qed.

(** X10.  Where an answer without [data] is a success with an empty
    vector, an answer that is not an HTTP error and whose [data] is an empty
    list, or whose body is a JSON array, is an error: both embedding
    functions return "Unexpected error: list index out of range" in the
    first case and "Unexpected error: 'list' object has no attribute 'get'"
    in the second. *)
Theorem generate_embedding_malformed_answer {W} (env : Env W)
    (self : Embedding.EmbeddingTools) (cfg : App.Config) (tok : string)
    (text : value) (model : option string) (s : state W)
    (resp : http_response) (w : W) (body : value) :
  Embedding.truthy_str (Embedding.api_token self) = Some tok →
  Embedding.truthy_str (Some (App.embedding_api_token cfg)) = Some tok →
  requests_post env (embedding_request tok text model) (world s) = (Returned resp, w) →
  raise_for_status resp = Returned tt →
  json resp = Returned body →
  (∀ d, body = VDict d → d !! "data" = Some (VList [])) →
  (∃ d, body = VDict d) ∨ (∃ l, body = VList l) →
  let result := error_result match body with
                             | VDict _ => "Unexpected error: list index out of range"
                             | _ => "Unexpected error: 'list' object has no attribute 'get'"
                             end in
  let asked := State w (issued s ++ [HTTP (embedding_request tok text model)]) in
  Embedding.generate_embedding env self text model s = (Returned result, asked) ∧
  App.generate_embedding env cfg text model s = (Returned result, asked).
Proof.
  intros Htok Hcfg Hpost Hstatus Hjson Hdata Hbody result asked. subst result asked.
  pose proof (response_embedding_malformed resp body Hstatus Hjson Hdata Hbody) as Hraise.
  pose proof (generate_embedding_contract env self text model s) as H1.
  pose proof (app_generate_embedding_contract env cfg text model s) as H2.
  rewrite Htok in H1. rewrite Hcfg in H2. cbv zeta in H1, H2.
  rewrite (H1 _ _ Hpost), (H2 _ _ Hpost).
  cbv beta iota delta [mbind outcome_bind]. rewrite Hraise.
  destruct Hbody as [[d ->]|[l ->]]; by split.
Qed.

Section Totality.
Context {W : Type} (env : Env W).

Lemma embedding_contract_uniform token (generate : value → option string → M W value)
    text model s :
  embedding_contract env token generate →
  ∃ r s', generate text model s = (Returned r, s') ∧ uniform_result r.
Proof.
  intros Hcontract. specialize (Hcontract text model s).
  destruct (Embedding.truthy_str token) as [tok|].
  - cbv zeta in Hcontract.
    destruct (requests_post env (embedding_request tok text model) (world s)) as [o w] eqn:Hpost.
    rewrite (Hcontract _ _ eq_refl). eexists _, _. split; [done|].
    destruct (o ≫= response_embedding) as [embedding|e]; cbn [embedding_outcome].
    + by apply uniform_success.
    + by eapply uniform_error.
  - rewrite Hcontract. eexists _, _. split; [done|]. by eapply uniform_error.
Qed.

Lemma knn_search_uniform (cfg : App.Config) vector k s :
  ∃ r s', App.knn_search env cfg vector k s = (Returned r, s') ∧ uniform_result r.
Proof.
  destruct (py_len vector) as [n|e] eqn:Hlen.
  2:{ rewrite (knn_search_no_length env cfg _ k s _ Hlen). eexists _, _. split; [done|].
      by eapply uniform_error. }
  destruct (Z.eq_dec n 1024) as [->|Hn].
  2:{ rewrite (knn_search_mismatch env cfg _ k s _ Hlen Hn). eexists _, _. split; [done|].
      by eapply uniform_error. }
  unfold App.knn_search. unfold_M. rewrite Hlen.
  change (1024 =? App.VECTOR_DIMENSION) with true. cbv beta iota.
  destruct (search_documents_uniform env (App.aos_client cfg)
              (json_dumps (App.knn_query vector k)) k s)
    as (res & s1 & -> & [[d ->] Hres]).
  destruct Hres as [Hok|[Herr [m Hm]]]; unfold is_success, field in *.
  - cbn [py_getitem]. rewrite Hok. cbn [py_eq_str String.eqb Ascii.eqb Bool.eqb py_contains].
    destruct (d !! "results") as [results|] eqn:Hresults.
    + rewrite bool_decide_eq_true_2 by eauto.
      destruct (mbind _ _) as [simplified|e].
      * eexists _, _. split; [done|]. by apply uniform_success.
      * eexists _, _. split; [done|]. by eapply uniform_error.
    + rewrite bool_decide_eq_false_2 by (intros [? ?]; discriminate).
      eexists _, _. split; [done|]. by apply uniform_success.
  - cbn [py_getitem]. rewrite Herr. cbn [py_eq_str String.eqb Ascii.eqb Bool.eqb].
    eexists _, _. split; [done|]. by eapply uniform_error.
Qed.

Lemma bulk_index_with_embeddings_uniform (tools : Embedding.EmbeddingTools) docs text_field s :
  ∃ r s', Embedding.bulk_index_with_embeddings env tools docs text_field s = (Returned r, s')
          ∧ uniform_result r.
Proof.
  destruct (bulk_index_with_embeddings_run env tools docs text_field s)
    as (processed & failed & s1 & _ & _ & Hresult).
  destruct processed as [|p ps].
  - rewrite Hresult. eexists _, _. split; [done|]. by eapply uniform_error.
  - cbv zeta in Hresult.
    destruct (opensearch env (Bulk (Embedding.bulk_data tools (p :: ps)) true) (world s1))
      as [o w] eqn:Hbulk.
    rewrite (Hresult _ _ eq_refl). eexists _, _. split; [done|].
    destruct o; [by apply uniform_success | by eapply uniform_error].
Qed.

(** What [process_file] returns, by the first step that raises. *)
Lemma process_file_run (self : DocIngest.DocumentIngestor) file_path metadata s :
  DocIngest.process_file env self file_path metadata s =
    match DocIngest.create_index_if_not_exists env self s with
    | (Raised e, s1) => (Returned (error_result (exn_str e)), s1)
    | (Returned _, s1) =>
        match DocIngest.read_text_file env file_path s1 with
        | (Raised e, s2) => (Returned (error_result (exn_str e)), s2)
        | (Returned text, s2) =>
            match DocIngest.text_splitter self text with
            | Raised e => (Returned (error_result (exn_str e)), s2)
            | Returned chunks =>
                Embedding.bulk_index_with_embeddings env (DocIngest.embedding_tools self)
                  (DocIngest.build_documents file_path metadata chunks) "text" s2
            end
        end
    end.
Proof.
  unfold DocIngest.process_file. unfold_M.
  destruct (DocIngest.create_index_if_not_exists env self s) as [[v|e] s1]; [|done].
  destruct (DocIngest.read_text_file env file_path s1) as [[text|e] s2]; [|done].
  unfold DocIngest.split_text. unfold_M.
  destruct (DocIngest.text_splitter self text) as [chunks|e]; [|done].
  destruct (bulk_index_with_embeddings_logged env (DocIngest.embedding_tools self)
              (DocIngest.build_documents file_path metadata chunks) s2)
    as (r & s' & -> & status & -> & x & ->).
  reflexivity.
Qed.

(** X11.  No exception crosses these boundaries: in every environment and
    for every input, both embedding functions, [knn_search], the bulk
    indexing and [process_file] return a dictionary whose status is
    "success", or "error" with a message. *)
Theorem components_results_uniform (tools : Embedding.EmbeddingTools) (cfg : App.Config)
    (ingestor : DocIngest.DocumentIngestor) (s : state W) :
  (∀ text model, ∃ r s',
     Embedding.generate_embedding env tools text model s = (Returned r, s') ∧ uniform_result r) ∧
  (∀ text model, ∃ r s',
     App.generate_embedding env cfg text model s = (Returned r, s') ∧ uniform_result r) ∧
  (∀ vector k, ∃ r s',
     App.knn_search env cfg vector k s = (Returned r, s') ∧ uniform_result r) ∧
  (∀ docs text_field, ∃ r s',
     Embedding.bulk_index_with_embeddings env tools docs text_field s = (Returned r, s')
     ∧ uniform_result r) ∧
  (∀ file_path metadata, ∃ r s',
     DocIngest.process_file env ingestor file_path metadata s = (Returned r, s')
     ∧ uniform_result r).
Proof.
  repeat split; intros.
  - eapply embedding_contract_uniform, generate_embedding_contract.
  - eapply embedding_contract_uniform, app_generate_embedding_contract.
  - apply knn_search_uniform.
  - apply bulk_index_with_embeddings_uniform.
  - rewrite process_file_run.
    destruct (DocIngest.create_index_if_not_exists env ingestor s) as [[v|e] s1];
      [|eexists _, _; split; [done | by eapply uniform_error]].
    destruct (DocIngest.read_text_file env file_path s1) as [[text|e] s2];
      [|eexists _, _; split; [done | by eapply uniform_error]].
    destruct (DocIngest.text_splitter ingestor text) as [chunks|e];
      [|eexists _, _; split; [done | by eapply uniform_error]].
    apply bulk_index_with_embeddings_uniform.
Qed.

(** X12.  A failure of a step of [process_file] aborts the whole document:
    when ensuring the index raises, the result is an error carrying the text
    of the exception and the file is not read; when the read or the
    splitter raises, likewise, and no request is issued after the read, so
    nothing is embedded or written. *)
Theorem process_file_aborts (self : DocIngest.DocumentIngestor) (file_path : string)
    (metadata : option (gmap string value)) (s : state W) :
  (∀ e s1, DocIngest.create_index_if_not_exists env self s = (Raised e, s1) →
     DocIngest.process_file env self file_path metadata s
     = (Returned (error_result (exn_str e)), s1)) ∧
  (∀ v s1 e s2,
     DocIngest.create_index_if_not_exists env self s = (Returned v, s1) →
     DocIngest.read_text_file env file_path s1 = (Raised e, s2) →
     DocIngest.process_file env self file_path metadata s
     = (Returned (error_result (exn_str e)), s2)
     ∧ issued s2 = issued s1 ++ [ReadFile file_path]) ∧
  (∀ v s1 text s2 e,
     DocIngest.create_index_if_not_exists env self s = (Returned v, s1) →
     DocIngest.read_text_file env file_path s1 = (Returned text, s2) →
     DocIngest.text_splitter self text = Raised e →
     DocIngest.process_file env self file_path metadata s
     = (Returned (error_result (exn_str e)), s2)
     ∧ issued s2 = issued s1 ++ [ReadFile file_path]).
Proof.
  assert (Hread : ∀ s1 o s2, DocIngest.read_text_file env file_path s1 = (o, s2) →
                    issued s2 = issued s1 ++ [ReadFile file_path]).
  { intros s1 o s2. unfold DocIngest.read_text_file, open_read.
    destruct (read_file env file_path (world s1)). by intros [= <- <-]. }
  repeat split.
  - intros e s1 H1. by rewrite process_file_run, H1.
  - rewrite process_file_run, H, H0. done.
  - eapply Hread; eassumption.
  - rewrite process_file_run, H, H0, H1. done.
  - eapply Hread; eassumption.
Qed.

(** X13.  A file that splits into no chunk at all is reported as an error,
    "No documents were processed successfully" with no failed entry, and
    nothing is requested after the read. *)
Theorem process_file_without_chunks (self : DocIngest.DocumentIngestor) (file_path : string)
    (metadata : option (gmap string value)) (s s1 s2 : state W) (v : value) (text : string) :
  DocIngest.create_index_if_not_exists env self s = (Returned v, s1) →
  DocIngest.read_text_file env file_path s1 = (Returned text, s2) →
  DocIngest.text_splitter self text = Returned [] →
  DocIngest.process_file env self file_path metadata s
  = (Returned (VDict {[ "status" := VStr "error";
                        "message" := VStr "No documents were processed successfully";
                        "failed_docs" := VList [] ]}), s2).
Proof.
  intros Hcreate Hread Hsplit. by rewrite process_file_run, Hcreate, Hread, Hsplit.
Qed.
End Totality.

(** ** The search tool beyond the threshold *)

Lemma reshaped_dict_score (hit r : value) :
  reshaped hit r → ∃ d v, r = VDict d ∧ d !! "score" = Some v.
Proof. intros (h & source & md & _ & _ & -> & _). by eexists _, _. Qed.

Lemma filter_results_filter (pool results : list value) (score : number) :
  App.filter_results pool score = Returned results →
  Forall (λ x, ∃ d v, x = VDict d ∧ d !! "score" = Some v) pool →
  results = List.filter (score_above score) pool.
Proof.
  revert results. induction pool as [|x pool IH]; intros results; cbn [App.filter_results].
  - by intros [= <-] _.
  - cbv beta iota delta [mbind outcome_bind].
    intros H Hpool. apply Forall_cons in Hpool as [(d & v & -> & Hv) Hpool].
    cbn [py_get] in H. rewrite Hv in H. cbn [default from_option id] in H.
    cbn [List.filter]. unfold score_above at 1. cbn [field]. rewrite Hv. cbn [mbind option_bind].
    unfold py_gt in H. destruct (as_number v) as [n|]; [|discriminate H].
    destruct (App.filter_results pool score) as [rest|] eqn:Hrest; [|discriminate H].
    injection H as <-. by rewrite (IH rest eq_refl Hpool).
Qed.

Lemma filter_results_raises (pool : list value) (score : number) :
  Forall (λ x, ∃ d v, x = VDict d ∧ d !! "score" = Some v) pool →
  (∃ x v, x ∈ pool ∧ field x "score" = Some v ∧ as_number v = None) →
  ∃ e, App.filter_results pool score = Raised e ∧ exn_kind e = TypeError.
Proof.
  induction pool as [|x pool IH]; intros Hpool (y & vy & Hin & Hy & Hnone).
  - by apply elem_of_nil in Hin.
  - apply Forall_cons in Hpool as [(d & v & -> & Hv) Hpool].
    cbn [App.filter_results]. cbv beta iota delta [mbind outcome_bind].
    cbn [py_get]. rewrite Hv. cbn [default from_option id]. unfold py_gt.
    destruct (as_number v) as [n|] eqn:Hn; [|by eexists].
    destruct IH as (e & -> & He); [done| |by eexists].
    apply elem_of_cons in Hin as [->|Hin]; [|by eauto].
    cbn [field] in Hy. congruence.
Qed.

Lemma number_gt_nan (x : number) :
  number_gt x (NFloat S754_nan) = false ∧ number_gt (NFloat S754_nan) x = false.
Proof. unfold number_gt. split; destruct x as [n|[]]; reflexivity. Qed.

Section SearchTool.
Context {W : Type} (env : Env W) (cfg : App.Config).

(** X14.  The filter drops nothing it should keep: on success the results
    are exactly the hits of the answer, reshaped, whose score is a number
    strictly greater than the threshold, in the order of the answer. *)
Theorem text_similarity_search_complete (text k : value) (score : number)
    (s s' : state W) (r : value) :
  App.text_similarity_search env cfg text k score s = (Returned r, s') → is_success r →
  ∃ vector w1 answer w2 hits pool,
    opensearch env (Search (json_dumps (App.knn_query vector k)) (App.opensearch_index cfg) k) w1
    = (Returned answer, w2) ∧
    hits_of answer = Returned hits ∧
    Forall2 reshaped hits pool ∧
    field r "results" = Some (VList (List.filter (score_above score) pool)).
Proof.
  intros Hrun Hok.
  destruct (text_similarity_search_success env cfg _ _ _ _ _ _ Hrun Hok)
    as (vector & w1 & answer & w2 & hits & pool & results & Hsearch & _ & Hhits & Hall
        & Hfilter & ->).
  exists vector, w1, answer, w2, hits, pool. repeat split; try done.
  rewrite (filter_results_filter _ _ _ Hfilter); [done|].
  clear -Hall. induction Hall; constructor; eauto using reshaped_dict_score.
Qed.

(** X15.  Not-a-number never passes the filter: on success no result has
    the score NaN, and when the threshold itself is NaN the results are
    empty and [total] is 0. *)
Theorem text_similarity_search_nan (text k : value) (score : number)
    (s s' : state W) (r : value) :
  App.text_similarity_search env cfg text k score s = (Returned r, s') → is_success r →
  ∃ results,
    field r "results" = Some (VList results) ∧
    Forall (λ x, field x "score" ≠ Some (VFloat S754_nan)) results ∧
    (score = NFloat S754_nan →
     results = [] ∧ field r "total" = Some (VInt 0)).
Proof.
  intros Hrun Hok.
  destruct (text_similarity_search_success env cfg _ _ _ _ _ _ Hrun Hok)
    as (vector & w1 & answer & w2 & hits & pool & results & _ & _ & _ & Hall & Hfilter & ->).
  assert (Hpool : Forall (λ x, ∃ d v, x = VDict d ∧ d !! "score" = Some v) pool).
  { clear -Hall. induction Hall; constructor; eauto using reshaped_dict_score. }
  rewrite (filter_results_filter _ _ _ Hfilter Hpool).
  eexists. split; [reflexivity|]. split.
  - apply Forall_forall. intros x Hx%list_elem_of_In%filter_In. destruct Hx as [_ Habove].
    intros Hnan. unfold score_above in Habove. rewrite Hnan in Habove.
    cbn [mbind option_bind as_number] in Habove.
    by rewrite (proj2 (number_gt_nan score)) in Habove.
  - intros ->.
    assert (Hnone : List.filter (score_above (NFloat S754_nan)) pool = []).
    { clear. induction pool as [|x pool IH]; [done|]. cbn [List.filter].
      unfold score_above at 1. destruct (field x "score" ≫= as_number) as [n|]; [|done].
      by rewrite (proj1 (number_gt_nan n)). }
    by rewrite Hnone.
Qed.

(** X16.  The search tool is not total: when the embedding and the k-NN
    search succeed and some result has a score that is not a number, as a
    hit with a null [_score] gives, the comparison with the threshold
    raises a [TypeError], which nothing catches. *)
Theorem text_similarity_search_raises_on_null_score (text k : value) (score : number)
    (s s1 s2 : state W) (vector kr : value) (pool : list value) :
  App.generate_embedding env cfg text None s = (Returned (embedding_success vector None), s1) →
  App.knn_search env cfg vector k s1 = (Returned kr, s2) →
  is_success kr →
  field kr "results" = Some (VList pool) →
  (∃ x v, x ∈ pool ∧ field x "score" = Some v ∧ as_number v = None) →
  ∃ e, App.text_similarity_search env cfg text k score s = (Raised e, s2)
       ∧ exn_kind e = TypeError.
Proof.
  intros Hgen Hknn Hok Hresults Hbad.
  destruct (knn_search_cases env cfg vector k s1) as (r0 & s0 & Hrun0 & Hcases).
  rewrite Hknn in Hrun0. injection Hrun0 as <- <-.
  destruct Hcases as [(ex & w1 & answer & w2 & hits & results & _ & _ & _ & _ & _
                       & Hall & ->)|[m ->]];
    [|by apply not_success_error in Hok].
  cbn [field] in Hresults.
  rewrite lookup_insert_ne, lookup_insert_eq in Hresults by done.
  injection Hresults as ->.
  assert (Hpool : Forall (λ x, ∃ d v, x = VDict d ∧ d !! "score" = Some v) pool).
  { clear -Hall. induction Hall; constructor; eauto using reshaped_dict_score. }
  destruct (filter_results_raises pool score Hpool Hbad) as (e & Hraise & He).
  exists e. split; [|done].
  unfold App.text_similarity_search. unfold_M. rewrite Hgen.
  unfold embedding_success. cbn [py_getitem]. rewrite lookup_insert_eq.
  cbn [py_eq_str String.eqb Ascii.eqb Bool.eqb].
  rewrite lookup_insert_ne, lookup_insert_eq by done.
  rewrite Hknn. cbn [py_getitem]. rewrite lookup_insert_eq.
  cbn [py_eq_str String.eqb Ascii.eqb Bool.eqb].
  rewrite lookup_insert_ne, lookup_insert_eq by done.
  cbv beta iota delta [mbind outcome_bind]. cbn [py_iter]. by rewrite Hraise.
Qed.
End SearchTool.

(** ** The tools when the embedding fails, and the indexing tool *)

Section Tools.
Context {W : Type} (env : Env W) (cfg : App.Config) (loads : string → outcome value).

(** X17.  Neither tool touches the store when the embedding fails.  With no
    token, both return the missing-credential error from an unchanged
    state; with a token, a failed attempt is returned as the embedding
    function reports it, and the embedding request is the only request
    issued. *)
Theorem tools_stop_at_embedding_failure (text k : value) (score : number)
    (document_id : option string) (metadata : string) (s : state W) :
  match Embedding.truthy_str (Some (App.embedding_api_token cfg)) with
  | None =>
      let missing := error_result "API token not configured for embedding service" in
      App.text_similarity_search env cfg text k score s = (Returned missing, s) ∧
      App.index_text_with_embedding env cfg loads text document_id metadata s
      = (Returned missing, s)
  | Some tok =>
      let request := embedding_request tok text None in
      ∀ o w e,
        requests_post env request (world s) = (o, w) →
        o ≫= response_embedding = Raised e →
        let asked := State w (issued s ++ [HTTP request]) in
        App.text_similarity_search env cfg text k score s
        = (Returned (embedding_failure e), asked) ∧
        App.index_text_with_embedding env cfg loads text document_id metadata s
        = (Returned (embedding_failure e), asked)
  end.
Proof.
  pose proof (app_generate_embedding_contract env cfg text None s) as Hgen.
  destruct (Embedding.truthy_str (Some (App.embedding_api_token cfg))) as [tok|].
  - cbv zeta in *. intros o w e Hpost Hraise.
    unfold App.text_similarity_search, App.index_text_with_embedding. unfold_M.
    rewrite (Hgen _ _ Hpost), Hraise. cbn [embedding_outcome].
    unfold embedding_failure, error_result. cbn [py_getitem]. rewrite lookup_insert_eq.
    by cbn [py_eq_str String.eqb Ascii.eqb Bool.eqb].
  - cbv zeta. unfold App.text_similarity_search, App.index_text_with_embedding. unfold_M.
    rewrite Hgen. unfold error_result. cbn [py_getitem]. rewrite lookup_insert_eq.
    by cbn [py_eq_str String.eqb Ascii.eqb Bool.eqb].
Qed.

(** What the indexing tool does once the embedding has succeeded. *)
Lemma index_text_after_embedding text document_id metadata s embedding s1 :
  App.generate_embedding env cfg text None s
  = (Returned (embedding_success embedding None), s1) →
  App.index_text_with_embedding env cfg loads text document_id metadata s =
    match (if negb (String.eqb metadata "{}") then loads metadata else Returned (VDict ∅)) with
    | Raised e =>
        if App.is_json_decode_error e
        then (Returned (error_result "Invalid metadata JSON format"), s1)
        else (Raised e, s1)
    | Returned metadata_dict =>
        match (document ← py_copy metadata_dict;
               document ← py_setitem document "text" text;
               py_setitem document App.VECTOR_FIELD embedding) with
        | Raised e => (Raised e, s1)
        | Returned document =>
            match Embedding.truthy_str document_id with
            | Some document_id =>
                AosClient.write_document env (App.aos_client cfg) document_id document s1
            | None => AosClient.index_document env (App.aos_client cfg) document s1
            end
        end
    end.
Proof.
  intros Hgen. unfold App.index_text_with_embedding. unfold_M. rewrite Hgen.
  unfold embedding_success. cbn [py_getitem]. rewrite lookup_insert_eq.
  cbn [py_eq_str String.eqb Ascii.eqb Bool.eqb].
  rewrite lookup_insert_ne, lookup_insert_eq by done.
  cbv beta iota delta [mbind outcome_bind].
  destruct (metadata =? "{}")%string; cbn [negb].
  - cbn [py_copy py_setitem].
    by destruct (Embedding.truthy_str document_id).
  - destruct (loads metadata) as [metadata_dict|e];
      [|by destruct (App.is_json_decode_error e)].
    destruct (py_copy metadata_dict) as [copy|e]; [|done].
    destruct (py_setitem copy "text" text) as [document|e]; [|done].
    destruct (py_setitem document App.VECTOR_FIELD embedding) as [document'|e]; [|done].
    by destruct (Embedding.truthy_str document_id).
Qed.

(** X18.  A metadata text that is not JSON is found out only after the
    embedding request: the tool returns the error "Invalid metadata JSON
    format" in the state the embedding left, so the request has been made
    and nothing is written. *)
Theorem index_text_invalid_metadata (text : value) (document_id : option string)
    (metadata : string) (s s1 : state W) (embedding : value) (e : exn) :
  App.generate_embedding env cfg text None s
  = (Returned (embedding_success embedding None), s1) →
  metadata ≠ "{}" →
  loads metadata = Raised e →
  App.is_json_decode_error e = true →
  App.index_text_with_embedding env cfg loads text document_id metadata s
  = (Returned (error_result "Invalid metadata JSON format"), s1).
Proof.
  intros Hgen Hmeta Hloads He.
  rewrite (index_text_after_embedding _ _ _ _ _ _ Hgen).
  apply String.eqb_neq in Hmeta. rewrite Hmeta. cbn [negb]. by rewrite Hloads, He.
Qed.

(** X19.  With metadata that is a JSON object (or the text "{}", which is
    not parsed), the tool writes the metadata fields with the text stored
    under [text] and the vector under [dense_vector], over fields of these
    names: through [write_document] under the id when one is given, and
    through [index_document], for a generated id, when the id is [None] or
    empty. *)
Theorem index_text_document (text : value) (document_id : option string)
    (metadata : string) (fields : gmap string value) (s s1 : state W) (embedding : value) :
  App.generate_embedding env cfg text None s
  = (Returned (embedding_success embedding None), s1) →
  (metadata = "{}" ∧ fields = ∅) ∨ (metadata ≠ "{}" ∧ loads metadata = Returned (VDict fields)) →
  App.index_text_with_embedding env cfg loads text document_id metadata s =
    match Embedding.truthy_str document_id with
    | Some id =>
        AosClient.write_document env (App.aos_client cfg) id
          (indexed_document fields text embedding) s1
    | None =>
        AosClient.index_document env (App.aos_client cfg)
          (indexed_document fields text embedding) s1
    end.
Proof.
  intros Hgen Hmeta. rewrite (index_text_after_embedding _ _ _ _ _ _ Hgen).
  destruct Hmeta as [[-> ->]|[Hmeta Hloads]].
  - reflexivity.
  - apply String.eqb_neq in Hmeta. rewrite Hmeta. cbn [negb]. by rewrite Hloads.
Qed.

(** X20.  Metadata that is JSON but not an object is not reported as an
    error result: the tool raises, after the embedding request, a
    [TypeError] for an array and an [AttributeError] for a number, a
    string, a boolean or null; nothing is written. *)
Theorem index_text_metadata_not_an_object (text : value) (document_id : option string)
    (metadata : string) (parsed : value) (s s1 : state W) (embedding : value) :
  App.generate_embedding env cfg text None s
  = (Returned (embedding_success embedding None), s1) →
  metadata ≠ "{}" →
  loads metadata = Returned parsed →
  (∀ fields, parsed ≠ VDict fields) →
  ∃ e, App.index_text_with_embedding env cfg loads text document_id metadata s = (Raised e, s1)
       ∧ exn_kind e = match parsed with VList _ => TypeError | _ => AttributeError end.
Proof.
  intros Hgen Hmeta Hloads Hparsed.
  rewrite (index_text_after_embedding _ _ _ _ _ _ Hgen).
  apply String.eqb_neq in Hmeta. rewrite Hmeta. cbn [negb]. rewrite Hloads.
  destruct parsed; try (by eexists). by destruct (Hparsed d).
Qed.
End Tools.

(** ** The authorizer *)

Lemma starts_with_app (p s : string) :
  starts_with p s = true ↔ ∃ r, s = p +:+ r.
Proof.
  revert s. induction p as [|a p IH]; intros s; cbn [starts_with].
  - split; [by exists s | done].
  - destruct s as [|b s].
    + split; [done | by intros [r [=]]].
    + rewrite andb_true_iff, IH. split.
      * intros [->%Ascii.eqb_eq [r ->]]. by exists r.
      * intros [r [= -> ->]]. split; [apply Ascii.eqb_refl | by exists r].
Qed.

Lemma drop_chars_app (p r : string) :
  drop_chars (String.length p) (p +:+ r) = r.
Proof. induction p as [|a p IH]; [by destruct r | exact IH]. Qed.

(** X21.  The authorizer allows exactly the callers that present the
    expected token: with the token of the event a string and the method ARN
    present, the policy is a single statement on that ARN, and its effect is
    "Allow" if and only if a token is configured and the header is "Bearer "
    followed by it, or is the token itself when that does not start with
    "Bearer "; the prefix is removed once.  Otherwise the effect is "Deny". *)
Theorem lambda_handler_allows (expected_token : option string) (event : gmap string value)
    (header : string) (resource : value) :
  default (VStr "") (event !! "authorizationToken") = VStr header →
  event !! "methodArn" = Some resource →
  ∃ effect,
    Authorizer.lambda_handler expected_token (VDict event) = Returned (policy effect resource) ∧
    (effect = "Allow" ∨ effect = "Deny") ∧
    (effect = "Allow" ↔
     ∃ tok, expected_token = Some tok ∧
            (header = "Bearer " +:+ tok ∨ (header = tok ∧ starts_with "Bearer " tok = false))).
Proof.
  intros Hheader Hresource. unfold Authorizer.lambda_handler.
  cbv beta iota delta [mbind outcome_bind]. cbn [py_get]. rewrite Hheader.
  cbn [py_startswith py_getitem]. rewrite Hresource.
  destruct (starts_with "Bearer " header) eqn:Hprefix.
  - apply starts_with_app in Hprefix as [rest ->].
    cbn [py_slice_from].
    rewrite (drop_chars_app "Bearer " rest : drop_chars 7 ("Bearer " +:+ rest) = rest).
    destruct expected_token as [tok|]; cbn [py_eq_opt_str py_eq_str].
    + destruct (String.eqb rest tok) eqn:Heq.
      * apply String.eqb_eq in Heq as ->. exists "Allow". split; [done|]. split; [by left|].
        split; [|done]. intros _. exists tok. split; [done|]. by left.
      * apply String.eqb_neq in Heq. exists "Deny". split; [done|]. split; [by right|].
        split; [done|]. intros (tok' & [= <-] & [Hbearer|[<- Hfalse]]).
        -- injection Hbearer as Hrest. destruct (Heq Hrest).
        -- assert (Htrue : starts_with "Bearer " ("Bearer " +:+ rest) = true)
             by (apply starts_with_app; by exists rest).
           congruence.
    + exists "Deny". split; [done|]. split; [by right|]. split; [done|].
      by intros (tok & [=] & _).
  - destruct expected_token as [tok|]; cbn [py_eq_opt_str py_eq_str].
    + destruct (String.eqb header tok) eqn:Heq.
      * apply String.eqb_eq in Heq as ->. exists "Allow". split; [done|]. split; [by left|].
        split; [|done]. intros _. exists tok. split; [done|]. by right.
      * apply String.eqb_neq in Heq. exists "Deny". split; [done|]. split; [by right|].
        split; [done|]. intros (tok' & [= <-] & [->|[-> _]]); [|done].
        assert (Htrue : starts_with "Bearer " ("Bearer " +:+ tok) = true)
          by (apply starts_with_app; by exists tok).
        congruence.
    + exists "Deny". split; [done|]. split; [by right|]. split; [done|].
      by intros (tok & [=] & _).
Qed.

(** X22.  The authorizer with no usable token.  When the expected token is
    not set, every caller is denied, whatever string it presents.  When it
    is set to the empty string, a caller that presents no token at all, an
    empty one, or the bare prefix "Bearer " is allowed. *)
Theorem lambda_handler_without_token (event : gmap string value) (resource : value) :
  event !! "methodArn" = Some resource →
  (∀ header, default (VStr "") (event !! "authorizationToken") = VStr header →
     Authorizer.lambda_handler None (VDict event) = Returned (policy "Deny" resource)) ∧
  (event !! "authorizationToken" = None
   ∨ event !! "authorizationToken" = Some (VStr "")
   ∨ event !! "authorizationToken" = Some (VStr "Bearer ") →
   Authorizer.lambda_handler (Some "") (VDict event) = Returned (policy "Allow" resource)).
Proof.
  intros Hresource. split.
  - intros header Hheader. unfold Authorizer.lambda_handler.
    cbv beta iota delta [mbind outcome_bind]. cbn [py_get]. rewrite Hheader.
    cbn [py_startswith py_getitem]. rewrite Hresource.
    by destruct (starts_with "Bearer " header).
  - intros Hheader. unfold Authorizer.lambda_handler.
    cbv beta iota delta [mbind outcome_bind]. cbn [py_get py_getitem]. rewrite Hresource.
    by destruct Hheader as [->|[->| ->]].
Qed.

(** X23.  The authorizer answers some events with an exception instead of a
    policy: a token that is present and is not a string (a JSON null, a
    number, a list) raises an [AttributeError], whether or not the method
    ARN is there, and an event with a string token and no [methodArn] raises
    [KeyError], whether or not the token matches. *)
Theorem lambda_handler_raises (expected_token : option string) (event : gmap string value) :
  (∀ token, event !! "authorizationToken" = Some token → (∀ s, token ≠ VStr s) →
     Authorizer.lambda_handler expected_token (VDict event)
     = Raised (Exn AttributeError
                 ("'" +:+ type_name token +:+ "' object has no attribute 'startswith'"))) ∧
  (∀ header, default (VStr "") (event !! "authorizationToken") = VStr header →
     event !! "methodArn" = None →
     Authorizer.lambda_handler expected_token (VDict event)
     = Raised (Exn KeyError "'methodArn'")).
Proof.
  split.
  - intros token Htoken Hnot. unfold Authorizer.lambda_handler.
    cbv beta iota delta [mbind outcome_bind]. cbn [py_get]. rewrite Htoken.
    cbn [default from_option id].
    destruct token; try reflexivity. by destruct (Hnot s).
  - intros header Hheader Hresource. unfold Authorizer.lambda_handler.
    cbv beta iota delta [mbind outcome_bind]. cbn [py_get]. rewrite Hheader.
    cbn [py_startswith py_getitem]. rewrite Hresource.
    destruct (starts_with "Bearer " header); reflexivity.
Qed.

(** ** The MCP client of the agent tool *)

Section McpClient.
Context {W : Type} (post : http_request → W → outcome SimilaritySearch.response * W).
Context (repr : value → string).

Import SimilaritySearch.

Ltac unfold_client :=
  cbv beta iota delta [bind try_except ret raise lift negb MCPClient.requests_post];
  cbn [world issued fst snd].

Lemma built_init (endpoint auth_token : value) :
  built repr (MCPClient.init repr endpoint auth_token)
    (py_str repr endpoint) (py_str repr auth_token).
Proof. by split. Qed.

Lemma built_after (self : MCPClient.t) url token o :
  built repr self url token → built repr (client_after self o) url token.
Proof.
  intros Hself. destruct o as [answer|e]; [|done]. cbn [client_after].
  by destruct (headers answer !! "mcp-session-id").
Qed.

(** One request of the client: exactly one HTTP request is made, under the
    token and the session id the client holds; nothing is raised. *)
Lemma make_request_run (self : MCPClient.t) (url token method : string) (params : value)
    (s : state W) o w :
  py_truthy params = true →
  built repr self url token →
  post (mcp_request url token (Embedding.truthy_str (MCPClient.session_id self)) method params)
    (world s) = (o, w) →
  MCPClient.make_request post repr self method params 1 s
  = (Returned (seen_status o, seen_data o, client_after self o),
     State w (issued s ++ [HTTP (mcp_request url token
                                   (Embedding.truthy_str (MCPClient.session_id self))
                                   method params)])).
Proof.
  intros Hparams [Hurl Hheaders] Hpost.
  unfold MCPClient.make_request, mcp_request in *. unfold_client.
  rewrite Hparams, Hurl, Hheaders.
  destruct (Embedding.truthy_str (MCPClient.session_id self)) as [sid|];
    rewrite Hpost; unfold seen_data, seen_status, MCPClient.failed;
    (destruct o as [answer|e]; [|reflexivity]);
    cbn [mbind outcome_bind client_after];
    destruct (headers answer !! "mcp-session-id"); destruct (json answer);
    by rewrite ?Hheaders.
Qed.


Lemma has_result_without (o : outcome response) :
  without_result o →
  MCPClient.has_result (seen_status o) (seen_data o) = Returned false.
Proof.
  unfold MCPClient.has_result, seen_status, seen_data, without_result.
  destruct o as [answer|e]; [|done]. cbn [mbind outcome_bind].
  destruct (json answer) as [data|e]; [|done].
  unfold py_eq_int. cbn [as_number number_compare].
  destruct (Z.compare_spec (status_code answer) 200) as [Heq|Hlt|Hgt]; try done.
  by intros [Hne|Hno].
Qed.

(** [initialize]: one request, with no session id when the client has none;
    it raises only when the data under status 200 is not a container. *)
Lemma initialize_run (self : MCPClient.t) (url token : string) (s : state W) o w :
  built repr self url token →
  post (mcp_request url token (Embedding.truthy_str (MCPClient.session_id self))
          "initialize" initialize_params) (world s) = (o, w) →
  MCPClient.initialize post repr self s
  = (ok ← MCPClient.has_result (seen_status o) (seen_data o);
     Returned (ok, client_after self o),
     State w (issued s ++ [HTTP (mcp_request url token
                                   (Embedding.truthy_str (MCPClient.session_id self))
                                   "initialize" initialize_params)])).
Proof.
  intros Hself Hpost. unfold MCPClient.initialize. unfold bind at 1.
  fold initialize_params.
  rewrite (make_request_run self url token "initialize" initialize_params s o w);
    [|done..].
  unfold_client. by destruct (MCPClient.has_result _ _).
Qed.

(** [similarity_search] of the client: one request, under the session id
    the client holds. *)
Lemma client_search_issues (self : MCPClient.t) (url token : string) (text k score : value)
    (s : state W) o w :
  built repr self url token →
  post (mcp_request url token (Embedding.truthy_str (MCPClient.session_id self))
          "tools/call" (search_params text k score)) (world s) = (o, w) →
  (MCPClient.similarity_search post repr self text k score s).2
  = State w (issued s ++ [HTTP (mcp_request url token
                                  (Embedding.truthy_str (MCPClient.session_id self))
                                  "tools/call" (search_params text k score))]).
Proof.
  intros Hself Hpost. unfold MCPClient.similarity_search. unfold bind at 1.
  fold (search_params text k score).
  rewrite (make_request_run self url token "tools/call" (search_params text k score) s o w);
    [|done..].
  unfold_client.
  destruct (MCPClient.has_result _ _) as [[]|]; [|done..].
  destruct (_ ≫= _) as [content|]; [|done].
  destruct (py_truthy content); [|done]. unfold_client.
  by destruct (py_getitem0 content).
Qed.


End McpClient.

(** ** The agent tool *)

Section AgentTool.
Context {W : Type} (post : http_request → W → outcome SimilaritySearch.response * W).
Context (repr : value → string).
Context (tool input : gmap string value) (tool_use_id text endpoint auth_token : value).

Import SimilaritySearch.

Ltac unfold_tool :=
  cbv beta iota delta [bind try_except ret raise lift negb];
  cbn [world issued fst snd].


(** The tool up to the answer to [initialize]. *)
Lemma tool_initialize (s : state W) o w1 :
  tool !! "toolUseId" = Some tool_use_id →
  tool !! "input" = Some (VDict input) →
  input !! "text" = Some text →
  input !! "api_endpoint" = Some endpoint →
  input !! "auth_token" = Some auth_token →
  post (initialize_request repr endpoint auth_token) (world s) = (o, w1) →
  similarity_search post repr (VDict tool) s
  = match MCPClient.has_result (seen_status o) (seen_data o) with
    | Raised e =>
        (Returned (tool_error tool_use_id ("Error during similarity search: " +:+ exn_str e)),
         State w1 (issued s ++ [HTTP (initialize_request repr endpoint auth_token)]))
    | Returned false =>
        (Returned (tool_error tool_use_id "Failed to initialize MCP session"),
         State w1 (issued s ++ [HTTP (initialize_request repr endpoint auth_token)]))
    | Returned true =>
        match MCPClient.similarity_search post repr
                (client_after (MCPClient.init repr endpoint auth_token) o) text
                (default (VInt 5) (input !! "k"))
                (default (VFloat (S754_zero false)) (input !! "score"))
                (State w1 (issued s ++ [HTTP (initialize_request repr endpoint auth_token)])) with
        | (Returned results, s2) => (Returned (tool_success tool_use_id results.1), s2)
        | (Raised e, s2) =>
            (Returned (tool_error tool_use_id
                         ("Error during similarity search: " +:+ exn_str e)), s2)
        end
    end.
Proof.
  intros Hid Hinput Htext Hendpoint Htoken Hpost.
  unfold similarity_search. unfold_tool. cbn [py_getitem].
  rewrite Hid, Hinput. unfold_tool. cbn [py_getitem py_get].
  rewrite Htext, Hendpoint, Htoken. unfold_tool.
  rewrite (initialize_run post repr (MCPClient.init repr endpoint auth_token) _ _ s o w1
             (built_init repr endpoint auth_token) Hpost).
  destruct (MCPClient.has_result (seen_status o) (seen_data o)) as [[]|e];
    cbn [mbind outcome_bind fst snd]; try reflexivity.
  by destruct (MCPClient.similarity_search _ _ _ _ _ _ _) as [[results|e] s2].
Qed.

(** X24.  When the answer to [initialize] carries no result (the request
    raised, timed out, was answered with a status other than 200, with a
    body that is not JSON, or with data that has no [result]), the tool
    returns the error "Failed to initialize MCP session" and has made that
    one request only: no search is sent. *)
Theorem similarity_search_failed_initialize (s : state W) o w1 :
  tool !! "toolUseId" = Some tool_use_id →
  tool !! "input" = Some (VDict input) →
  input !! "text" = Some text →
  input !! "api_endpoint" = Some endpoint →
  input !! "auth_token" = Some auth_token →
  post (initialize_request repr endpoint auth_token) (world s) = (o, w1) →
  without_result o →
  similarity_search post repr (VDict tool) s
  = (Returned (tool_error tool_use_id "Failed to initialize MCP session"),
     State w1 (issued s ++ [HTTP (initialize_request repr endpoint auth_token)])).
Proof.
  intros Hid Hinput Htext Hendpoint Htoken Hpost Hwithout.
  rewrite (tool_initialize s o w1) by done.
  by rewrite (has_result_without o Hwithout).
Qed.



End AgentTool.

Section AgentToolTotal.
Context {W : Type} (post : http_request → W → outcome SimilaritySearch.response * W).
Context (repr : value → string).

Import SimilaritySearch.

(** X28.  Once a tool use has its id and its input, the tool raises
    nothing, whatever the input holds and however the endpoint behaves: it
    returns a dictionary with the id of the tool use, with status "success"
    or as an error with one text, having made at most two requests.  A tool
    use without [toolUseId] or without [input] raises a [KeyError], before
    any request. *)
Theorem similarity_search_total (tool : gmap string value) (s : state W) :
  (∀ tool_use_id tool_input,
     tool !! "toolUseId" = Some tool_use_id → tool !! "input" = Some tool_input →
     ∃ r s' requests,
       similarity_search post repr (VDict tool) s = (Returned r, s') ∧
       field r "toolUseId" = Some tool_use_id ∧
       (field r "status" = Some (VStr "success") ∨ ∃ text, r = tool_error tool_use_id text) ∧
       issued s' = issued s ++ requests ∧ (length requests ≤ 2)%nat) ∧
  (tool !! "toolUseId" = None ∨ tool !! "input" = None →
   ∃ e, similarity_search post repr (VDict tool) s = (Raised e, s) ∧ exn_kind e = KeyError).
Proof.
  split.
  - intros tool_use_id tool_input Hid Hinput.
    assert (Herror : ∀ text s' requests,
              similarity_search post repr (VDict tool) s
              = (Returned (tool_error tool_use_id text), s') →
              issued s' = issued s ++ requests → (length requests ≤ 2)%nat →
              ∃ r s' requests,
                similarity_search post repr (VDict tool) s = (Returned r, s') ∧
                field r "toolUseId" = Some tool_use_id ∧
                (field r "status" = Some (VStr "success")
                 ∨ ∃ text, r = tool_error tool_use_id text) ∧
                issued s' = issued s ++ requests ∧ (length requests ≤ 2)%nat).
    { intros text s' requests Hrun Hissued Hlength.
      exists (tool_error tool_use_id text), s', requests.
      split; [exact Hrun|]. split; [done|]. split; [right; by eexists | done]. }
    assert (Hearly : ∀ e,
              (query_text ← py_getitem tool_input "text";
               api_endpoint ← py_getitem tool_input "api_endpoint";
               py_getitem tool_input "auth_token") = Raised e →
              similarity_search post repr (VDict tool) s
              = (Returned (tool_error tool_use_id
                             ("Error during similarity search: " +:+ exn_str e)), s)).
    { intros e. unfold similarity_search.
      cbv beta iota delta [bind try_except ret raise lift negb]. cbn [py_getitem].
      rewrite Hid, Hinput. cbv beta iota delta [mbind outcome_bind].
      destruct tool_input as [|b|n|f|str|l|input]; cbn [py_get py_getitem];
        try (by intros [= <-]).
      destruct (input !! "text") as [query_text|]; [|by intros [= <-]].
      destruct (input !! "api_endpoint") as [api_endpoint|]; [|by intros [= <-]].
      destruct (input !! "auth_token") as [auth_token|]; [done | by intros [= <-]]. }
    destruct (query_text ← py_getitem tool_input "text";
              api_endpoint ← py_getitem tool_input "api_endpoint";
              py_getitem tool_input "auth_token") as [auth_token|e] eqn:Hfields.
    2:{ eapply (Herror _ s []); [exact (Hearly e eq_refl) | by rewrite app_nil_r | cbn; lia]. }
    clear Hearly. cbv beta iota delta [mbind outcome_bind] in Hfields.
    destruct tool_input as [|b|n|f|str|l|input]; try discriminate. cbn [py_getitem] in Hfields.
    destruct (input !! "text") as [text|] eqn:Htext; [|discriminate].
    destruct (input !! "api_endpoint") as [endpoint|] eqn:Hendpoint; [|discriminate].
    destruct (input !! "auth_token") as [token|] eqn:Htoken; [|discriminate].
    clear Hfields auth_token.
    destruct (post (initialize_request repr endpoint token) (world s)) as [o w1] eqn:Hpost.
    pose proof (tool_initialize post repr tool input tool_use_id text endpoint token s o w1
                  Hid Hinput Htext Hendpoint Htoken Hpost) as Hrun.
    destruct (MCPClient.has_result (seen_status o) (seen_data o)) as [[]|e].
    + set (client := client_after _ _) in Hrun.
      assert (Hclient : built repr client (py_str repr endpoint) (py_str repr token))
        by apply built_after, built_init.
      destruct (post (mcp_request (py_str repr endpoint) (py_str repr token)
                        (Embedding.truthy_str (MCPClient.session_id client)) "tools/call"
                        (search_params text (default (VInt 5) (input !! "k"))
                           (default (VFloat (S754_zero false)) (input !! "score")))) w1)
        as [o2 w2] eqn:Hsecond.
      pose proof (client_search_issues post repr client _ _ text _ _
                    (State w1 (issued s ++ [HTTP (initialize_request repr endpoint token)]))
                    o2 w2 Hclient Hsecond) as Hissued.
      destruct (MCPClient.similarity_search _ _ _ _ _ _ _) as [[results|e] s2];
        cbn [snd] in Hissued; subst s2.
      * eexists _, _, [_; _]. split; [exact Hrun|]. split; [done|]. split; [by left|].
        split; [cbn [issued]; by rewrite <- app_assoc | cbn; lia].
      * eapply (Herror _ _ [_; _]);
          [exact Hrun | cbn [issued]; by rewrite <- app_assoc | cbn; lia].
    + eapply (Herror _ _ [_]); [exact Hrun | reflexivity | cbn; lia].
    + eapply (Herror _ _ [_]); [exact Hrun | reflexivity | cbn; lia].
  - intros Hmissing. unfold similarity_search.
    cbv beta iota delta [bind try_except ret raise lift negb]. cbn [py_getitem].
    destruct (tool !! "toolUseId") as [tool_use_id|]; [|by eexists].
    destruct Hmissing as [?| ->]; [done | by eexists].
Qed.
End AgentToolTotal.

(** ** The further properties on concrete inputs *)

(** A search on a store without the index: one request, the existence
    test. *)
Lemma search_documents_without_index_witness :
  let self := {| AosClient.index_name := "kb" |} in
  let s := Script.start [Returned (VBool false); Returned Scenario.search_answer] [] [] in
  AosClient.search_documents Script.env self (json_dumps (VDict ∅)) (VInt 10) s
  = (Returned (VDict {[ "status" := VStr "error";
                        "message" := VStr ("Index " +:+ "kb" +:+ " does not exist");
                        "results" := VList [] ]}),
     State (world (Script.start [Returned Scenario.search_answer] [] []))
       (issued s ++ [OS (IndicesExists "kb")])).
Proof.
  intros self s.
  apply (search_documents_without_index Script.env self (json_dumps (VDict ∅)) (VInt 10) s
           (Returned (VBool false))
           (world (Script.start [Returned Scenario.search_answer] [] []))).
  - reflexivity.
  - intros ex [= <-]. reflexivity.
Defined.

(** A first write into a missing index: test, create without a mapping,
    write. *)
Lemma write_document_creates_before_writing_witness :
  let self := {| AosClient.index_name := "kb" |} in
  let document := VDict (Scenario.chunk "alpha") in
  let s := Script.start [Returned (VBool false); Returned (Store.acknowledged "kb");
                         Returned (Store.written "kb" "a" true)] [] [] in
  AosClient.write_document Script.env self "a" document s
  = (Returned (write_success (Store.written "kb" "a" true)),
     State (world (Script.start [] [] []))
       (issued s ++ [OS (IndicesExists "kb"); OS (IndicesCreate "kb" None);
                     OS (Index "kb" (Some "a") document true)])).
Proof.
  intros self document s.
  pose proof (write_document_creates_before_writing Script.env self "a" document s
                (VBool false) _ eq_refl (Some "a") _ (or_introl (conj eq_refl eq_refl)))
    as Hrun.
  exact (proj2 Hrun (Store.acknowledged "kb") _ (Returned (Store.written "kb" "a" true)) _
           eq_refl eq_refl).
Defined.

(** A delete on a store without the index. *)
Lemma delete_document_without_index_witness :
  let self := {| AosClient.index_name := "kb" |} in
  let s := Script.start [Returned (VBool false)] [] [] in
  AosClient.delete_document Script.env self "a" s
  = (Returned (error_result ("Index " +:+ "kb" +:+ " does not exist")),
     State (world (Script.start [] [] [])) (issued s ++ [OS (IndicesExists "kb")])).
Proof.
  intros self s.
  apply (delete_document_without_index Script.env self "a" s (VBool false)
           (world (Script.start [] [] []))); reflexivity.
Defined.

(** On an empty store: after a write, the index exists without the k-NN
    mapping, and ensuring the index creates nothing. *)
Lemma write_document_preempts_mapping_witness :
  let self := {| AosClient.index_name := "kb" |} in
  let document := VDict (Scenario.chunk "alpha") in
  let s := State ((∅ : gmap string Store.index), world (Script.start [] [] [])) [] in
  ∃ r s1 s2,
    AosClient.write_document (Store.env Script.env) self "a" document s = (Returned r, s1) ∧
    DocIngest.create_index_if_not_exists (Store.env Script.env) (Scenario.ingestor []) s1
    = (Returned VNone, s2) ∧
    issued s2 = issued s1 ++ [OS (IndicesExists "kb")] ∧
    (world s2).1 !! "kb" = Some (Store.MkIndex None {[ "a" := document ]}).
Proof.
  intros self document s.
  apply (write_document_preempts_mapping Script.env self (Scenario.ingestor []) "a" document
           ∅ (world (Script.start [] [] [])) []); reflexivity.
Defined.

(** Three documents, the second without a text: two embedding requests, in
    order, then the bulk request. *)
Lemma bulk_index_with_embeddings_requests_witness :
  let s := Script.start [Returned Scenario.bulk_answer]
             [Script.ok_json Scenario.embedding_body; Script.ok_json Scenario.embedding_body]
             [] in
  let docs := [Scenario.chunk "one"; {[ "title" := VStr "two" ]}; Scenario.chunk "three"] in
  ∃ processed,
    issued (Embedding.bulk_index_with_embeddings Script.env Scenario.tools docs "text" s).2
    = [HTTP (embedding_request "sk-test" (VStr "one") None);
       HTTP (embedding_request "sk-test" (VStr "three") None);
       OS (Bulk (Embedding.bulk_data Scenario.tools processed) true)] ∧
    length processed = 2%nat.
Proof.
  intros s docs.
  destruct (bulk_index_with_embeddings_requests Script.env Scenario.tools "sk-test" docs
              "text" s eq_refl) as (processed & failed & s1 & Hrun & Hembed & Hissued).
  exists processed. rewrite Hissued, Hembed.
  vm_compute in Hrun. injection Hrun as <- <- <-.
  split; reflexivity.
Defined.

(** Without a token nothing is requested and every document fails. *)
Lemma bulk_index_with_embeddings_without_token_witness :
  let s := Script.start [Returned Scenario.bulk_answer]
             [Script.ok_json Scenario.embedding_body] [] in
  let docs := [Scenario.chunk "one"; {[ "title" := VStr "two" ]}] in
  Embedding.bulk_index_with_embeddings Script.env Scenario.tools_without_token docs "text" s
  = (Returned (VDict {[ "status" := VStr "error";
                        "message" := VStr "No documents were processed successfully";
                        "failed_docs" := VList (failed_without_token "text" <$> docs) ]}), s).
Proof.
  intros s docs.
  apply (bulk_index_with_embeddings_without_token Script.env Scenario.tools_without_token
           docs "text" s).
  reflexivity.
Defined.

(** An answer whose [data] is empty is an error of both functions. *)
Lemma generate_embedding_malformed_answer_witness :
  let s := Script.start [] [Script.ok_json Scenario.body_with_empty_data] [] in
  let result := error_result "Unexpected error: list index out of range" in
  let asked := State (world (Script.start [] [] []))
                 (issued s ++ [HTTP (embedding_request "sk-test" (VStr "alpha") None)]) in
  Embedding.generate_embedding Script.env Scenario.tools (VStr "alpha") None s
  = (Returned result, asked) ∧
  App.generate_embedding Script.env Scenario.cfg (VStr "alpha") None s = (Returned result, asked).
Proof.
  intros s result asked.
  apply (generate_embedding_malformed_answer Script.env Scenario.tools Scenario.cfg "sk-test"
           (VStr "alpha") None s
           (HttpResponse 200 "OK" "https://api.siliconflow.cn/v1/embeddings"
              (Returned Scenario.body_with_empty_data))
           (world (Script.start [] [] [])) Scenario.body_with_empty_data);
    try reflexivity.
  - intros d [= <-]. reflexivity.
  - left. eexists. reflexivity.
Defined.

(** An empty file: no chunk, an error, nothing requested after the read. *)
Lemma process_file_without_chunks_witness :
  let self := Scenario.ingestor [] in
  let s := Script.start [Returned (VBool true)] [] [Returned ""] in
  let s1 := (DocIngest.create_index_if_not_exists Script.env self s).2 in
  let s2 := (DocIngest.read_text_file Script.env "/data/empty.txt" s1).2 in
  DocIngest.process_file Script.env self "/data/empty.txt" None s
  = (Returned (VDict {[ "status" := VStr "error";
                        "message" := VStr "No documents were processed successfully";
                        "failed_docs" := VList [] ]}), s2) ∧
  issued s2 = [OS (IndicesExists "kb"); ReadFile "/data/empty.txt"].
Proof.
  intros self s s1 s2. split; [|reflexivity].
  apply (process_file_without_chunks Script.env self "/data/empty.txt" None s s1 s2 VNone "").
  - vm_compute; reflexivity.
  - vm_compute; reflexivity.
  - reflexivity.
Defined.

(** Threshold 0.5 over hits scored 0.75 and 0.25: the results are the
    filter of the reshaped hits. *)
Lemma text_similarity_search_complete_witness :
  let s := Script.start [Returned (VBool true); Returned Scenario.search_answer]
                        [Script.ok_json Scenario.embedding_body] [] in
  let k := VInt 10 in
  let score := NFloat Scenario.half in
  let r := VDict {[ "status" := VStr "success";
                    "query_text" := VStr "alpha";
                    "results" := VList [Scenario.result_a];
                    "total" := VInt 1;
                    "score_threshold" := VFloat Scenario.half;
                    "original_total" := VInt 2 ]} in
  ∃ vector w1 answer w2 hits pool,
    opensearch Script.env
      (Search (json_dumps (App.knn_query vector k)) (App.opensearch_index Scenario.cfg) k) w1
    = (Returned answer, w2) ∧
    hits_of answer = Returned hits ∧
    Forall2 reshaped hits pool ∧
    field r "results" = Some (VList (List.filter (score_above score) pool)).
Proof.
  intros s k score r.
  apply (text_similarity_search_complete Script.env Scenario.cfg (VStr "alpha") k score s
           (App.text_similarity_search Script.env Scenario.cfg (VStr "alpha") k score s).2 r).
  - vm_compute; reflexivity.
  - reflexivity.
Defined.

(** With the threshold not-a-number nothing is kept. *)
Lemma text_similarity_search_nan_witness :
  let s := Script.start [Returned (VBool true); Returned Scenario.search_answer]
                        [Script.ok_json Scenario.embedding_body] [] in
  let k := VInt 10 in
  let score := NFloat S754_nan in
  let r := VDict {[ "status" := VStr "success";
                    "query_text" := VStr "alpha";
                    "results" := VList [];
                    "total" := VInt 0;
                    "score_threshold" := VFloat S754_nan;
                    "original_total" := VInt 2 ]} in
  (App.text_similarity_search Script.env Scenario.cfg (VStr "alpha") k score s).1 = Returned r ∧
  ∃ results,
    field r "results" = Some (VList results) ∧
    Forall (λ x, field x "score" ≠ Some (VFloat S754_nan)) results ∧
    (score = NFloat S754_nan → results = [] ∧ field r "total" = Some (VInt 0)).
Proof.
  intros s k score r. split; [vm_compute; reflexivity|].
  apply (text_similarity_search_nan Script.env Scenario.cfg (VStr "alpha") k score s
           (App.text_similarity_search Script.env Scenario.cfg (VStr "alpha") k score s).2 r).
  - vm_compute; reflexivity.
  - reflexivity.
Defined.

(** A hit with a null score: the tool raises a [TypeError]. *)
Lemma text_similarity_search_raises_on_null_score_witness :
  let s := Script.start [Returned (VBool true); Returned Scenario.search_answer_null]
                        [Script.ok_json Scenario.embedding_body] [] in
  let k := VInt 10 in
  let score := NFloat Scenario.half in
  let s1 := (App.generate_embedding Script.env Scenario.cfg (VStr "alpha") None s).2 in
  let s2 := (App.knn_search Script.env Scenario.cfg (Scenario.vector_of 1024) k s1).2 in
  ∃ e, App.text_similarity_search Script.env Scenario.cfg (VStr "alpha") k score s
       = (Raised e, s2)
       ∧ exn_kind e = TypeError.
Proof.
  intros s k score s1 s2.
  apply (text_similarity_search_raises_on_null_score Script.env Scenario.cfg (VStr "alpha") k
           score s s1 s2 (Scenario.vector_of 1024)
           (VDict {[ "status" := VStr "success";
                     "results" := VList [Scenario.result_null];
                     "total" := VInt 1 ]})
           [Scenario.result_null]).
  - vm_compute; reflexivity.
  - vm_compute; reflexivity.
  - reflexivity.
  - reflexivity.
  - exists Scenario.result_null, VNone. split; [constructor|]. split; reflexivity.
Defined.

(** Metadata that is not JSON: the error comes after the embedding
    request. *)
Lemma index_text_invalid_metadata_witness :
  let s := Script.start [] [Script.ok_json Scenario.embedding_body] [] in
  let s1 := (App.generate_embedding Script.env Scenario.cfg (VStr "alpha") None s).2 in
  App.index_text_with_embedding Script.env Scenario.cfg Scenario.loads (VStr "alpha")
    (Some "doc-1") "{oops" s
  = (Returned (error_result "Invalid metadata JSON format"), s1) ∧
  issued s1 = [HTTP (embedding_request "sk-test" (VStr "alpha") None)].
Proof.
  intros s s1. split; [|reflexivity].
  apply (index_text_invalid_metadata Script.env Scenario.cfg Scenario.loads (VStr "alpha")
           (Some "doc-1") "{oops" s s1 (Scenario.vector_of 1024)
           (Exn (OtherException "JSONDecodeError")
              "Expecting property name enclosed in double quotes: line 1 column 2 (char 1)")).
  - vm_compute; reflexivity.
  - discriminate.
  - reflexivity.
  - reflexivity.
Defined.

(** Metadata with one field, and an id: the document is written under the
    id with the text and the vector added. *)
Lemma index_text_document_witness :
  let s := Script.start [Returned (VBool true); Returned (Store.written "kb" "doc-1" true)]
             [Script.ok_json Scenario.embedding_body] [] in
  let s1 := (App.generate_embedding Script.env Scenario.cfg (VStr "alpha") None s).2 in
  let document := VDict {[ "lang" := VStr "en"; "text" := VStr "alpha";
                           "dense_vector" := Scenario.vector_of 1024 ]} in
  indexed_document {[ "lang" := VStr "en" ]} (VStr "alpha") (Scenario.vector_of 1024)
  = document ∧
  App.index_text_with_embedding Script.env Scenario.cfg Scenario.loads (VStr "alpha")
    (Some "doc-1") Scenario.metadata_text s
  = AosClient.write_document Script.env (App.aos_client Scenario.cfg) "doc-1"
      (indexed_document {[ "lang" := VStr "en" ]} (VStr "alpha") (Scenario.vector_of 1024)) s1.
Proof.
  intros s s1 document. split; [vm_compute; reflexivity|].
  apply (index_text_document Script.env Scenario.cfg Scenario.loads (VStr "alpha")
           (Some "doc-1") Scenario.metadata_text {[ "lang" := VStr "en" ]} s s1
           (Scenario.vector_of 1024)).
  - vm_compute; reflexivity.
  - right. split; [discriminate | reflexivity].
Defined.

(** Metadata that is a JSON array: the tool raises a [TypeError]. *)
Lemma index_text_metadata_not_an_object_witness :
  let s := Script.start [] [Script.ok_json Scenario.embedding_body] [] in
  let s1 := (App.generate_embedding Script.env Scenario.cfg (VStr "alpha") None s).2 in
  ∃ e, App.index_text_with_embedding Script.env Scenario.cfg Scenario.loads (VStr "alpha")
         None "[1]" s = (Raised e, s1)
       ∧ exn_kind e = TypeError.
Proof.
  intros s s1.
  apply (index_text_metadata_not_an_object Script.env Scenario.cfg Scenario.loads (VStr "alpha")
           None "[1]" (VList [VInt 1]) s s1 (Scenario.vector_of 1024)).
  - vm_compute; reflexivity.
  - discriminate.
  - reflexivity.
  - discriminate.
Defined.

(** The expected token behind the prefix is allowed, another one denied. *)
Lemma lambda_handler_allows_witness :
  Authorizer.lambda_handler (Some "secret") (VDict (Scenario.event "Bearer secret"))
  = Returned (policy "Allow" Scenario.method_arn) ∧
  Authorizer.lambda_handler (Some "secret") (VDict (Scenario.event "Bearer other"))
  = Returned (policy "Deny" Scenario.method_arn).
Proof.
  split.
  - destruct (lambda_handler_allows (Some "secret") (Scenario.event "Bearer secret")
                "Bearer secret" Scenario.method_arn eq_refl eq_refl)
      as (effect & Hrun & _ & Hallow).
    rewrite Hrun. f_equal. f_equal. apply Hallow.
    exists "secret". split; [reflexivity|]. left. reflexivity.
  - destruct (lambda_handler_allows (Some "secret") (Scenario.event "Bearer other")
                "Bearer other" Scenario.method_arn eq_refl eq_refl)
      as (effect & Hrun & [Heffect|Heffect] & Hallow).
    + apply Hallow in Heffect as (tok & [= <-] & [Hheader|[Hheader _]]); discriminate Hheader.
    + by rewrite Hrun, Heffect.
Defined.

(** An event without a token: denied when no token is expected, allowed
    when the expected token is the empty string. *)
Lemma lambda_handler_without_token_witness :
  Authorizer.lambda_handler None (VDict Scenario.event_without_token)
  = Returned (policy "Deny" Scenario.method_arn) ∧
  Authorizer.lambda_handler (Some "") (VDict Scenario.event_without_token)
  = Returned (policy "Allow" Scenario.method_arn).
Proof.
  destruct (lambda_handler_without_token Scenario.event_without_token Scenario.method_arn
              eq_refl) as [Hdeny Hallow].
  split.
  - apply (Hdeny ""). reflexivity.
  - apply Hallow. left. reflexivity.
Defined.

(** An endpoint that refuses the token: one request, then the error. *)
Lemma similarity_search_failed_initialize_witness :
  let s := State [Returned Scenario.unauthorized; Returned Scenario.search_result_answer] [] in
  SimilaritySearch.similarity_search Scenario.mcp_post Scenario.repr (VDict Scenario.tool_use) s
  = (Returned (SimilaritySearch.tool_error (VStr "tool-1") "Failed to initialize MCP session"),
     State [Returned Scenario.search_result_answer]
       (issued s ++ [HTTP (initialize_request Scenario.repr (VStr "https://mcp.example/mcp")
                             (VStr "secret"))])).
Proof.
  intros s.
  apply (similarity_search_failed_initialize Scenario.mcp_post Scenario.repr Scenario.tool_use
           Scenario.tool_input (VStr "tool-1") (VStr "alpha") (VStr "https://mcp.example/mcp")
           (VStr "secret") s (Returned Scenario.unauthorized)
           [Returned Scenario.search_result_answer]); try reflexivity.
  left. discriminate.
Defined.



